(** * CuraClinic booking flow: a shallow embedding and its properties

    The development follows the TypeScript sources of the clinic-booking
    application:

    - [src/lib/types.ts]: the row types ([Doctor], [Appointment], [ChatMessage]);
    - [src/components/doctors/BookingDialog.tsx]: the booking dialog for a
      doctor chosen beforehand;
    - [src/components/appointments/CreateAppointmentDialog.tsx]: the
      criteria-driven booking wizard;
    - [src/pages/Appointments.tsx]: the appointment list and [cancelAppointment];
    - [src/pages/Curax.tsx]: the chat page and [sendMessage].

    React state is a record per component, every handler is a function from
    the state before to the state after, and the calls to the backend run in
    a small state monad over a [World] that holds the tables, the toasts
    shown so far and the log of requests. *)

From Stdlib Require Import ZArith QArith Qcanon Lia.
From stdpp Require Import base decidable option list strings gmap numbers sorting pretty.

Local Open Scope string_scope.
Local Open Scope Z_scope.
Local Open Scope list_scope.

(** ** Row types ([src/lib/types.ts]) *)

Inductive Status := scheduled | confirmed | completed | cancelled.

#[global] Instance Status_eq_dec : EqDecision Status.
Proof. solve_decision. Defined.

Inductive Role := user | assistant.

#[global] Instance Role_eq_dec : EqDecision Role.
Proof. solve_decision. Defined.

(** A calendar day is kept as its day number; it stands for the
    ['yyyy-MM-dd'] text that [format] produces for it and that the DATE
    column holds. *)
Definition Day := Z.

Module Doctor.
Record t := mk {
  id : string;
  user_id : option string;
  name : string;
  specialization : string;
  experience_years : Z;
  bio : option string;
  avatar_url : option string;
  availability : gmap string bool;
  rating : Qc;
  consultation_fee : Qc;
  is_featured : bool;
  created_at : string;
}.

Definition with_availability (av : gmap string bool) (d : t) : t :=
  mk (id d) (user_id d) (name d) (specialization d) (experience_years d)
     (bio d) (avatar_url d) av (rating d) (consultation_fee d)
     (is_featured d) (created_at d).
End Doctor.

Module Appointment.
Record t := mk {
  id : string;
  patient_id : string;
  doctor_id : string;
  appointment_date : Day;
  appointment_time : string;
  status : Status;
  notes : option string;
  reminder_sent : bool;
  created_at : string;
  updated_at : string;
}.

(** [{ ...apt, status: s }] *)
Definition with_status (s : Status) (a : t) : t :=
  mk (id a) (patient_id a) (doctor_id a) (appointment_date a)
     (appointment_time a) s (notes a) (reminder_sent a)
     (created_at a) (updated_at a).

(** The (doctor, date, time) triple of a row. *)
Definition slot (a : t) : string * Day * string :=
  (doctor_id a, appointment_date a, appointment_time a).
End Appointment.

Module ChatMessage.
Record t := mk {
  id : string;
  user_id : string;
  role : Role;
  content : string;
  created_at : string;
}.
End ChatMessage.

(** ** The parts of date-fns the dialogs use

    A JavaScript [Date] is its number of milliseconds since the epoch.  The
    local time zone is taken to be UTC without daylight saving, so that a
    local day lasts [MS_PER_DAY] milliseconds and day [k] starts at
    [k * MS_PER_DAY]. *)
Module DateFns.
Definition Date := Z.
Definition MS_PER_DAY : Z := 86400000.

Definition startOfDay (d : Date) : Date := d - d `mod` MS_PER_DAY.
(** [startOfToday()] is [startOfDay(Date.now())]. *)
Definition startOfToday (now : Date) : Date := startOfDay now.
Definition addDays (d : Date) (amount : Z) : Date := d + amount * MS_PER_DAY.
Definition isBefore (d dateToCompare : Date) : bool := bool_decide (d < dateToCompare).

(** The day a [Date] falls on: what [format(d, 'yyyy-MM-dd')] prints. *)
Definition format_yyyy_MM_dd (d : Date) : Day := d `div` MS_PER_DAY.

(** The [Date] the calendar widget hands out for day [k]: its local
    midnight. *)
Definition calendarDate (k : Day) : Date := k * MS_PER_DAY.
End DateFns.

(** ** The calendar's [disabled] predicate

    Both dialogs pass the same function to [<Calendar disabled=...>]:
    [(date) => isBefore(date, startOfToday()) ||
               isBefore(addDays(new Date(), 30), date)]. *)
Module Calendar.
Import DateFns.

Definition disabled (now : Date) (date : Date) : bool :=
  isBefore date (startOfToday now) || isBefore (addDays now 30) date.

(** A day can be picked when the widget does not disable it. *)
Definition selectable (now : Date) (k : Day) : bool :=
  negb (disabled now (calendarDate k)).

Definition today (now : Date) : Day := format_yyyy_MM_dd now.
End Calendar.

(** ** The world outside the components *)

(** The error object of supabase-js: [error.code], [error.message]. *)
Record PostgrestError := { code : string; message : string }.

(** The payload of [from('appointments').insert({...})]: both dialogs send
    exactly these five columns. *)
Record AppointmentInsert := {
  ins_patient_id : string;
  ins_doctor_id : string;
  ins_appointment_date : Day;
  ins_appointment_time : string;
  ins_notes : option string;
}.

(** The query [fetchFilteredDoctors] builds: three comparisons that are
    always there, [.eq('specialization', ...)] when a specialization is
    chosen, and [.order('rating', { ascending: false })]. *)
Record DoctorQuery := {
  lte_consultation_fee : Qc;
  gte_rating : Qc;
  gte_experience_years : Z;
  eq_specialization : option string;
}.

(** [toast({ title, description, variant })]; [destructive] stands for
    [variant: 'destructive']. *)
Record Toast := { title : string; description : string; destructive : bool }.

(** The callbacks a dialog receives from the page that hosts it. *)
Inductive Callback :=
  | onOpenChange (newOpen : bool)
  | onAppointmentCreated.

(** Every request a component sends, in the order sent. *)
Inductive Request :=
  | SelectDoctors (q : DoctorQuery)
  | SelectBookedTimes (doctor_id : string) (day : Day)
  | InsertAppointment (row : AppointmentInsert)
  | UpdateAppointmentStatus (id : string) (s : Status)
  | SelectAppointments (patient_id : string)
  | InsertChatMessage (user_id : string) (role : Role) (content : string)
  | InvokeCuraxChat (message : string) (userId : string).

(** What the environment decides when it is consulted: whether the request
    fails before it reaches its table ([fault]: connectivity, permission,
    validation), the id and timestamp a new row gets, the text the assistant
    answers, and the reading of the client's clock. *)
Record Fate := {
  fault : option PostgrestError;
  uuid : string;
  stamp : string;
  reply : string;
  clock : Z;
}.

Record World := mkWorld {
  doctors : list Doctor.t;
  appointments : list Appointment.t;
  chat_messages : list ChatMessage.t;
  oracle : nat → Fate;
  tick : nat;
  requests : list Request;
  toasts : list Toast;
  calls : list Callback;
}.

(** *** A state monad over the world *)
Definition M (A : Type) : Type := World → A * World.

Definition ret {A} (a : A) : M A := λ w, (a, w).
Definition bind {A B} (m : M A) (k : A → M B) : M B :=
  λ w, let '(a, w') := m w in k a w'.

Notation "'let*' x ':=' m 'in' k" := (bind m (λ x, k))
  (at level 10, x name, m at level 100, k at level 200,
   format "'[v' 'let*'  x  ':='  m  'in' '/' k ']'").
Notation "m >> k" := (bind m (λ _, k)) (at level 80, right associativity).

Definition next_fate : M Fate := λ w,
  (oracle w (tick w),
   mkWorld (doctors w) (appointments w) (chat_messages w) (oracle w)
           (S (tick w)) (requests w) (toasts w) (calls w)).

Definition send (r : Request) : M Fate := λ w,
  next_fate
    (mkWorld (doctors w) (appointments w) (chat_messages w) (oracle w)
             (tick w) (requests w ++ [r]) (toasts w) (calls w)).

Definition toast (t : Toast) : M unit := λ w,
  (tt, mkWorld (doctors w) (appointments w) (chat_messages w) (oracle w)
               (tick w) (requests w) (toasts w ++ [t]) (calls w)).

Definition call (c : Callback) : M unit := λ w,
  (tt, mkWorld (doctors w) (appointments w) (chat_messages w) (oracle w)
               (tick w) (requests w) (toasts w) (calls w ++ [c])).

Definition get_doctors : M (list Doctor.t) := λ w, (doctors w, w).
Definition get_appointments : M (list Appointment.t) := λ w, (appointments w, w).

Definition put_appointments (rows : list Appointment.t) : M unit := λ w,
  (tt, mkWorld (doctors w) rows (chat_messages w) (oracle w)
               (tick w) (requests w) (toasts w) (calls w)).

Definition add_chat_message (m : ChatMessage.t) : M unit := λ w,
  (tt, mkWorld (doctors w) (appointments w) (chat_messages w ++ [m]) (oracle w)
               (tick w) (requests w) (toasts w) (calls w)).

(** ** The appointment ledger *)
Module Ledger.
(** Rows that still hold their slot. *)
Definition active (a : Appointment.t) : Prop := Appointment.status a ≠ cancelled.

Definition holds (s : string * Day * string) (a : Appointment.t) : Prop :=
  active a ∧ Appointment.slot a = s.

#[global] Instance holds_dec s a : Decision (holds s a).
Proof. unfold holds, active. apply _. Defined.

Definition taken (s : string * Day * string) (rows : list Appointment.t) : Prop :=
  Exists (holds s) rows.

(** The error Postgres raises for a unique violation. *)
Definition unique_violation : PostgrestError :=
  {| code := "23505";
     message := "duplicate key value violates unique constraint" |}.

(** Modelled from the spec: the column defaults of the appointments table
    are set by the same absent migration.  The spec names "scheduled" as the
    initial value of the status; the reminder has not been sent for a row
    that has just been made, and both timestamps are the time of creation. *)
Definition new_row (f : Fate) (r : AppointmentInsert) : Appointment.t :=
  Appointment.mk (uuid f) (ins_patient_id r) (ins_doctor_id r)
    (ins_appointment_date r) (ins_appointment_time r)
    scheduled (ins_notes r) false (stamp f) (stamp f).

(** Modelled from the spec: the migration that creates the appointments
    table and its unique index is not among the sources; only the client's
    handling of error code 23505 is.  The spec gives the contract followed
    here: an insert carries (patient, doctor, date, time, notes) and is
    answered with the created row, or with a conflict signal when the
    (doctor, date, time) triple already exists among the rows whose status
    is not "cancelled", and then nothing is stored. *)
Definition insert (f : Fate) (r : AppointmentInsert) (rows : list Appointment.t)
  : PostgrestError + list Appointment.t :=
  if decide (taken (ins_doctor_id r, ins_appointment_date r, ins_appointment_time r) rows)
  then inl unique_violation
  else inr (rows ++ [new_row f r]).

(** The uniqueness invariant: two rows at different positions that both
    hold their slot hold different slots. *)
Definition unique_active (rows : list Appointment.t) : Prop :=
  ∀ (i j : nat) (a b : Appointment.t),
    i ≠ j → rows !! i = Some a → rows !! j = Some b →
    active a → active b → Appointment.slot a ≠ Appointment.slot b.
End Ledger.

(** ** The supabase-js calls the components make *)
Module Supabase.
(** [from('doctors').select('*').lte(...).gte(...).gte(...)[.eq(...)]] *)
Definition matches (q : DoctorQuery) (d : Doctor.t) : Prop :=
  (Doctor.consultation_fee d ≤ lte_consultation_fee q)%Qc
  ∧ (gte_rating q ≤ Doctor.rating d)%Qc
  ∧ gte_experience_years q ≤ Doctor.experience_years d
  ∧ match eq_specialization q with
    | Some s => Doctor.specialization d = s
    | None => True
    end.

#[global] Instance matches_dec q d : Decision (matches q d).
Proof. unfold matches. destruct (eq_specialization q); apply _. Defined.

(** [.order('rating', { ascending: false })]: [a] may come before [b]. *)
Definition rating_desc (a b : Doctor.t) : Prop :=
  (Doctor.rating b ≤ Doctor.rating a)%Qc.

#[global] Instance rating_desc_dec : RelDecision rating_desc.
Proof. intros a b. unfold rating_desc. apply _. Defined.

(** Answers [Some data], or [None] for [{ data: null, error }]. *)
Definition select_doctors (q : DoctorQuery) : M (option (list Doctor.t)) :=
  let* f := send (SelectDoctors q) in
  match fault f with
  | Some _ => ret None
  | None =>
      let* table := get_doctors in
      ret (Some (merge_sort rating_desc (filter (matches q) table)))
  end.

(** [from('appointments').select('appointment_time').eq('doctor_id', d)
     .eq('appointment_date', day).neq('status', 'cancelled')] *)
Definition booked (d : string) (day : Day) (a : Appointment.t) : Prop :=
  Appointment.doctor_id a = d ∧ Appointment.appointment_date a = day
  ∧ Appointment.status a ≠ cancelled.

#[global] Instance booked_dec d day a : Decision (booked d day a).
Proof. unfold booked. apply _. Defined.

Definition select_booked_times (d : string) (day : Day) : M (option (list string)) :=
  let* f := send (SelectBookedTimes d day) in
  match fault f with
  | Some _ => ret None
  | None =>
      let* rows := get_appointments in
      ret (Some (Appointment.appointment_time <$> filter (booked d day) rows))
  end.

(** [from('appointments').insert(row)]: answers the [error] field. *)
Definition insert_appointment (row : AppointmentInsert) : M (option PostgrestError) :=
  let* f := send (InsertAppointment row) in
  match fault f with
  | Some e => ret (Some e)
  | None =>
      let* rows := get_appointments in
      match Ledger.insert f row rows with
      | inl e => ret (Some e)
      | inr rows' => put_appointments rows' >> ret None
      end
  end.

(** The three requests that the dialogs wait for, in two halves: [send]
    logs the request and settles its fate, and the answer is made from the
    tables as they are at that moment. *)
Definition answer_doctors (f : Fate) (q : DoctorQuery) : M (option (list Doctor.t)) :=
  match fault f with
  | Some _ => ret None
  | None =>
      let* table := get_doctors in
      ret (Some (merge_sort rating_desc (filter (matches q) table)))
  end.

Definition answer_booked_times (f : Fate) (d : string) (day : Day)
  : M (option (list string)) :=
  match fault f with
  | Some _ => ret None
  | None =>
      let* rows := get_appointments in
      ret (Some (Appointment.appointment_time <$> filter (booked d day) rows))
  end.

Definition answer_insert (f : Fate) (row : AppointmentInsert) : M (option PostgrestError) :=
  match fault f with
  | Some e => ret (Some e)
  | None =>
      let* rows := get_appointments in
      match Ledger.insert f row rows with
      | inl e => ret (Some e)
      | inr rows' => put_appointments rows' >> ret None
      end
  end.

(** The rows after [.update({ status: s }).eq('id', id)]. *)
Definition updated (id : string) (s : Status) (rows : list Appointment.t)
  : list Appointment.t :=
  (λ a, if decide (Appointment.id a = id) then Appointment.with_status s a else a)
    <$> rows.

Definition update_appointment_status (id : string) (s : Status)
  : M (option PostgrestError) :=
  let* f := send (UpdateAppointmentStatus id s) in
  match fault f with
  | Some e => ret (Some e)
  | None =>
      let* rows := get_appointments in
      put_appointments (updated id s rows) >> ret None
  end.

(** The list query of the appointments page: every column of the patient's
    rows, each with the doctor it refers to (the embedded [doctor] resource),
    [.eq('patient_id', p).order('appointment_date', { ascending: true })]. *)
Definition date_asc (a b : Appointment.t * option Doctor.t) : Prop :=
  Appointment.appointment_date a.1 ≤ Appointment.appointment_date b.1.

#[global] Instance date_asc_dec : RelDecision date_asc.
Proof. intros a b. unfold date_asc. apply _. Defined.

Definition with_doctor (table : list Doctor.t) (a : Appointment.t)
  : Appointment.t * option Doctor.t :=
  (a, snd <$> list_find (λ d, Doctor.id d = Appointment.doctor_id a) table).

Definition select_appointments (p : string)
  : M (option (list (Appointment.t * option Doctor.t))) :=
  let* f := send (SelectAppointments p) in
  match fault f with
  | Some _ => ret None
  | None =>
      let* rows := get_appointments in
      let* table := get_doctors in
      ret (Some (merge_sort date_asc
                   (with_doctor table <$> filter (λ a, Appointment.patient_id a = p) rows)))
  end.

(** [from('chat_messages').insert({ user_id, role, content })] *)
Definition insert_chat_message (uid : string) (r : Role) (text : string)
  : M (option PostgrestError) :=
  let* f := send (InsertChatMessage uid r text) in
  match fault f with
  | Some e => ret (Some e)
  | None =>
      add_chat_message (ChatMessage.mk (uuid f) uid r text (stamp f)) >> ret None
  end.

(** [functions.invoke('curax-chat', { body })]: [inr data.response], or
    [inl error]. *)
Definition invoke_curax_chat (msg uid : string) : M (PostgrestError + string) :=
  let* f := send (InvokeCuraxChat msg uid) in
  match fault f with
  | Some e => ret (inl e)
  | None => ret (inr (reply f))
  end.
End Supabase.

(** ** What both dialogs share *)

(** [useAuth().user] *)
Module User.
Record t := { id : string }.
End User.

(** [s.slice(start, end)] for [start <= end] within the text or beyond it. *)
Definition slice (s : string) (start end_ : nat) : string :=
  String.substring start (end_ - start) s.

Definition timeSlots : list string :=
  [ "09:00"; "09:30"; "10:00"; "10:30"; "11:00"; "11:30";
    "14:00"; "14:30"; "15:00"; "15:30"; "16:00"; "16:30"; "17:00" ].

(** [notes || null] *)
Definition or_null (s : string) : option string :=
  if decide (s = "") then None else Some s.

Definition slot_unavailable : Toast :=
  {| title := "Slot Unavailable";
     description := "This time slot has just been booked. Please choose another.";
     destructive := true |}.

Definition booking_failed (e : PostgrestError) : Toast :=
  {| title := "Booking Failed"; description := message e; destructive := true |}.

Definition appointment_booked (doctor_name : string) : Toast :=
  {| title := "Appointment Booked!";
     description := ("Your appointment with " +:+ doctor_name +:+ " is confirmed.")%string;
     destructive := false |}.

(** ** [BookingDialog]: booking with a doctor chosen on the doctors page *)
Module BookingDialog.
Import DateFns.

Inductive Step := date | time | confirm | success.

#[global] Instance Step_eq_dec : EqDecision Step.
Proof. solve_decision. Defined.

Record State := mkState {
  step : Step;
  selectedDate : option Date;
  selectedTime : option string;
  notes : string;
  loading : bool;
  bookedSlots : list string;
}.

Definition initial : State := mkState date None None "" false [].

Definition setStep (s : Step) (st : State) : State :=
  mkState s (selectedDate st) (selectedTime st) (notes st) (loading st) (bookedSlots st).
Definition setSelectedDate (d : option Date) (st : State) : State :=
  mkState (step st) d (selectedTime st) (notes st) (loading st) (bookedSlots st).
Definition setSelectedTime (t : option string) (st : State) : State :=
  mkState (step st) (selectedDate st) t (notes st) (loading st) (bookedSlots st).
Definition setNotes (n : string) (st : State) : State :=
  mkState (step st) (selectedDate st) (selectedTime st) n (loading st) (bookedSlots st).
Definition setLoading (b : bool) (st : State) : State :=
  mkState (step st) (selectedDate st) (selectedTime st) (notes st) b (bookedSlots st).
Definition setBookedSlots (l : list string) (st : State) : State :=
  mkState (step st) (selectedDate st) (selectedTime st) (notes st) (loading st) l.

Definition resetState (st : State) : State :=
  setBookedSlots [] (setNotes "" (setSelectedTime None (setSelectedDate None (setStep date st)))).

Definition handleOpenChange (newOpen : bool) (st : State) : M State :=
  let st := if newOpen then st else resetState st in
  call (onOpenChange newOpen) >> ret st.

Definition fetchBookedSlots (doctor : option Doctor.t) (d : Date) (st : State) : M State :=
  match doctor with
  | None => ret st
  | Some doc =>
      let* data := Supabase.select_booked_times (Doctor.id doc) (format_yyyy_MM_dd d) in
      match data with
      | Some rows => ret (setBookedSlots ((λ t, slice t 0 5) <$> rows) st)
      | None => ret st
      end
  end.

Definition handleDateSelect (doctor : option Doctor.t) (d : option Date) (st : State)
  : M State :=
  let st := setSelectedDate d st in
  match d with
  | Some d' =>
      let* st := fetchBookedSlots doctor d' st in
      ret (setStep time st)
  | None => ret st
  end.

Definition handleTimeSelect (t : string) (st : State) : State :=
  setStep confirm (setSelectedTime (Some t) st).

Definition handleBooking (auth : option User.t) (doctor : option Doctor.t) (st : State)
  : M State :=
  match auth, doctor, selectedDate st, selectedTime st with
  | Some u, Some doc, Some d, Some t =>
      if decide (t = "") then ret st else
      let st := setLoading true st in
      let* error := Supabase.insert_appointment
        {| ins_patient_id := User.id u;
           ins_doctor_id := Doctor.id doc;
           ins_appointment_date := format_yyyy_MM_dd d;
           ins_appointment_time := t;
           ins_notes := or_null (notes st) |} in
      let st := setLoading false st in
      match error with
      | Some e =>
          if decide (code e = "23505") then
            toast slot_unavailable >>
            fetchBookedSlots doctor d (setStep time st)
          else
            toast (booking_failed e) >> ret st
      | None =>
          let st := setStep success st in
          toast (appointment_booked (Doctor.name doc)) >> ret st
      end
  | _, _, _, _ => ret st
  end.

(** *** What the dialog shows *)

(** The calendar of the date step: for a [Date] of the widget, whether it
    is disabled.  Nothing is rendered without a doctor. *)
Definition calendar (doctor : option Doctor.t) (st : State) (now d : Date) : option bool :=
  match doctor with
  | Some _ => if decide (step st = date) then Some (Calendar.disabled now d) else None
  | None => None
  end.

(** The buttons of the time step: each slot with its [disabled] flag. *)
Definition slotButtons (doctor : option Doctor.t) (st : State)
  : option (list (string * bool)) :=
  match doctor, selectedDate st with
  | Some _, Some _ =>
      if decide (step st = time)
      then Some ((λ t, (t, bool_decide (t ∈ bookedSlots st))) <$> timeSlots)
      else None
  | _, _ => None
  end.

(** *** Runs of the dialog *)
Inductive Event :=
  | DateSelect (d : option Date)
  | TimeSelect (t : string)
  | NotesChange (n : string)
  | Back (s : Step)
  | Booking
  | OpenChange (newOpen : bool).

Definition handle (auth : option User.t) (doctor : option Doctor.t) (e : Event)
    (st : State) : M State :=
  match e with
  | DateSelect d => handleDateSelect doctor d st
  | TimeSelect t => ret (handleTimeSelect t st)
  | NotesChange n => ret (setNotes n st)
  | Back s => ret (setStep s st)
  | Booking => handleBooking auth doctor st
  | OpenChange b => handleOpenChange b st
  end.

Fixpoint run (auth : option User.t) (doctor : option Doctor.t) (es : list Event)
    (st : State) : M State :=
  match es with
  | [] => ret st
  | e :: es => let* st := handle auth doctor e st in run auth doctor es st
  end.
End BookingDialog.

(** ** [CreateAppointmentDialog]: the criteria-driven booking wizard *)
Module CreateAppointmentDialog.
Import DateFns.

Inductive Step := criteria | doctor | date | time | confirm | success.

#[global] Instance Step_eq_dec : EqDecision Step.
Proof. solve_decision. Defined.

(** The slider states [maxFee], [minRating] and [minExperience] are
    one-element arrays in the source; the record keeps their element. *)
Record State := mkState {
  step : Step;
  selectedSpecialization : string;
  maxFee : Qc;
  minRating : Qc;
  minExperience : Z;
  doctors : list Doctor.t;
  loadingDoctors : bool;
  selectedDoctor : option Doctor.t;
  selectedDate : option Date;
  selectedTime : option string;
  notes : string;
  loading : bool;
  bookedSlots : list string;
}.

Definition initial : State :=
  mkState criteria "All Specializations" (Qc_of_Z 500) (Qc_of_Z 3) 0 [] false
          None None None "" false [].

Definition setStep (s : Step) (st : State) : State :=
  mkState s (selectedSpecialization st) (maxFee st) (minRating st) (minExperience st)
    (doctors st) (loadingDoctors st) (selectedDoctor st) (selectedDate st)
    (selectedTime st) (notes st) (loading st) (bookedSlots st).
Definition setCriteria (spec : string) (fee rating : Qc) (experience : Z) (st : State)
  : State :=
  mkState (step st) spec fee rating experience
    (doctors st) (loadingDoctors st) (selectedDoctor st) (selectedDate st)
    (selectedTime st) (notes st) (loading st) (bookedSlots st).
Definition setDoctors (l : list Doctor.t) (st : State) : State :=
  mkState (step st) (selectedSpecialization st) (maxFee st) (minRating st) (minExperience st)
    l (loadingDoctors st) (selectedDoctor st) (selectedDate st)
    (selectedTime st) (notes st) (loading st) (bookedSlots st).
Definition setLoadingDoctors (b : bool) (st : State) : State :=
  mkState (step st) (selectedSpecialization st) (maxFee st) (minRating st) (minExperience st)
    (doctors st) b (selectedDoctor st) (selectedDate st)
    (selectedTime st) (notes st) (loading st) (bookedSlots st).
Definition setSelectedDoctor (d : option Doctor.t) (st : State) : State :=
  mkState (step st) (selectedSpecialization st) (maxFee st) (minRating st) (minExperience st)
    (doctors st) (loadingDoctors st) d (selectedDate st)
    (selectedTime st) (notes st) (loading st) (bookedSlots st).
Definition setSelectedDate (d : option Date) (st : State) : State :=
  mkState (step st) (selectedSpecialization st) (maxFee st) (minRating st) (minExperience st)
    (doctors st) (loadingDoctors st) (selectedDoctor st) d
    (selectedTime st) (notes st) (loading st) (bookedSlots st).
Definition setSelectedTime (t : option string) (st : State) : State :=
  mkState (step st) (selectedSpecialization st) (maxFee st) (minRating st) (minExperience st)
    (doctors st) (loadingDoctors st) (selectedDoctor st) (selectedDate st)
    t (notes st) (loading st) (bookedSlots st).
Definition setNotes (n : string) (st : State) : State :=
  mkState (step st) (selectedSpecialization st) (maxFee st) (minRating st) (minExperience st)
    (doctors st) (loadingDoctors st) (selectedDoctor st) (selectedDate st)
    (selectedTime st) n (loading st) (bookedSlots st).
Definition setLoading (b : bool) (st : State) : State :=
  mkState (step st) (selectedSpecialization st) (maxFee st) (minRating st) (minExperience st)
    (doctors st) (loadingDoctors st) (selectedDoctor st) (selectedDate st)
    (selectedTime st) (notes st) b (bookedSlots st).
Definition setBookedSlots (l : list string) (st : State) : State :=
  mkState (step st) (selectedSpecialization st) (maxFee st) (minRating st) (minExperience st)
    (doctors st) (loadingDoctors st) (selectedDoctor st) (selectedDate st)
    (selectedTime st) (notes st) (loading st) l.

Definition resetState (st : State) : State :=
  mkState criteria "All Specializations" (Qc_of_Z 500) (Qc_of_Z 3) 0 []
    (loadingDoctors st) None None None "" (loading st) [].

Definition handleOpenChange (newOpen : bool) (st : State) : M State :=
  let st := if newOpen then st else resetState st in
  call (onOpenChange newOpen) >> ret st.

(** The query the four criteria turn into. *)
Definition query (st : State) : DoctorQuery :=
  {| lte_consultation_fee := maxFee st;
     gte_rating := minRating st;
     gte_experience_years := minExperience st;
     eq_specialization :=
       if decide (selectedSpecialization st ≠ "All Specializations")
       then Some (selectedSpecialization st) else None |}.

Definition fetchFilteredDoctors (st : State) : M State :=
  let st := setLoadingDoctors true st in
  let* data := Supabase.select_doctors (query st) in
  let st := match data with
            | Some rows => setDoctors rows st
            | None => st
            end in
  ret (setLoadingDoctors false st).

Definition fetchBookedSlots (d : Date) (st : State) : M State :=
  match selectedDoctor st with
  | None => ret st
  | Some doc =>
      let* data := Supabase.select_booked_times (Doctor.id doc) (format_yyyy_MM_dd d) in
      match data with
      | Some rows => ret (setBookedSlots ((λ t, slice t 0 5) <$> rows) st)
      | None => ret st
      end
  end.

Definition handleApplyCriteria (st : State) : M State :=
  let* st := fetchFilteredDoctors st in
  ret (setStep doctor st).

Definition handleSelectDoctor (d : Doctor.t) (st : State) : State :=
  setStep date (setSelectedDoctor (Some d) st).

Definition handleDateSelect (d : option Date) (st : State) : M State :=
  let st := setSelectedDate d st in
  match d with
  | Some d' =>
      let* st := fetchBookedSlots d' st in
      ret (setStep time st)
  | None => ret st
  end.

Definition handleTimeSelect (t : string) (st : State) : State :=
  setStep confirm (setSelectedTime (Some t) st).

Definition handleBooking (auth : option User.t) (st : State) : M State :=
  match auth, selectedDoctor st, selectedDate st, selectedTime st with
  | Some u, Some doc, Some d, Some t =>
      if decide (t = "") then ret st else
      let st := setLoading true st in
      let* error := Supabase.insert_appointment
        {| ins_patient_id := User.id u;
           ins_doctor_id := Doctor.id doc;
           ins_appointment_date := format_yyyy_MM_dd d;
           ins_appointment_time := t;
           ins_notes := or_null (notes st) |} in
      let st := setLoading false st in
      match error with
      | Some e =>
          if decide (code e = "23505") then
            toast slot_unavailable >>
            fetchBookedSlots d (setStep time st)
          else
            toast (booking_failed e) >> ret st
      | None =>
          let st := setStep success st in
          toast (appointment_booked (Doctor.name doc)) >>
          call onAppointmentCreated >>
          ret st
      end
  | _, _, _, _ => ret st
  end.

(** *** What the wizard shows *)
Definition calendar (st : State) (now d : Date) : option bool :=
  if decide (step st = date) then Some (Calendar.disabled now d) else None.

Definition slotButtons (st : State) : option (list (string * bool)) :=
  match selectedDate st with
  | Some _ =>
      if decide (step st = time)
      then Some ((λ t, (t, bool_decide (t ∈ bookedSlots st))) <$> timeSlots)
      else None
  | None => None
  end.

(** *** Runs of the wizard *)
Inductive Event :=
  | CriteriaChange (spec : string) (fee rating : Qc) (experience : Z)
  | ApplyCriteria
  | SelectDoctor (i : nat)
  | DateSelect (d : option Date)
  | TimeSelect (t : string)
  | NotesChange (n : string)
  | Back (s : Step)
  | Booking
  | OpenChange (newOpen : bool).

Definition handle (auth : option User.t) (e : Event) (st : State) : M State :=
  match e with
  | CriteriaChange spec fee rating experience =>
      ret (setCriteria spec fee rating experience st)
  | ApplyCriteria => handleApplyCriteria st
  | SelectDoctor i =>
      match doctors st !! i with
      | Some d => ret (handleSelectDoctor d st)
      | None => ret st
      end
  | DateSelect d => handleDateSelect d st
  | TimeSelect t => ret (handleTimeSelect t st)
  | NotesChange n => ret (setNotes n st)
  | Back s => ret (setStep s st)
  | Booking => handleBooking auth st
  | OpenChange b => handleOpenChange b st
  end.

Fixpoint run (auth : option User.t) (es : list Event) (st : State) : M State :=
  match es with
  | [] => ret st
  | e :: es => let* st := handle auth e st in run auth es st
  end.
End CreateAppointmentDialog.

(** ** The appointments page ([src/pages/Appointments.tsx]) *)
Module Appointments.
(** A row of the list: [Appointment & { doctor: Doctor }]. *)
Record State := mkState {
  appointments : list (Appointment.t * option Doctor.t);
  loading : bool;
  createDialogOpen : bool;
}.

Definition setAppointments (l : list (Appointment.t * option Doctor.t)) (st : State)
  : State := mkState l (loading st) (createDialogOpen st).
Definition setLoading (b : bool) (st : State) : State :=
  mkState (appointments st) b (createDialogOpen st).
Definition setCreateDialogOpen (b : bool) (st : State) : State :=
  mkState (appointments st) (loading st) b.

Definition fetchAppointments (auth : option User.t) (st : State) : M State :=
  match auth with
  | None => ret st
  | Some u =>
      let* data := Supabase.select_appointments (User.id u) in
      let st := match data with
                | Some rows => setAppointments rows st
                | None => st
                end in
      ret (setLoading false st)
  end.

Definition cancel_failed : Toast :=
  {| title := "Error"; description := "Failed to cancel appointment";
     destructive := true |}.

Definition cancel_done : Toast :=
  {| title := "Appointment Cancelled";
     description := "Your appointment has been cancelled successfully.";
     destructive := false |}.

(** [prev.map(apt => apt.id === appointmentId
                      ? { ...apt, status: 'cancelled' } : apt)] *)
Definition markCancelled (appointmentId : string)
    (prev : list (Appointment.t * option Doctor.t))
  : list (Appointment.t * option Doctor.t) :=
  (λ apt, if decide (Appointment.id apt.1 = appointmentId)
          then (Appointment.with_status cancelled apt.1, apt.2) else apt) <$> prev.

Definition cancelAppointment (appointmentId : string) (st : State) : M State :=
  let* error := Supabase.update_appointment_status appointmentId cancelled in
  match error with
  | Some _ => toast cancel_failed >> ret st
  | None =>
      let st := setAppointments (markCancelled appointmentId (appointments st)) st in
      toast cancel_done >> ret st
  end.

(** The page passes [setCreateDialogOpen] and [fetchAppointments] to the
    wizard as [onOpenChange] and [onAppointmentCreated]. *)
Definition deliver (auth : option User.t) (c : Callback) (st : State) : M State :=
  match c with
  | onOpenChange b => ret (setCreateDialogOpen b st)
  | onAppointmentCreated => fetchAppointments auth st
  end.
End Appointments.

(** ** The chat page ([src/pages/Curax.tsx]) *)
Module Curax.
Record State := mkState {
  messages : list ChatMessage.t;
  input : string;
  loading : bool;
  historyLoading : bool;
}.

Definition setMessages (l : list ChatMessage.t) (st : State) : State :=
  mkState l (input st) (loading st) (historyLoading st).
Definition setInput (s : string) (st : State) : State :=
  mkState (messages st) s (loading st) (historyLoading st).
Definition setLoading (b : bool) (st : State) : State :=
  mkState (messages st) (input st) b (historyLoading st).

(** Texts are held as their UTF-8 bytes.  [utf8 cp] is the encoding of a
    code point of the Basic Multilingual Plane. *)
Definition utf8 (cp : N) : list Ascii.ascii :=
  if (cp <? 0x80)%N then [Ascii.ascii_of_N cp]
  else if (cp <? 0x800)%N then
    [Ascii.ascii_of_N (0xC0 + cp / 64); Ascii.ascii_of_N (0x80 + cp mod 64)]
  else
    [Ascii.ascii_of_N (0xE0 + cp / 4096);
     Ascii.ascii_of_N (0x80 + (cp / 64) mod 64);
     Ascii.ascii_of_N (0x80 + cp mod 64)].

(** The code points that [String.prototype.trim] strips: the WhiteSpace of
    ECMAScript (TAB, VT, FF, SP, NBSP, ZWNBSP and the space separators of
    Unicode) and its LineTerminator (LF, CR, LS, PS). *)
Definition whiteSpace : list N :=
  [0x09; 0x0B; 0x0C; 0x20; 0xA0; 0xFEFF;
   0x1680; 0x2000; 0x2001; 0x2002; 0x2003; 0x2004; 0x2005; 0x2006; 0x2007;
   0x2008; 0x2009; 0x200A; 0x202F; 0x205F; 0x3000;
   0x0A; 0x0D; 0x2028; 0x2029]%N.

(** The bytes of a text, and the text of some bytes. *)
Definition bytes (s : string) : list Ascii.ascii :=
  Stdlib.Strings.String.list_ascii_of_string s.
Definition text (l : list Ascii.ascii) : string :=
  Stdlib.Strings.String.string_of_list_ascii l.

(** [l] without its prefix [e], if it starts with [e]. *)
Fixpoint dropPrefix (e l : list Ascii.ascii) : option (list Ascii.ascii) :=
  match e, l with
  | [], _ => Some l
  | a :: e, b :: l => if decide (a = b) then dropPrefix e l else None
  | _ :: _, [] => None
  end.

(** [l] without the first of the [encodings] it starts with. *)
Fixpoint dropFirst (encodings : list (list Ascii.ascii)) (l : list Ascii.ascii)
    : option (list Ascii.ascii) :=
  match encodings with
  | [] => None
  | e :: encodings =>
      match dropPrefix e l with
      | Some l' => Some l'
      | None => dropFirst encodings l
      end
  end.

(** Dropping leading [encodings], at most [n] times. *)
Fixpoint stripN (encodings : list (list Ascii.ascii)) (n : nat) (l : list Ascii.ascii)
    : list Ascii.ascii :=
  match n with
  | O => l
  | S n =>
      match dropFirst encodings l with
      | Some l' => stripN encodings n l'
      | None => l
      end
  end.

Definition trimStartBytes (l : list Ascii.ascii) : list Ascii.ascii :=
  stripN (utf8 <$> whiteSpace) (length l) l.

Definition trimEndBytes (l : list Ascii.ascii) : list Ascii.ascii :=
  reverse (stripN ((λ cp, reverse (utf8 cp)) <$> whiteSpace) (length l) (reverse l)).

(** [s.trimStart()] *)
Definition trimStart (s : string) : string :=
  text (trimStartBytes (bytes s)).

(** [s.trim()] *)
Definition trim (s : string) : string :=
  text (trimEndBytes (trimStartBytes (bytes s))).

Definition chat_failed : Toast :=
  {| title := "Error";
     description := "Failed to get response. Please try again.";
     destructive := true |}.

(** [Date.now()] and [new Date().toISOString()] read the client's clock:
    [clock] is the number and [stamp] the ISO text of one reading. *)
Definition read_clock : M Fate := next_fate.

Definition sendMessage (auth : option User.t) (st : State) : M State :=
  match auth with
  | None => ret st
  | Some u =>
      if decide (trim (input st) = "") then ret st else
      if loading st then ret st else
      let userMessage := trim (input st) in
      let st := setLoading true (setInput "" st) in
      let* now := read_clock in
      let tempUserMsg :=
        ChatMessage.mk ("temp-" +:+ pretty (clock now))%string (User.id u) user
                       userMessage (stamp now) in
      let st := setMessages (messages st ++ [tempUserMsg]) st in
      (* try *)
      Supabase.insert_chat_message (User.id u) user userMessage >>
      let* r := Supabase.invoke_curax_chat userMessage (User.id u) in
      match r with
      | inl error =>
          (* if (error) throw error; caught below *)
          toast chat_failed >> ret (setLoading false st)
      | inr assistantMessage =>
          Supabase.insert_chat_message (User.id u) assistant assistantMessage >>
          let* now := read_clock in
          let assistantMsg :=
            ChatMessage.mk ("temp-assistant-" +:+ pretty (clock now))%string (User.id u)
                           assistant assistantMessage (stamp now) in
          ret (setLoading false (setMessages (messages st ++ [assistantMsg]) st))
      end
  end.
End Curax.

(** ** The statements' vocabulary *)

(** The four criteria as the booking flow's description words them: fee at
    most [F], rating at least [R], experience at least [E], and the
    specialization [S] unless [S] is "All Specializations". *)
Definition satisfies (S : string) (F R : Qc) (E : Z) (d : Doctor.t) : Prop :=
  (Doctor.consultation_fee d ≤ F)%Qc
  ∧ (R ≤ Doctor.rating d)%Qc
  ∧ E ≤ Doctor.experience_years d
  ∧ (S = "All Specializations" ∨ Doctor.specialization d = S).

#[global] Instance satisfies_dec S F R E d : Decision (satisfies S F R E d).
Proof. unfold satisfies. apply _. Defined.

#[global] Instance rating_desc_total : Total Supabase.rating_desc.
Proof.
  intros a b. unfold Supabase.rating_desc.
  destruct (total Qcle (Doctor.rating a) (Doctor.rating b)); auto.
Defined.

(** The row [handleBooking] asks the ledger to insert. *)
Definition booking_row (u : User.t) (doc : Doctor.t) (d : DateFns.Date) (t notes : string)
  : AppointmentInsert :=
  {| ins_patient_id := User.id u;
     ins_doctor_id := Doctor.id doc;
     ins_appointment_date := DateFns.format_yyyy_MM_dd d;
     ins_appointment_time := t;
     ins_notes := or_null notes |}.

(** The occupied-slot set of a doctor's day, as [fetchBookedSlots] stores it. *)
Definition occupied (doc : Doctor.t) (d : DateFns.Date) (rows : list Appointment.t)
  : list string :=
  (λ t, slice t 0 5) <$>
    (Appointment.appointment_time <$>
       filter (Supabase.booked (Doctor.id doc) (DateFns.format_yyyy_MM_dd d)) rows).

(** *** Sample data: the end-to-end scenario of the booking flow *)

Definition quiet : nat → Fate := λ _,
  {| fault := None; uuid := "apt-1"; stamp := "2026-03-01T08:00:00Z";
     reply := "Drink water."; clock := 1772352000000 |}.

(** The network is down for every request. *)
Definition offline : nat → Fate := λ _,
  {| fault := Some {| code := "503"; message := "Failed to fetch" |};
     uuid := ""; stamp := ""; reply := ""; clock := 1772352000000 |}.

Definition doctor_D (av : gmap string bool) : Doctor.t :=
  Doctor.mk "doc-D" None "Dr. D" "Cardiologist" 10 None None av
            (Q2Qc (45 # 10)) (Qc_of_Z 100) false "2026-01-01T00:00:00Z".

Definition patient_1 : User.t := {| User.id := "patient-1" |}.
Definition patient_2 : User.t := {| User.id := "patient-2" |}.

(** 2026-03-10 is day 20522; the calendar hands out its midnight. *)
Definition march_10 : DateFns.Date := DateFns.calendarDate 20522.

Definition world_0 (net : nat → Fate) : World :=
  mkWorld [doctor_D ∅] [] [] net 0 [] [] [].

(** The ledger after patient 1 booked (D, 2026-03-10, 09:00). *)
Definition world_1 (net : nat → Fate) : World :=
  mkWorld [doctor_D ∅]
    [Appointment.mk "apt-0" "patient-1" "doc-D" 20522 "09:00" scheduled
       (Some "checkup") false "2026-03-01T07:00:00Z" "2026-03-01T07:00:00Z"]
    [] net 0 [] [] [].

Definition dialog_confirm : BookingDialog.State :=
  BookingDialog.mkState BookingDialog.confirm (Some march_10) (Some "09:00")
    "checkup" false [].

Definition wizard_confirm : CreateAppointmentDialog.State :=
  CreateAppointmentDialog.mkState CreateAppointmentDialog.confirm
    "Cardiologist" (Qc_of_Z 150) (Qc_of_Z 4) 5 [doctor_D ∅] false
    (Some (doctor_D ∅)) (Some march_10) (Some "09:00") "checkup" false [].

(** *** Sequences of client operations on the ledger

    The operations of the client that write to the appointments table: a
    booking attempt from either dialog, in any state of the dialog, and a
    cancellation from the appointments page. *)
Inductive ClientOp :=
  | BookInDialog (auth : option User.t) (doctor : option Doctor.t)
                 (st : BookingDialog.State)
  | BookInWizard (auth : option User.t) (st : CreateAppointmentDialog.State)
  | CancelOnPage (appointmentId : string) (st : Appointments.State).

Definition perform (op : ClientOp) : M unit :=
  match op with
  | BookInDialog auth doctor st => BookingDialog.handleBooking auth doctor st >> ret tt
  | BookInWizard auth st => CreateAppointmentDialog.handleBooking auth st >> ret tt
  | CancelOnPage appointmentId st => Appointments.cancelAppointment appointmentId st >> ret tt
  end.

Fixpoint perform_all (ops : list ClientOp) : M unit :=
  match ops with
  | [] => ret tt
  | op :: ops => perform op >> perform_all ops
  end.

(** Two rows that agree on every column except, possibly, [status]. *)
Definition same_but_status (a a' : Appointment.t) : Prop :=
  Appointment.id a' = Appointment.id a
  ∧ Appointment.patient_id a' = Appointment.patient_id a
  ∧ Appointment.doctor_id a' = Appointment.doctor_id a
  ∧ Appointment.appointment_date a' = Appointment.appointment_date a
  ∧ Appointment.appointment_time a' = Appointment.appointment_time a
  ∧ Appointment.notes a' = Appointment.notes a
  ∧ Appointment.reminder_sent a' = Appointment.reminder_sent a
  ∧ Appointment.created_at a' = Appointment.created_at a
  ∧ Appointment.updated_at a' = Appointment.updated_at a.

(** The appointments page listing the one appointment of [world_1]. *)
Definition page_1 : Appointments.State :=
  Appointments.mkState
    [(Appointment.mk "apt-0" "patient-1" "doc-D" 20522 "09:00" scheduled
        (Some "checkup") false "2026-03-01T07:00:00Z" "2026-03-01T07:00:00Z",
      Some (doctor_D ∅))]
    false false.

(** The chat page with a message typed in. *)
Definition chat_hello : Curax.State := Curax.mkState [] "  hello " false false.

(** Only the assistant gateway is down: the third consultation of the
    environment by [sendMessage] (after the clock reading and the insert of
    the user's message) fails. *)
Definition gateway_down : nat → Fate := λ n,
  if decide (n = 2%nat) then offline n else quiet n.

(** *** Doctors up to their availability

    [forget] blanks the weekly availability map of a doctor; two doctors
    that are identical except in that field are the same once it is
    forgotten.  The same for the wizard's state (the list of doctors found
    and the doctor chosen) and for the world (the doctors table). *)
Definition forget (d : Doctor.t) : Doctor.t := Doctor.with_availability ∅ d.

Definition forget_state (st : CreateAppointmentDialog.State)
  : CreateAppointmentDialog.State :=
  CreateAppointmentDialog.setSelectedDoctor
    (forget <$> CreateAppointmentDialog.selectedDoctor st)
    (CreateAppointmentDialog.setDoctors
       (forget <$> CreateAppointmentDialog.doctors st) st).

Definition forget_world (w : World) : World :=
  mkWorld (forget <$> doctors w) (appointments w) (chat_messages w) (oracle w)
          (tick w) (requests w) (toasts w) (calls w).

Definition forget_result (r : CreateAppointmentDialog.State * World)
  : CreateAppointmentDialog.State * World :=
  (forget_state r.1, forget_world r.2).

(** Doctor D, not available on Mondays and Tuesdays; 2026-03-10 is a Tuesday. *)
Definition busy_week : gmap string bool :=
  {[ "Monday" := false; "Tuesday" := false; "Wednesday" := true ]}.

(** The world of the scenario with that doctor D instead. *)
Definition world_busy (net : nat → Fate) : World :=
  mkWorld [doctor_D busy_week] [] [] net 0 [] [] [].

(** The scenario as a run of the wizard. *)
Definition scenario : list CreateAppointmentDialog.Event :=
  [ CreateAppointmentDialog.CriteriaChange "Cardiologist" (Qc_of_Z 150) (Qc_of_Z 4) 5;
    CreateAppointmentDialog.ApplyCriteria;
    CreateAppointmentDialog.SelectDoctor 0;
    CreateAppointmentDialog.DateSelect (Some march_10);
    CreateAppointmentDialog.TimeSelect "09:00";
    CreateAppointmentDialog.NotesChange "checkup";
    CreateAppointmentDialog.Booking ].

(** ** The two tabs of the appointments page ([src/pages/Appointments.tsx])

    [instant date time] stands for
    [new Date(`${apt.appointment_date}T${apt.appointment_time}`)]: the
    milliseconds of the instant the two texts denote, or [None] for an
    Invalid Date.  A comparison with an Invalid Date is false either way. *)
Module AppointmentTabs.
(** [t >= new Date()] *)
Definition notBefore (t : option Z) (now : Z) : Prop :=
  match t with Some x => now ≤ x | None => False end.

(** [t < new Date()] *)
Definition before (t : option Z) (now : Z) : Prop :=
  match t with Some x => x < now | None => False end.

#[global] Instance notBefore_dec t now : Decision (notBefore t now).
Proof. destruct t; simpl; apply _. Defined.

#[global] Instance before_dec t now : Decision (before t now).
Proof. destruct t; simpl; apply _. Defined.

Definition upcoming (instant : Day → string → option Z) (now : Z)
    (apt : Appointment.t * option Doctor.t) : Prop :=
  Appointment.status apt.1 ≠ cancelled
  ∧ Appointment.status apt.1 ≠ completed
  ∧ notBefore (instant (Appointment.appointment_date apt.1)
                       (Appointment.appointment_time apt.1)) now.

Definition past (instant : Day → string → option Z) (now : Z)
    (apt : Appointment.t * option Doctor.t) : Prop :=
  Appointment.status apt.1 = completed
  ∨ Appointment.status apt.1 = cancelled
  ∨ before (instant (Appointment.appointment_date apt.1)
                    (Appointment.appointment_time apt.1)) now.

#[global] Instance upcoming_dec instant now apt : Decision (upcoming instant now apt).
Proof. unfold upcoming. apply _. Defined.

#[global] Instance past_dec instant now apt : Decision (past instant now apt).
Proof. unfold past. apply _. Defined.

(** Whether the callback gets as far as [new Date()]: [&&] and [||] stop at
    the status of a cancelled or completed appointment. *)
Definition readsClock (apt : Appointment.t * option Doctor.t) : bool :=
  bool_decide (Appointment.status apt.1 ≠ cancelled
               ∧ Appointment.status apt.1 ≠ completed).

(** [appointments.filter(callback)] for a callback that evaluates
    [new Date()] itself: every evaluation is a reading of its own, [clock k]
    being the [k]-th one.  The result is the list kept and the number of the
    next reading. *)
Fixpoint filterReading (callback : Z → Appointment.t * option Doctor.t → Prop)
    `{!∀ now apt, Decision (callback now apt)} (clock : nat → Z) (k : nat)
    (l : list (Appointment.t * option Doctor.t))
    : list (Appointment.t * option Doctor.t) * nat :=
  match l with
  | [] => ([], k)
  | apt :: l =>
      let r := filterReading callback clock (if readsClock apt then S k else k) l in
      (if decide (callback (clock k) apt) then apt :: r.1 else r.1, r.2)
  end.

Definition upcomingAppointments (instant : Day → string → option Z) (clock : nat → Z)
    (k : nat) (st : Appointments.State) : list (Appointment.t * option Doctor.t) * nat :=
  filterReading (upcoming instant) clock k (Appointments.appointments st).

Definition pastAppointments (instant : Day → string → option Z) (clock : nat → Z)
    (k : nat) (st : Appointments.State) : list (Appointment.t * option Doctor.t) * nat :=
  filterReading (past instant) clock k (Appointments.appointments st).

(** One render: the upcoming list is computed first, the past list after
    it, with the readings that follow. *)
Definition tabs (instant : Day → string → option Z) (clock : nat → Z)
    (st : Appointments.State)
    : list (Appointment.t * option Doctor.t) * list (Appointment.t * option Doctor.t) :=
  let up := upcomingAppointments instant clock 0 st in
  (up.1, (pastAppointments instant clock up.2 st).1).
End AppointmentTabs.

(** A reading of the date and time texts that is enough for the sample
    data: the time "09:00" is nine hours after the day's midnight, and
    every other text gives an Invalid Date. *)
Definition sample_instant (day : Day) (time : string) : option Z :=
  if decide (time = "09:00") then Some (day * 86400000 + 32400000) else None.

#[global] Instance date_asc_total : Total Supabase.date_asc.
Proof.
  intros a b. unfold Supabase.date_asc.
  destruct (Z.le_ge_cases (Appointment.appointment_date a.1)
                          (Appointment.appointment_date b.1)); [left|right]; lia.
Defined.

(** A text made of white space only (or empty): the bytes of a sequence of
    white space code points. *)
Definition blank (s : string) : Prop :=
  ∃ cps : list N,
    Forall (λ cp, cp ∈ Curax.whiteSpace) cps
    ∧ Curax.bytes s = concat (Curax.utf8 <$> cps).

(** ** What the user can do in each step

    The events the rendered dialog offers, read off the JSX: the calendar is
    there in the date step only; the slot buttons and "Change Date" in the
    time step when a date is chosen, and a button that is disabled cannot be
    clicked; the notes, "Back" and "Confirm Booking" (disabled while
    loading) in the confirm step when date and time are chosen; closing is
    always possible. *)
Module DialogFlow.
Import DateFns BookingDialog.

Definition enabled (st : State) (e : Event) : Prop :=
  match e with
  | DateSelect _ => step st = date
  | TimeSelect t =>
      step st = time ∧ is_Some (selectedDate st) ∧ t ∈ timeSlots ∧ t ∉ bookedSlots st
  | NotesChange _ =>
      step st = confirm ∧ is_Some (selectedDate st) ∧ is_Some (selectedTime st)
  | Back s =>
      (step st = time ∧ is_Some (selectedDate st) ∧ s = date)
      ∨ (step st = confirm ∧ is_Some (selectedDate st) ∧ is_Some (selectedTime st)
         ∧ s = time)
  | Booking =>
      step st = confirm ∧ is_Some (selectedDate st) ∧ is_Some (selectedTime st)
      ∧ loading st = false
  | OpenChange _ => True
  end.

(** One of the four bodies of the dialog is rendered. *)
Definition rendered (st : State) : Prop :=
  step st = date
  ∨ (step st = time ∧ is_Some (selectedDate st))
  ∨ (step st = confirm ∧ is_Some (selectedDate st) ∧ is_Some (selectedTime st))
  ∨ (step st = success ∧ is_Some (selectedDate st) ∧ is_Some (selectedTime st)).

(** *** Handlers that wait

    [handleDateSelect] and [handleBooking] are [async]: they run up to their
    [await], and the rest runs when the answer arrives.  In between the
    dialog stays as it is rendered and takes further events.  What a waiting
    handler still has to do is kept with the values of the render in which
    it was called: the fate of its request, the date, the row. *)
Inductive Pending :=
  | awaitSlots (f : Fate) (day : Date) (thenTime : bool)
  | awaitInsert (f : Fate) (row : AppointmentInsert) (day : Date).

Record Config := mkConfig {
  state : State;
  pending : list Pending;
  world : World;
}.

(** An event of the user: the handler up to its first [await].  The dialog
    is rendered for a doctor only. *)
Definition click (auth : option User.t) (doc : Doctor.t) (e : Event) (c : Config)
  : Config :=
  match e with
  | DateSelect (Some d) =>
      let r := send (SelectBookedTimes (Doctor.id doc) (format_yyyy_MM_dd d)) (world c) in
      mkConfig (setSelectedDate (Some d) (state c))
               (pending c ++ [awaitSlots r.1 d true]) r.2
  | Booking =>
      match auth, selectedDate (state c), selectedTime (state c) with
      | Some u, Some d, Some t =>
          if decide (t = "") then c else
          let row := booking_row u doc d t (notes (state c)) in
          let r := send (InsertAppointment row) (world c) in
          mkConfig (setLoading true (state c)) (pending c ++ [awaitInsert r.1 row d]) r.2
      | _, _, _ => c
      end
  | _ =>
      let r := handle auth (Some doc) e (state c) (world c) in
      mkConfig r.1 (pending c) r.2
  end.

(** The rest of a handler, run on the state as it is when the answer
    arrives; it may leave another wait behind. *)
Definition deliver (doc : Doctor.t) (p : Pending) (st : State)
  : M (State * list Pending) :=
  match p with
  | awaitSlots f d thenTime =>
      let* data := Supabase.answer_booked_times f (Doctor.id doc) (format_yyyy_MM_dd d) in
      let st := match data with
                | Some rows => setBookedSlots ((λ t, slice t 0 5) <$> rows) st
                | None => st
                end in
      ret (if thenTime then setStep time st else st, [])
  | awaitInsert f row d =>
      let* error := Supabase.answer_insert f row in
      let st := setLoading false st in
      match error with
      | Some e =>
          if decide (code e = "23505") then
            toast slot_unavailable >>
            let* f' := send (SelectBookedTimes (Doctor.id doc) (format_yyyy_MM_dd d)) in
            ret (setStep time st, [awaitSlots f' d false])
          else
            toast (booking_failed e) >> ret (st, [])
      | None =>
          toast (appointment_booked (Doctor.name doc)) >> ret (setStep success st, [])
      end
  end.

(** The answer to the [i]-th waiting handler arrives. *)
Definition answer (doc : Doctor.t) (i : nat) (c : Config) : Config :=
  match pending c !! i with
  | Some p =>
      let r := deliver doc p (state c) (world c) in
      mkConfig r.1.1 (delete i (pending c) ++ r.1.2) r.2
  | None => c
  end.

(** The answers arrive at once, before anything else happens. *)
Definition settle (doc : Doctor.t) (c : Config) : Config :=
  answer doc 0 (answer doc 0 c).

(** What a dialog for doctor [doc] can get into: it starts in its initial
    state with nothing sent; the user does what the dialog offers, whether
    or not answers are outstanding; the outstanding answers arrive in any
    order; and in between the world may change in any way that leaves the
    log of this dialog's requests alone. *)
Inductive reachable (auth : option User.t) (doc : Doctor.t) : Config → Prop :=
  | reach_initial w : requests w = [] → reachable auth doc (mkConfig initial [] w)
  | reach_click c e :
      reachable auth doc c → enabled (state c) e → reachable auth doc (click auth doc e c)
  | reach_answer c i : reachable auth doc c → reachable auth doc (answer doc i c)
  | reach_world c w' :
      reachable auth doc c → requests w' = requests (world c) →
      reachable auth doc (mkConfig (state c) (pending c) w').

(** The inserts that wait for their answer. *)
Fixpoint insertsInFlight (l : list Pending) : nat :=
  match l with
  | [] => 0
  | awaitInsert _ _ _ :: l => S (insertsInFlight l)
  | awaitSlots _ _ _ :: l => insertsInFlight l
  end.

(** A request this dialog may send for doctor [doc]. *)
Definition expected (auth : option User.t) (doc : Doctor.t) (r : Request) : Prop :=
  match r with
  | InsertAppointment row =>
      ins_doctor_id row = Doctor.id doc ∧ ins_appointment_time row ∈ timeSlots
      ∧ ∃ u, auth = Some u ∧ ins_patient_id row = User.id u
  | SelectBookedTimes d _ => d = Doctor.id doc
  | _ => False
  end.

Definition invariant (auth : option User.t) (doc : Doctor.t) (c : Config) : Prop :=
  (∀ t, selectedTime (state c) = Some t → t ∈ timeSlots)
  ∧ insertsInFlight (pending c) = (if loading (state c) then 1 else 0)%nat
  ∧ Forall (expected auth doc) (requests (world c)).
End DialogFlow.

(** The same for the wizard: the criteria and "Find Doctors" in the
    criteria step; the list of doctors (once loaded) and "Change Criteria"
    in the doctor step; the calendar and "Choose Another Doctor" in the date
    step; then as in the dialog. *)
Module WizardFlow.
Import DateFns CreateAppointmentDialog.

Definition chosen (st : State) : Prop :=
  is_Some (selectedDoctor st) ∧ is_Some (selectedDate st) ∧ is_Some (selectedTime st).

Definition enabled (st : State) (e : Event) : Prop :=
  match e with
  | CriteriaChange _ _ _ _ => step st = criteria
  | ApplyCriteria => step st = criteria
  | SelectDoctor i =>
      step st = doctor ∧ loadingDoctors st = false ∧ is_Some (doctors st !! i)
  | DateSelect _ => step st = date
  | TimeSelect t =>
      step st = time ∧ is_Some (selectedDate st) ∧ t ∈ timeSlots ∧ t ∉ bookedSlots st
  | NotesChange _ => step st = confirm ∧ chosen st
  | Back s =>
      (step st = doctor ∧ s = criteria)
      ∨ (step st = date ∧ s = doctor)
      ∨ (step st = time ∧ is_Some (selectedDate st) ∧ s = date)
      ∨ (step st = confirm ∧ chosen st ∧ s = time)
  | Booking => step st = confirm ∧ chosen st ∧ loading st = false
  | OpenChange _ => True
  end.

(** One of the six bodies of the wizard is rendered. *)
Definition rendered (st : State) : Prop :=
  step st = criteria ∨ step st = doctor ∨ step st = date
  ∨ (step st = time ∧ is_Some (selectedDate st))
  ∨ (step st = confirm ∧ chosen st)
  ∨ (step st = success ∧ chosen st).

(** *** Handlers that wait

    [handleApplyCriteria], [handleDateSelect] and [handleBooking] are
    [async]; what they still have to do when the answer arrives is kept
    with the values of the render in which they were called. *)
Inductive Pending :=
  | awaitDoctors (f : Fate) (q : DoctorQuery)
  | awaitSlots (f : Fate) (doc : Doctor.t) (day : Date) (thenTime : bool)
  | awaitInsert (f : Fate) (row : AppointmentInsert) (doc : Doctor.t) (day : Date).

Record Config := mkConfig {
  state : State;
  pending : list Pending;
  world : World;
}.

(** An event of the user: the handler up to its first [await].  Without a
    chosen doctor [fetchBookedSlots] returns at once and [handleDateSelect]
    goes on to the time step. *)
Definition click (auth : option User.t) (e : Event) (c : Config) : Config :=
  match e with
  | ApplyCriteria =>
      let st := setLoadingDoctors true (state c) in
      let r := send (SelectDoctors (query st)) (world c) in
      mkConfig st (pending c ++ [awaitDoctors r.1 (query st)]) r.2
  | DateSelect (Some d) =>
      let st := setSelectedDate (Some d) (state c) in
      match selectedDoctor st with
      | Some doc =>
          let r := send (SelectBookedTimes (Doctor.id doc) (format_yyyy_MM_dd d)) (world c) in
          mkConfig st (pending c ++ [awaitSlots r.1 doc d true]) r.2
      | None => mkConfig (setStep time st) (pending c) (world c)
      end
  | Booking =>
      match auth, selectedDoctor (state c), selectedDate (state c),
            selectedTime (state c) with
      | Some u, Some doc, Some d, Some t =>
          if decide (t = "") then c else
          let row := booking_row u doc d t (notes (state c)) in
          let r := send (InsertAppointment row) (world c) in
          mkConfig (setLoading true (state c))
                   (pending c ++ [awaitInsert r.1 row doc d]) r.2
      | _, _, _, _ => c
      end
  | _ =>
      let r := handle auth e (state c) (world c) in
      mkConfig r.1 (pending c) r.2
  end.

(** The rest of a handler, run on the state as it is when the answer
    arrives. *)
Definition deliver (p : Pending) (st : State) : M (State * list Pending) :=
  match p with
  | awaitDoctors f q =>
      let* data := Supabase.answer_doctors f q in
      let st := match data with
                | Some rows => setDoctors rows st
                | None => st
                end in
      ret (setStep doctor (setLoadingDoctors false st), [])
  | awaitSlots f doc d thenTime =>
      let* data := Supabase.answer_booked_times f (Doctor.id doc) (format_yyyy_MM_dd d) in
      let st := match data with
                | Some rows => setBookedSlots ((λ t, slice t 0 5) <$> rows) st
                | None => st
                end in
      ret (if thenTime then setStep time st else st, [])
  | awaitInsert f row doc d =>
      let* error := Supabase.answer_insert f row in
      let st := setLoading false st in
      match error with
      | Some e =>
          if decide (code e = "23505") then
            toast slot_unavailable >>
            let* f' := send (SelectBookedTimes (Doctor.id doc) (format_yyyy_MM_dd d)) in
            ret (setStep time st, [awaitSlots f' doc d false])
          else
            toast (booking_failed e) >> ret (st, [])
      | None =>
          toast (appointment_booked (Doctor.name doc)) >>
          call onAppointmentCreated >>
          ret (setStep success st, [])
      end
  end.

(** The answer to the [i]-th waiting handler arrives. *)
Definition answer (i : nat) (c : Config) : Config :=
  match pending c !! i with
  | Some p =>
      let r := deliver p (state c) (world c) in
      mkConfig r.1.1 (delete i (pending c) ++ r.1.2) r.2
  | None => c
  end.

(** The answers arrive at once, before anything else happens. *)
Definition settle (c : Config) : Config := answer 0 (answer 0 c).

Inductive reachable (auth : option User.t) : Config → Prop :=
  | reach_initial w : requests w = [] → reachable auth (mkConfig initial [] w)
  | reach_click c e :
      reachable auth c → enabled (state c) e → reachable auth (click auth e c)
  | reach_answer c i : reachable auth c → reachable auth (answer i c)
  | reach_world c w' :
      reachable auth c → requests w' = requests (world c) →
      reachable auth (mkConfig (state c) (pending c) w').

(** The inserts, and the searches, that wait for their answer. *)
Fixpoint insertsInFlight (l : list Pending) : nat :=
  match l with
  | [] => 0
  | awaitInsert _ _ _ _ :: l => S (insertsInFlight l)
  | _ :: l => insertsInFlight l
  end.

Fixpoint searchesInFlight (l : list Pending) : nat :=
  match l with
  | [] => 0
  | awaitDoctors _ _ :: l => S (searchesInFlight l)
  | _ :: l => searchesInFlight l
  end.

(** A request the wizard may send. *)
Definition expected (auth : option User.t) (r : Request) : Prop :=
  match r with
  | InsertAppointment row =>
      ins_appointment_time row ∈ timeSlots
      ∧ ∃ u, auth = Some u ∧ ins_patient_id row = User.id u
  | SelectBookedTimes _ _ => True
  | SelectDoctors _ => True
  | _ => False
  end.

Definition invariant (auth : option User.t) (c : Config) : Prop :=
  (∀ t, selectedTime (state c) = Some t → t ∈ timeSlots)
  ∧ insertsInFlight (pending c) = (if loading (state c) then 1 else 0)%nat
  ∧ (loadingDoctors (state c) = true → (0 < searchesInFlight (pending c))%nat)
  ∧ Forall (expected auth) (requests (world c)).
End WizardFlow.

(** ** The weekly availability switches
    ([AddDoctorDialog] and [DoctorProfile], [toggleAvailability])

    The form keeps [availability] as an object from day names to booleans;
    a day without an entry reads as [undefined]. *)
Module Availability.
Definition daysOfWeek : list string :=
  [ "Monday"; "Tuesday"; "Wednesday"; "Thursday"; "Friday"; "Saturday"; "Sunday" ].

(** The switch of a day: [availability[day] || false]. *)
Definition checked (av : gmap string bool) (day : string) : bool :=
  default false (av !! day).

(** [AddDoctorDialog]:
    [{ ...prev.availability, [day]: !prev.availability[day] }] *)
Definition toggleAvailability (day : string) (av : gmap string bool) : gmap string bool :=
  <[day := negb (default false (av !! day))]> av.

(** [DoctorProfile], where the profile is a [Partial<Doctor>] and the object
    itself may be missing:
    [{ ...prev.availability, [day]: !prev.availability?.[day] }] *)
Definition toggleProfileAvailability (day : string) (av : option (gmap string bool))
  : option (gmap string bool) :=
  Some (<[day := negb (default false (av ≫= (λ m, m !! day)))]> (default ∅ av)).

(** [doctorProfile.availability?.[day] || false] *)
Definition profileChecked (av : option (gmap string bool)) (day : string) : bool :=
  default false (av ≫= (λ m, m !! day)).
End Availability.

(** ** The doctors page ([src/pages/Doctors.tsx])

    Texts are strings of bytes here: [toLowerCase] maps the letters A to Z
    and leaves every other byte alone, and [includes] looks for an
    occurrence byte by byte. *)
Module Doctors.



Record State := mkState {
  doctors : list Doctor.t;
  loading : bool;
  searchQuery : string;
  specialization : string;
  selectedDoctor : option Doctor.t;
  bookingOpen : bool;
  addDoctorOpen : bool;
  userRole : option string;
}.

Definition initial : State :=
  mkState [] true "" "All Specializations" None false false None.

Definition setDoctors (l : list Doctor.t) (st : State) : State :=
  mkState l (loading st) (searchQuery st) (specialization st) (selectedDoctor st)
    (bookingOpen st) (addDoctorOpen st) (userRole st).
Definition setLoading (b : bool) (st : State) : State :=
  mkState (doctors st) b (searchQuery st) (specialization st) (selectedDoctor st)
    (bookingOpen st) (addDoctorOpen st) (userRole st).
Definition setSpecialization (s : string) (st : State) : State :=
  mkState (doctors st) (loading st) (searchQuery st) s (selectedDoctor st)
    (bookingOpen st) (addDoctorOpen st) (userRole st).
Definition setSelectedDoctor (d : option Doctor.t) (st : State) : State :=
  mkState (doctors st) (loading st) (searchQuery st) (specialization st) d
    (bookingOpen st) (addDoctorOpen st) (userRole st).

(** [.order('is_featured', { ascending: false })]: [a] may come before [b]. *)
Definition featured_first (a b : Doctor.t) : Prop :=
  Doctor.is_featured b = true → Doctor.is_featured a = true.

#[global] Instance featured_first_dec : RelDecision featured_first.
Proof. intros a b. unfold featured_first. apply _. Defined.

#[global] Instance featured_first_total : Total featured_first.
Proof.
  intros a b. unfold featured_first.
  destruct (Doctor.is_featured a); [left|right]; done.
Defined.

#[global] Instance featured_first_trans : Transitive featured_first.
Proof. intros a b c Hab Hbc Hc. apply Hab, Hbc, Hc. Defined.



Definition refreshDoctors (data : option (list Doctor.t)) (st : State) : State :=
  match data with Some rows => setDoctors rows st | None => st end.





End Doctors.


(** ** The chat history ([src/pages/Curax.tsx], [fetchHistory])

    [created_at] is a timestamp written as text; the texts of one store are
    taken to be ISO texts of one zone, so that their order as texts is
    their order in time. *)
Module CuraxHistory.
(** [.order('created_at', { ascending: true })]: [a] may come before [b]. *)
Definition created_asc (a b : ChatMessage.t) : Prop :=
  String.le (ChatMessage.created_at a) (ChatMessage.created_at b).

#[global] Instance created_asc_dec : RelDecision created_asc.
Proof. intros a b. unfold created_asc. apply _. Defined.

#[global] Instance created_asc_total : Total created_asc.
Proof.
  intros a b. unfold created_asc.
  apply (total String.le).
Defined.

#[global] Instance created_asc_trans : Transitive created_asc.
Proof.
  intros a b c. unfold created_asc. apply (transitivity (R := String.le)).
Defined.

(** The rows [from('chat_messages').select('*').eq('user_id', uid)
     .order('created_at', { ascending: true }).limit(50)] gives for a
    store. *)
Definition history (uid : string) (rows : list ChatMessage.t) : list ChatMessage.t :=
  take 50 (merge_sort created_asc (filter (λ m, ChatMessage.user_id m = uid) rows)).

(** [fetchHistory] once the query is answered with [data] ([None] when
    there is none): [if (data) setMessages(data); setHistoryLoading(false)]. *)
Definition fetchHistory (data : option (list ChatMessage.t)) (st : Curax.State)
  : Curax.State :=
  Curax.mkState (match data with Some rows => rows | None => Curax.messages st end)
                (Curax.input st) (Curax.loading st) false.
End CuraxHistory.

(** ** The two edge functions ([curax-chat] and [analyze-report])

    A JavaScript value that came out of [JSON.parse] is a [Json]; [None]
    stands for [undefined].  A number is kept as the text of its literal,
    since the functions never compute with one. *)
Module EdgeFunctions.
#[local] Unset Elimination Schemes.
Inductive Json :=
  | JNull
  | JBool (b : bool)
  | JNumber (literal : string)
  | JString (s : string)
  | JArray (items : list Json)
  | JObject (fields : list (string * Json)).
#[local] Set Elimination Schemes.

Definition Value := option Json.

(** An expression either has a value or throws; everything the two
    functions can throw is an [Error], of which the handler uses the
    message. *)
Inductive Outcome (A : Type) :=
  | Returned (a : A)
  | Thrown (message : string).
Arguments Returned {A} a.
Arguments Thrown {A} message.

Definition andThen {A B} (o : Outcome A) (k : A → Outcome B) : Outcome B :=
  match o with
  | Returned a => k a
  | Thrown m => Thrown m
  end.

(** What belongs to the JavaScript engine rather than to the functions: the
    message of the TypeError for reading a property of [undefined] or
    [null], the one for destructuring [null], and the text a value turns
    into inside a template literal. *)
Record Engine := {
  read_error : Value → string → string;
  destructure_error : string → string;
  to_text : Value → string;
}.

(** [JSON.parse] keeps the last of several fields of one name. *)
Fixpoint field (key : string) (fields : list (string * Json)) : Value :=
  match fields with
  | [] => None
  | (k, v) :: rest =>
      match field key rest with
      | Some later => Some later
      | None => if decide (k = key) then Some v else None
      end
  end.

(** [v.key] for one of the names [choices], [message], [content], which no
    array, text, number or boolean has. *)
Definition member (E : Engine) (v : Value) (key : string) : Outcome Value :=
  match v with
  | None | Some JNull => Thrown (read_error E v key)
  | Some (JObject fields) => Returned (field key fields)
  | Some _ => Returned None
  end.

(** [v[0]] *)
Definition first (E : Engine) (v : Value) : Outcome Value :=
  match v with
  | None | Some JNull => Thrown (read_error E v "0")
  | Some (JArray items) => Returned (head items)
  | Some (JString (String c _)) => Returned (Some (JString (String c EmptyString)))
  | Some (JString EmptyString) => Returned None
  | Some (JObject fields) => Returned (field "0" fields)
  | Some _ => Returned None
  end.

(** [const { key } = v] for a parsed body [v]. *)
Definition destructure (E : Engine) (v : Json) (key : string) : Outcome Value :=
  match v with
  | JNull => Thrown (destructure_error E key)
  | JObject fields => Returned (field key fields)
  | _ => Returned None
  end.

(** [data.choices[0].message.content] *)
Definition completion (E : Engine) (data : Json) : Outcome Value :=
  andThen (member E (Some data) "choices") (λ choices,
  andThen (first E choices) (λ choice,
  andThen (member E choice "message") (λ message,
  member E message "content"))).

Record Response := {
  status : Z;
  headers : list (string * string);
  body : Value;
}.

Definition corsHeaders : list (string * string) :=
  [ ("Access-Control-Allow-Origin", "*");
    ("Access-Control-Allow-Headers",
     "authorization, x-client-info, apikey, content-type") ].

(** [{ ...corsHeaders, 'Content-Type': 'application/json' }] *)
Definition jsonHeaders : list (string * string) :=
  corsHeaders ++ [ ("Content-Type", "application/json") ].

(** [JSON.stringify({ key: v })]: a field that is [undefined] is left out. *)
Definition stringify1 (key : string) (v : Value) : Json :=
  match v with
  | Some j => JObject [(key, j)]
  | None => JObject []
  end.

(** The request to the chat-completion gateway. *)
Record Completion := {
  url : string;
  authorization : string;
  model : string;
  system : string;
  user_content : Value;
}.

Definition USE_OPENAI : bool := false.
Definition OPENAI_MODEL : string := "gpt-4o".

(** [`Bearer ${key}`] for what [Deno.env.get] gave. *)
Definition bearer (key : option string) : string :=
  ("Bearer " +:+ default "undefined" key)%string.

Definition systemPrompt : string :=
"You are Curax, a friendly and knowledgeable medical AI assistant for CuraClinic. Your role is to:
- Provide general health information and wellness advice
- Explain medical terms in simple language
- Suggest lifestyle and dietary recommendations
- Help users understand symptoms (without diagnosing)
- Encourage users to consult healthcare professionals for medical concerns

IMPORTANT: You are NOT a doctor. Always remind users that your advice is general information only and they should consult qualified healthcare providers for medical decisions. Never diagnose conditions or prescribe treatments.

Be warm, empathetic, and supportive. Keep responses concise but helpful.".

(** The request [curax-chat] makes for a message, with the environment
    variables [env]. *)
Definition chatRequest (env : string → option string) (message : Value) : Completion :=
  let OPENAI_API_KEY := default "" (env "OPENAI_API_KEY") in
  if USE_OPENAI && bool_decide (OPENAI_API_KEY ≠ "") then
    {| url := "https://api.openai.com/v1/chat/completions";
       authorization := bearer (Some OPENAI_API_KEY);
       model := OPENAI_MODEL;
       system := systemPrompt;
       user_content := message |}
  else
    {| url := "https://ai.gateway.lovable.dev/v1/chat/completions";
       authorization := bearer (env "LOVABLE_API_KEY");
       model := "google/gemini-3-flash-preview";
       system := systemPrompt;
       user_content := message |}.

Definition failure (message : string) : Response :=
  {| status := 500; headers := jsonHeaders;
     body := Some (JObject [("error", JString message)]) |}.

(** The handler of [curax-chat].  [json] is what [await req.json()] gives,
    [fetch] what [await fetch(...)] followed by [await response.json()]
    gives for a request. *)
Definition curax_chat (E : Engine) (env : string → option string)
    (fetch : Completion → Outcome Json) (method : string) (json : Outcome Json)
  : Response :=
  if decide (method = "OPTIONS") then
    {| status := 200; headers := corsHeaders; body := None |}
  else
    match andThen json (λ parsed,
          andThen (destructure E parsed "message") (λ message,
          andThen (fetch (chatRequest env message)) (λ data,
          completion E data))) with
    | Returned assistantResponse =>
        {| status := 200; headers := jsonHeaders;
           body := Some (stringify1 "response" assistantResponse) |}
    | Thrown errorMessage => failure errorMessage
    end.

Definition analysisPrompt : string :=
"You are a medical report analyst assistant. Analyze blood test results and provide:
1. Summary of key findings
2. Values that appear outside normal ranges
3. General dietary recommendations
4. Lifestyle suggestions

IMPORTANT: This is NOT medical advice. Always recommend consulting a healthcare provider. Do not diagnose conditions. Keep response under 300 words.".

(** The request [analyze-report] makes for a report's content. *)
Definition reportRequest (E : Engine) (env : string → option string) (content : Value)
  : Completion :=
  {| url := "https://ai.gateway.lovable.dev/v1/chat/completions";
     authorization := bearer (env "LOVABLE_API_KEY");
     model := "google/gemini-3-flash-preview";
     system := analysisPrompt;
     user_content :=
       Some (JString ("Analyze this blood report:" +:+ String (Ascii.ascii_of_nat 10) (String (Ascii.ascii_of_nat 10) "")
                      +:+ to_text E content)%string) |}.

(** The handler of [analyze-report]. *)
Definition analyze_report (E : Engine) (env : string → option string)
    (fetch : Completion → Outcome Json) (method : string) (json : Outcome Json)
  : Response :=
  if decide (method = "OPTIONS") then
    {| status := 200; headers := corsHeaders; body := None |}
  else
    match andThen json (λ parsed,
          andThen (destructure E parsed "content") (λ content,
          andThen (fetch (reportRequest E env content)) (λ data,
          completion E data))) with
    | Returned analysis =>
        {| status := 200; headers := jsonHeaders;
           body := Some (stringify1 "analysis" analysis) |}
    | Thrown errorMessage => failure errorMessage
    end.
End EdgeFunctions.

(** The wording of V8, the engine of Deno, for the sample runs; [to_text]
    is given for texts and [undefined] only. *)
Definition v8 : EdgeFunctions.Engine :=
  {| EdgeFunctions.read_error := λ v key,
       ("Cannot read properties of "
        +:+ (if v is None then "undefined" else "null")
        +:+ " (reading '" +:+ key +:+ "')")%string;
     EdgeFunctions.destructure_error := λ key,
       ("Cannot destructure property '" +:+ key
        +:+ "' of '(intermediate value)' as it is null.")%string;
     EdgeFunctions.to_text := λ v,
       match v with
       | Some (EdgeFunctions.JString s) => s
       | _ => "undefined"
       end |}.

(** A gateway that refuses every request with an error payload. *)
Definition refusing_gateway (_ : EdgeFunctions.Completion)
  : EdgeFunctions.Outcome EdgeFunctions.Json :=
  EdgeFunctions.Returned
    (EdgeFunctions.JObject [("error", EdgeFunctions.JString "Invalid API key")]).

(** ** The wizard seen as the dialog

    From the date step on the wizard repeats the dialog.  [as_dialog] reads a
    wizard state as a state of the dialog for the chosen doctor, and
    [to_dialog] an event of the wizard as the event of the dialog that
    stands for it, where there is one. *)
Module Twin.
Definition step_as_dialog (s : CreateAppointmentDialog.Step) : BookingDialog.Step :=
  match s with
  | CreateAppointmentDialog.criteria | CreateAppointmentDialog.doctor
  | CreateAppointmentDialog.date => BookingDialog.date
  | CreateAppointmentDialog.time => BookingDialog.time
  | CreateAppointmentDialog.confirm => BookingDialog.confirm
  | CreateAppointmentDialog.success => BookingDialog.success
  end.

Definition as_dialog (st : CreateAppointmentDialog.State) : BookingDialog.State :=
  BookingDialog.mkState
    (step_as_dialog (CreateAppointmentDialog.step st))
    (CreateAppointmentDialog.selectedDate st)
    (CreateAppointmentDialog.selectedTime st)
    (CreateAppointmentDialog.notes st)
    (CreateAppointmentDialog.loading st)
    (CreateAppointmentDialog.bookedSlots st).

Definition to_dialog (e : CreateAppointmentDialog.Event) : option BookingDialog.Event :=
  match e with
  | CreateAppointmentDialog.DateSelect d => Some (BookingDialog.DateSelect d)
  | CreateAppointmentDialog.TimeSelect t => Some (BookingDialog.TimeSelect t)
  | CreateAppointmentDialog.NotesChange n => Some (BookingDialog.NotesChange n)
  | CreateAppointmentDialog.Back CreateAppointmentDialog.date =>
      Some (BookingDialog.Back BookingDialog.date)
  | CreateAppointmentDialog.Back CreateAppointmentDialog.time =>
      Some (BookingDialog.Back BookingDialog.time)
  | CreateAppointmentDialog.Booking => Some BookingDialog.Booking
  | _ => None
  end.

(** The world without the record of the callbacks made. *)
Definition without_calls (w : World) : World :=
  mkWorld (doctors w) (appointments w) (chat_messages w) (oracle w) (tick w)
          (requests w) (toasts w) [].
End Twin.

(** The network answers the first request and is down from then on. *)
Definition answered_once : nat → Fate := λ k,
  match k with
  | O => quiet k
  | _ => offline k
  end.

(** A clock that stands still on 2026-03-01T08:00:00Z, and one that passes
    09:00 of 2026-03-10 between its first and its second reading. *)
Definition still_clock : nat → Z := λ _, 1772352000000.
Definition passing_clock : nat → Z := λ k,
  match k with
  | O => 20522 * 86400000 + 32399999
  | _ => 20522 * 86400000 + 32400001
  end.

(** * Properties *)

(** ** The date bound *)

Lemma disabled_spec (now : DateFns.Date) (k : Day) :
  Calendar.disabled now (DateFns.calendarDate k) = true
  ↔ k < Calendar.today now ∨ Calendar.today now + 30 < k.
Proof.
  unfold Calendar.disabled, Calendar.today, DateFns.isBefore, DateFns.startOfToday,
    DateFns.startOfDay, DateFns.addDays, DateFns.calendarDate,
    DateFns.format_yyyy_MM_dd, DateFns.MS_PER_DAY.
  pose proof (Z.div_mod now 86400000 ltac:(lia)) as Hdm.
  pose proof (Z.mod_pos_bound now 86400000 ltac:(lia)) as Hb.
  rewrite orb_true_iff, !bool_decide_eq_true. lia.
Qed.

(** C3, as stated, fails: at noon of day 0 the day [today + 30] is not
    disabled, although it lies outside [today, today + 30 days). *)
Lemma day_30_selectable :
  ¬ (Calendar.selectable 43200000 30 = true
     ↔ Calendar.today 43200000 ≤ 30 < Calendar.today 43200000 + 30).
Proof.
  intros [H _].
  assert (Hs : Calendar.selectable 43200000 30 = true) by (vm_compute; reflexivity).
  specialize (H Hs). vm_compute in H. destruct H as [_ H]. discriminate H.
Qed.

(** C3, amended: a calendar day is selectable exactly when it lies between
    today and the day thirty days from today, both included; every earlier
    and every later day is disabled. *)
Theorem selectable_iff (now : DateFns.Date) (k : Day) :
  Calendar.selectable now k = true
  ↔ Calendar.today now ≤ k ≤ Calendar.today now + 30.
Proof.
  unfold Calendar.selectable. rewrite negb_true_iff, <- not_true_iff_false.
  rewrite disabled_spec. lia.
Qed.

(** ** Filtering doctors by criteria *)

(** Unfolds the monad and the world's primitive operations. *)
Ltac run_world :=
  unfold bind, ret, send, next_fate, toast, call, get_doctors, get_appointments,
    put_appointments, add_chat_message in *; simpl in *.

Lemma query_matches (st : CreateAppointmentDialog.State) (d : Doctor.t) :
  Supabase.matches (CreateAppointmentDialog.query st) d
  ↔ satisfies (CreateAppointmentDialog.selectedSpecialization st)
              (CreateAppointmentDialog.maxFee st)
              (CreateAppointmentDialog.minRating st)
              (CreateAppointmentDialog.minExperience st) d.
Proof.
  unfold Supabase.matches, satisfies, CreateAppointmentDialog.query. simpl.
  destruct (decide (CreateAppointmentDialog.selectedSpecialization st
                    ≠ "All Specializations")) as [Hs|Hs]; simpl.
  - intuition congruence.
  - apply dec_stable in Hs. intuition.
Qed.

(** C4, as stated, fails: the wizard finds doctor D, a cardiologist, then
    searches for neurologists with at least thirty years of experience while
    the network is down.  [fetchFilteredDoctors] skips [setDoctors] on the
    error, [handleApplyCriteria] moves to the doctor step all the same and no
    toast is shown: the list still holds D, who meets none of the new
    criteria, and it is not the list of the doctors that meet them. *)
Lemma failed_search_lists_unmatching_doctor :
  let found :=
    CreateAppointmentDialog.handleApplyCriteria
      (CreateAppointmentDialog.setCriteria "Cardiologist" (Qc_of_Z 150) (Qc_of_Z 4) 5
         CreateAppointmentDialog.initial) (world_0 answered_once) in
  let '(st', w') :=
    CreateAppointmentDialog.handleApplyCriteria
      (CreateAppointmentDialog.setCriteria "Neurologist" (Qc_of_Z 150) (Qc_of_Z 4) 30
         found.1) found.2 in
  CreateAppointmentDialog.doctors st' = [doctor_D ∅]
  ∧ CreateAppointmentDialog.step st' = CreateAppointmentDialog.doctor
  ∧ toasts w' = []
  ∧ ¬ satisfies "Neurologist" (Qc_of_Z 150) (Qc_of_Z 4) 30 (doctor_D ∅)
  ∧ ¬ (CreateAppointmentDialog.doctors st'
       ≡ₚ filter (satisfies "Neurologist" (Qc_of_Z 150) (Qc_of_Z 4) 30) (doctors w')).
Proof.
  vm_compute. split_and!; try reflexivity.
  - intros (_ & _ & He & _). apply He. reflexivity.
  - intros H. apply Permutation_length in H. discriminate H.
Qed.

(** C4, amended: when the directory answers, [handleApplyCriteria] leaves in
    [doctors] exactly the rows of the table that meet the four criteria
    (fee at most [F], rating at least [R], experience at least [E],
    specialization [S] unless [S] is "All Specializations"), each as often
    as the table has it, ordered by non-increasing rating; the wizard moves
    to the doctor step and shows no error, whether or not the list is empty. *)
Theorem applyCriteria_exact_and_ordered
    (S : string) (F R : Qc) (E : Z) (st : CreateAppointmentDialog.State) (w : World) :
  fault (oracle w (tick w)) = None →
  let '(st', w') :=
    CreateAppointmentDialog.handleApplyCriteria
      (CreateAppointmentDialog.setCriteria S F R E st) w in
  CreateAppointmentDialog.doctors st' ≡ₚ filter (satisfies S F R E) (doctors w)
  ∧ Sorted (λ a b, (Doctor.rating b ≤ Doctor.rating a)%Qc)
           (CreateAppointmentDialog.doctors st')
  ∧ (∀ d, d ∈ CreateAppointmentDialog.doctors st'
          ↔ d ∈ doctors w
            ∧ (Doctor.consultation_fee d ≤ F)%Qc ∧ (R ≤ Doctor.rating d)%Qc
            ∧ E ≤ Doctor.experience_years d
            ∧ (S = "All Specializations" ∨ Doctor.specialization d = S))
  ∧ CreateAppointmentDialog.step st' = CreateAppointmentDialog.doctor
  ∧ toasts w' = toasts w
  ∧ (filter (satisfies S F R E) (doctors w) = [] → CreateAppointmentDialog.doctors st' = []).
Proof.
  intros Hok.
  unfold CreateAppointmentDialog.handleApplyCriteria,
    CreateAppointmentDialog.fetchFilteredDoctors, Supabase.select_doctors.
  run_world. rewrite Hok. simpl.
  set (q := CreateAppointmentDialog.query _).
  assert (Hf : filter (Supabase.matches q) (doctors w)
               = filter (satisfies S F R E) (doctors w)).
  { apply list_filter_iff. intros d. subst q. rewrite query_matches. reflexivity. }
  rewrite Hf.
  assert (Hp : merge_sort Supabase.rating_desc (filter (satisfies S F R E) (doctors w))
               ≡ₚ filter (satisfies S F R E) (doctors w))
    by apply merge_sort_Permutation.
  split_and!; auto.
  - apply (Sorted_merge_sort Supabase.rating_desc).
  - intros d. rewrite Hp, list_elem_of_filter. unfold satisfies. tauto.
  - intros Hnil. rewrite Hnil. reflexivity.
Qed.

(** The scenario's criteria ("Cardiologist", fee at most 150, rating at
    least 4, experience at least 5) on the table that holds doctor D. *)
Lemma applyCriteria_exact_and_ordered_witness :
  fault (oracle (world_0 quiet) (tick (world_0 quiet))) = None
  ∧ let '(st', w') :=
      CreateAppointmentDialog.handleApplyCriteria
        (CreateAppointmentDialog.setCriteria "Cardiologist" (Qc_of_Z 150) (Qc_of_Z 4) 5
           CreateAppointmentDialog.initial) (world_0 quiet) in
    CreateAppointmentDialog.doctors st' ≡ₚ filter (satisfies "Cardiologist" (Qc_of_Z 150) (Qc_of_Z 4) 5) (doctors (world_0 quiet))
    ∧ Sorted (λ a b, (Doctor.rating b ≤ Doctor.rating a)%Qc)
             (CreateAppointmentDialog.doctors st')
    ∧ (∀ d, d ∈ CreateAppointmentDialog.doctors st'
            ↔ d ∈ doctors (world_0 quiet)
              ∧ (Doctor.consultation_fee d ≤ Qc_of_Z 150)%Qc ∧ (Qc_of_Z 4 ≤ Doctor.rating d)%Qc
              ∧ 5 ≤ Doctor.experience_years d
              ∧ ("Cardiologist" = "All Specializations" ∨ Doctor.specialization d = "Cardiologist"))
    ∧ CreateAppointmentDialog.step st' = CreateAppointmentDialog.doctor
    ∧ toasts w' = toasts (world_0 quiet)
    ∧ (filter (satisfies "Cardiologist" (Qc_of_Z 150) (Qc_of_Z 4) 5) (doctors (world_0 quiet)) = []
       → CreateAppointmentDialog.doctors st' = []).
Proof.
  split; [reflexivity|].
  apply (applyCriteria_exact_and_ordered "Cardiologist" (Qc_of_Z 150) (Qc_of_Z 4) 5
           CreateAppointmentDialog.initial (world_0 quiet)).
  reflexivity.
Defined.

(** ** One booking attempt *)

(** A rejected insert leaves the tables alone: only the request is logged. *)
Lemma insert_appointment_error (row : AppointmentInsert) (w : World) (e : PostgrestError) :
  (Supabase.insert_appointment row w).1 = Some e →
  (Supabase.insert_appointment row w).2 = (send (InsertAppointment row) w).2.
Proof.
  unfold Supabase.insert_appointment, Ledger.insert. run_world.
  destruct (fault (oracle w (tick w))); simpl; [done|].
  destruct (decide (Ledger.taken _ _)); simpl; [done|discriminate].
Qed.

(** An accepted insert found the slot free and appended one row. *)
Lemma insert_appointment_ok (row : AppointmentInsert) (w : World) :
  (Supabase.insert_appointment row w).1 = None →
  fault (oracle w (tick w)) = None
  ∧ ¬ Ledger.taken (ins_doctor_id row, ins_appointment_date row, ins_appointment_time row)
        (appointments w)
  ∧ (Supabase.insert_appointment row w).2
    = (put_appointments (appointments w ++ [Ledger.new_row (oracle w (tick w)) row])
         (send (InsertAppointment row) w).2).2.
Proof.
  unfold Supabase.insert_appointment, Ledger.insert. run_world.
  destruct (fault (oracle w (tick w))); simpl; [discriminate|].
  destruct (decide (Ledger.taken _ _)); simpl; [discriminate|done].
Qed.

Ltac booking_start Hd Ht :=
  unfold BookingDialog.handleBooking, CreateAppointmentDialog.handleBooking;
  rewrite ?Hd, ?Ht; simpl;
  match goal with
  | |- context [decide (?t = "")] => destruct (decide (t = "")) as [?|_]; [done|]
  end;
  unfold bind at 1; unfold booking_row in *.

(** Names the outcome of the insert and replaces the world after a rejected
    insert by the world before it with the request logged. *)
Ltac booking_rejected Hins :=
  let H := fresh "Hworld" in
  let err := fresh "err" in
  let w1 := fresh "w1" in
  pose proof (insert_appointment_error _ _ _ Hins) as H;
  match type of Hins with
  | (?attempt).1 = _ => destruct attempt as [err w1]
  end;
  simpl in Hins, H; subst err w1.

(** The same for an accepted insert: the world after it is the world before
    it with the request logged and the new row appended. *)
Ltac booking_accepted Hins :=
  let H := fresh "Hworld" in
  let Hfree := fresh "Hfree" in
  let Hnet := fresh "Hnet" in
  let err := fresh "err" in
  let w1 := fresh "w1" in
  destruct (insert_appointment_ok _ _ Hins) as (Hnet & Hfree & H);
  match type of Hins with
  | (?attempt).1 = _ => destruct attempt as [err w1]
  end;
  simpl in Hins, H; subst err w1.

Lemma dialog_conflict (u : User.t) (doc : Doctor.t) (d : DateFns.Date) (t : string)
    (st : BookingDialog.State) (w : World) (e : PostgrestError) :
  BookingDialog.selectedDate st = Some d →
  BookingDialog.selectedTime st = Some t →
  t ≠ "" →
  (Supabase.insert_appointment (booking_row u doc d t (BookingDialog.notes st)) w).1
    = Some e →
  code e = "23505" →
  let '(st', w') := BookingDialog.handleBooking (Some u) (Some doc) st w in
  BookingDialog.step st' = BookingDialog.time
  ∧ BookingDialog.selectedDate st' = Some d
  ∧ BookingDialog.selectedTime st' = Some t
  ∧ BookingDialog.notes st' = BookingDialog.notes st
  ∧ toasts w' = toasts w ++ [slot_unavailable]
  ∧ requests w' = requests w
      ++ [InsertAppointment (booking_row u doc d t (BookingDialog.notes st));
          SelectBookedTimes (Doctor.id doc) (DateFns.format_yyyy_MM_dd d)]
  ∧ appointments w' = appointments w
  ∧ calls w' = calls w
  ∧ BookingDialog.bookedSlots st'
    = match fault (oracle w (S (tick w))) with
      | None => occupied doc d (appointments w)
      | Some _ => BookingDialog.bookedSlots st
      end.
Proof.
  intros Hd Ht Hne Hins Hcode.
  booking_start Hd Ht. booking_rejected Hins.
  destruct (decide (code e = "23505")) as [_|]; [|done].
  unfold Supabase.select_booked_times. run_world.
  destruct (fault (oracle w (S (tick w)))); simpl;
    rewrite <- ?(assoc_L (++)); split_and!; done.
Qed.

Lemma wizard_conflict (u : User.t) (doc : Doctor.t) (d : DateFns.Date) (t : string)
    (st : CreateAppointmentDialog.State) (w : World) (e : PostgrestError) :
  CreateAppointmentDialog.selectedDoctor st = Some doc →
  CreateAppointmentDialog.selectedDate st = Some d →
  CreateAppointmentDialog.selectedTime st = Some t →
  t ≠ "" →
  (Supabase.insert_appointment
     (booking_row u doc d t (CreateAppointmentDialog.notes st)) w).1 = Some e →
  code e = "23505" →
  let '(st', w') := CreateAppointmentDialog.handleBooking (Some u) st w in
  CreateAppointmentDialog.step st' = CreateAppointmentDialog.time
  ∧ CreateAppointmentDialog.selectedDoctor st' = Some doc
  ∧ CreateAppointmentDialog.selectedDate st' = Some d
  ∧ CreateAppointmentDialog.selectedTime st' = Some t
  ∧ CreateAppointmentDialog.notes st' = CreateAppointmentDialog.notes st
  ∧ toasts w' = toasts w ++ [slot_unavailable]
  ∧ requests w' = requests w
      ++ [InsertAppointment (booking_row u doc d t (CreateAppointmentDialog.notes st));
          SelectBookedTimes (Doctor.id doc) (DateFns.format_yyyy_MM_dd d)]
  ∧ appointments w' = appointments w
  ∧ calls w' = calls w
  ∧ CreateAppointmentDialog.bookedSlots st'
    = match fault (oracle w (S (tick w))) with
      | None => occupied doc d (appointments w)
      | Some _ => CreateAppointmentDialog.bookedSlots st
      end.
Proof.
  intros Hdoc Hd Ht Hne Hins Hcode.
  unfold CreateAppointmentDialog.handleBooking. rewrite Hdoc.
  booking_start Hd Ht. booking_rejected Hins.
  destruct (decide (code e = "23505")) as [_|]; [|done].
  unfold CreateAppointmentDialog.fetchBookedSlots, Supabase.select_booked_times.
  simpl. rewrite Hdoc. run_world.
  destruct (fault (oracle w (S (tick w)))); simpl;
    rewrite <- ?(assoc_L (++)); split_and!; done.
Qed.

(** C2: at both call sites, when the insert of a booking attempt comes back
    with error code 23505 (the unique violation), [handleBooking] asks the
    ledger again for the booked times of the same doctor and day, puts the
    flow back in the time step, shows one toast and no other, the destructive
    toast titled "Slot Unavailable" that says "This time slot has just been
    booked. Please choose another.", and keeps the chosen doctor and date (and the time and notes);
    the slot list is replaced by the ledger's answer when one arrives. *)
Theorem conflict_recovers_to_time
    (u : User.t) (doc : Doctor.t) (d : DateFns.Date) (t : string) (w : World)
    (e : PostgrestError) :
  t ≠ "" →
  code e = "23505" →
  (∀ st : BookingDialog.State,
      BookingDialog.selectedDate st = Some d →
      BookingDialog.selectedTime st = Some t →
      (Supabase.insert_appointment (booking_row u doc d t (BookingDialog.notes st)) w).1
        = Some e →
      let '(st', w') := BookingDialog.handleBooking (Some u) (Some doc) st w in
      BookingDialog.step st' = BookingDialog.time
      ∧ BookingDialog.selectedDate st' = Some d
      ∧ BookingDialog.selectedTime st' = Some t
      ∧ BookingDialog.notes st' = BookingDialog.notes st
      ∧ toasts w' = toasts w
          ++ [{| title := "Slot Unavailable";
                 description :=
                   "This time slot has just been booked. Please choose another.";
                 destructive := true |}]
      ∧ requests w' = requests w
          ++ [InsertAppointment (booking_row u doc d t (BookingDialog.notes st));
              SelectBookedTimes (Doctor.id doc) (DateFns.format_yyyy_MM_dd d)]
      ∧ appointments w' = appointments w
      ∧ BookingDialog.bookedSlots st'
        = match fault (oracle w (S (tick w))) with
          | None => occupied doc d (appointments w)
          | Some _ => BookingDialog.bookedSlots st
          end)
  ∧ (∀ st : CreateAppointmentDialog.State,
        CreateAppointmentDialog.selectedDoctor st = Some doc →
        CreateAppointmentDialog.selectedDate st = Some d →
        CreateAppointmentDialog.selectedTime st = Some t →
        (Supabase.insert_appointment
           (booking_row u doc d t (CreateAppointmentDialog.notes st)) w).1 = Some e →
        let '(st', w') := CreateAppointmentDialog.handleBooking (Some u) st w in
        CreateAppointmentDialog.step st' = CreateAppointmentDialog.time
        ∧ CreateAppointmentDialog.selectedDoctor st' = Some doc
        ∧ CreateAppointmentDialog.selectedDate st' = Some d
        ∧ CreateAppointmentDialog.selectedTime st' = Some t
        ∧ CreateAppointmentDialog.notes st' = CreateAppointmentDialog.notes st
        ∧ toasts w' = toasts w
          ++ [{| title := "Slot Unavailable";
                 description :=
                   "This time slot has just been booked. Please choose another.";
                 destructive := true |}]
        ∧ requests w' = requests w
            ++ [InsertAppointment (booking_row u doc d t (CreateAppointmentDialog.notes st));
                SelectBookedTimes (Doctor.id doc) (DateFns.format_yyyy_MM_dd d)]
        ∧ appointments w' = appointments w
        ∧ CreateAppointmentDialog.bookedSlots st'
          = match fault (oracle w (S (tick w))) with
            | None => occupied doc d (appointments w)
            | Some _ => CreateAppointmentDialog.bookedSlots st
            end).
Proof.
  intros Hne Hcode. split.
  - intros st Hd Ht Hins.
    pose proof (dialog_conflict u doc d t st w e Hd Ht Hne Hins Hcode) as H.
    unfold slot_unavailable in H.
    destruct (BookingDialog.handleBooking _ _ _ _) as [st' w']. tauto.
  - intros st Hdoc Hd Ht Hins.
    pose proof (wizard_conflict u doc d t st w e Hdoc Hd Ht Hne Hins Hcode) as H.
    unfold slot_unavailable in H.
    destruct (CreateAppointmentDialog.handleBooking _ _ _) as [st' w']. tauto.
Qed.

(** In the scenario the second patient asks for (D, 2026-03-10, 09:00)
    after the first one holds it. *)
Lemma conflict_recovers_to_time_witness :
  let '(st', w') :=
    BookingDialog.handleBooking (Some patient_2) (Some (doctor_D ∅)) dialog_confirm
      (world_1 quiet) in
  BookingDialog.step st' = BookingDialog.time
  ∧ BookingDialog.bookedSlots st' = ["09:00"]
  ∧ toasts w'
    = [{| title := "Slot Unavailable";
          description := "This time slot has just been booked. Please choose another.";
          destructive := true |}].
Proof.
  destruct (conflict_recovers_to_time patient_2 (doctor_D ∅) march_10 "09:00"
              (world_1 quiet) Ledger.unique_violation ltac:(done) eq_refl) as [H _].
  specialize (H dialog_confirm eq_refl eq_refl eq_refl).
  destruct (BookingDialog.handleBooking _ _ _ _) as [st' w'].
  destruct H as (Hs & _ & _ & _ & Ht & _ & _ & Hb).
  split_and!; [exact Hs | exact Hb | exact Ht].
Defined.

(** ** Failures other than the conflict *)

(** C7: at both call sites, when the insert of a booking attempt made in the
    confirm step fails with an error whose code is not 23505, [handleBooking]
    shows the "Booking Failed" toast with the error's own message and
    changes nothing else: the flow stays in the confirm step with the same
    doctor, date, time, notes and slot list, the ledger is as before, and
    the confirm button is enabled again ([loading] is false). *)
Theorem other_failure_stays_in_confirm
    (u : User.t) (doc : Doctor.t) (d : DateFns.Date) (t : string) (w : World)
    (e : PostgrestError) :
  t ≠ "" →
  code e ≠ "23505" →
  (∀ st : BookingDialog.State,
      BookingDialog.step st = BookingDialog.confirm →
      BookingDialog.selectedDate st = Some d →
      BookingDialog.selectedTime st = Some t →
      (Supabase.insert_appointment (booking_row u doc d t (BookingDialog.notes st)) w).1
        = Some e →
      let '(st', w') := BookingDialog.handleBooking (Some u) (Some doc) st w in
      st' = BookingDialog.setLoading false st
      ∧ BookingDialog.step st' = BookingDialog.confirm
      ∧ toasts w' = toasts w ++ [ {| title := "Booking Failed";
                                     description := message e;
                                     destructive := true |} ]
      ∧ requests w' = requests w
          ++ [InsertAppointment (booking_row u doc d t (BookingDialog.notes st))]
      ∧ appointments w' = appointments w
      ∧ calls w' = calls w)
  ∧ (∀ st : CreateAppointmentDialog.State,
        CreateAppointmentDialog.step st = CreateAppointmentDialog.confirm →
        CreateAppointmentDialog.selectedDoctor st = Some doc →
        CreateAppointmentDialog.selectedDate st = Some d →
        CreateAppointmentDialog.selectedTime st = Some t →
        (Supabase.insert_appointment
           (booking_row u doc d t (CreateAppointmentDialog.notes st)) w).1 = Some e →
        let '(st', w') := CreateAppointmentDialog.handleBooking (Some u) st w in
        st' = CreateAppointmentDialog.setLoading false st
        ∧ CreateAppointmentDialog.step st' = CreateAppointmentDialog.confirm
        ∧ toasts w' = toasts w ++ [ {| title := "Booking Failed";
                                       description := message e;
                                       destructive := true |} ]
        ∧ requests w' = requests w
            ++ [InsertAppointment (booking_row u doc d t (CreateAppointmentDialog.notes st))]
        ∧ appointments w' = appointments w
        ∧ calls w' = calls w).
Proof.
  intros Hne Hcode. split.
  - intros st Hs Hd Ht Hins.
    booking_start Hd Ht. booking_rejected Hins.
    destruct (decide (code e = "23505")); [done|].
    run_world. split_and!; done.
  - intros st Hs Hdoc Hd Ht Hins.
    unfold CreateAppointmentDialog.handleBooking. rewrite Hdoc.
    booking_start Hd Ht. booking_rejected Hins.
    destruct (decide (code e = "23505")); [done|].
    run_world. split_and!; done.
Qed.

(** With the network down the scenario's booking fails with "Failed to
    fetch" and stays in the confirm step. *)
Lemma other_failure_stays_in_confirm_witness :
  let '(st', w') :=
    BookingDialog.handleBooking (Some patient_1) (Some (doctor_D ∅)) dialog_confirm
      (world_0 offline) in
  st' = dialog_confirm
  ∧ toasts w' = [ {| title := "Booking Failed"; description := "Failed to fetch";
                     destructive := true |} ].
Proof.
  destruct (other_failure_stays_in_confirm patient_1 (doctor_D ∅) march_10 "09:00"
              (world_0 offline) {| code := "503"; message := "Failed to fetch" |}
              ltac:(done) ltac:(done)) as [H _].
  specialize (H dialog_confirm eq_refl eq_refl eq_refl eq_refl).
  destruct (BookingDialog.handleBooking _ _ _ _) as [st' w'].
  destruct H as (Hst & _ & Ht & _). split; [exact Hst | exact Ht].
Defined.

(** ** A successful booking *)

(** C5, as stated, fails for the dialog of the doctors page: the scenario's
    booking succeeds there and reaches the success step, but no
    [onAppointmentCreated] call is made. *)
Lemma dialog_success_notifies_nobody :
  let '(st', w') :=
    BookingDialog.handleBooking (Some patient_1) (Some (doctor_D ∅)) dialog_confirm
      (world_0 quiet) in
  (Supabase.insert_appointment
     (booking_row patient_1 (doctor_D ∅) march_10 "09:00" "checkup") (world_0 quiet)).1
    = None
  ∧ BookingDialog.step st' = BookingDialog.success
  ∧ onAppointmentCreated ∉ calls w'.
Proof.
  vm_compute. split_and!; [reflexivity | reflexivity |].
  intros H. inversion H.
Qed.

(** C5, amended: at both call sites a booking attempt whose insert succeeds
    moves the flow to the success step and shows the "Appointment Booked!"
    toast.  The criteria-driven wizard then calls [onAppointmentCreated]
    once, which the appointments page answers by fetching its list again;
    the dialog for a doctor chosen beforehand has no such callback and
    calls nothing. *)
Theorem success_step_and_notification
    (u : User.t) (doc : Doctor.t) (d : DateFns.Date) (t : string) (w : World) :
  t ≠ "" →
  (∀ st : BookingDialog.State,
      BookingDialog.selectedDate st = Some d →
      BookingDialog.selectedTime st = Some t →
      (Supabase.insert_appointment (booking_row u doc d t (BookingDialog.notes st)) w).1
        = None →
      let '(st', w') := BookingDialog.handleBooking (Some u) (Some doc) st w in
      BookingDialog.step st' = BookingDialog.success
      ∧ toasts w' = toasts w ++ [appointment_booked (Doctor.name doc)]
      ∧ calls w' = calls w)
  ∧ (∀ (st : CreateAppointmentDialog.State) (page : Appointments.State),
        CreateAppointmentDialog.selectedDoctor st = Some doc →
        CreateAppointmentDialog.selectedDate st = Some d →
        CreateAppointmentDialog.selectedTime st = Some t →
        (Supabase.insert_appointment
           (booking_row u doc d t (CreateAppointmentDialog.notes st)) w).1 = None →
        let '(st', w') := CreateAppointmentDialog.handleBooking (Some u) st w in
        CreateAppointmentDialog.step st' = CreateAppointmentDialog.success
        ∧ toasts w' = toasts w ++ [appointment_booked (Doctor.name doc)]
        ∧ calls w' = calls w ++ [onAppointmentCreated]
        ∧ Appointments.deliver (Some u) onAppointmentCreated page w'
          = Appointments.fetchAppointments (Some u) page w'
        ∧ requests (Appointments.deliver (Some u) onAppointmentCreated page w').2
          = requests w' ++ [SelectAppointments (User.id u)]).
Proof.
  intros Hne. split.
  - intros st Hd Ht Hins.
    booking_start Hd Ht. booking_accepted Hins. run_world. split_and!; done.
  - intros st page Hdoc Hd Ht Hins.
    unfold CreateAppointmentDialog.handleBooking. rewrite Hdoc.
    booking_start Hd Ht. booking_accepted Hins. run_world. split_and!; try done.
    unfold Supabase.select_appointments. run_world.
    destruct (fault (oracle w (S (tick w)))); reflexivity.
Qed.

(** The scenario in the wizard: the booking succeeds and the page is told. *)
Lemma success_step_and_notification_witness :
  let '(st', w') :=
    CreateAppointmentDialog.handleBooking (Some patient_1) wizard_confirm (world_0 quiet) in
  CreateAppointmentDialog.step st' = CreateAppointmentDialog.success
  ∧ calls w' = [onAppointmentCreated].
Proof.
  destruct (success_step_and_notification patient_1 (doctor_D ∅) march_10 "09:00"
              (world_0 quiet) ltac:(done)) as [_ H].
  specialize (H wizard_confirm (Appointments.mkState [] true true)
                eq_refl eq_refl eq_refl eq_refl).
  destruct (CreateAppointmentDialog.handleBooking _ _ _) as [st' w'].
  destruct H as (Hs & _ & Hc & _). split; [exact Hs | exact Hc].
Defined.

(** ** The uniqueness invariant *)

Lemma unique_active_insert (f : Fate) (r : AppointmentInsert) (rows : list Appointment.t) :
  Ledger.unique_active rows →
  ¬ Ledger.taken (ins_doctor_id r, ins_appointment_date r, ins_appointment_time r) rows →
  Ledger.unique_active (rows ++ [Ledger.new_row f r]).
Proof.
  intros Hu Hfree i j a b Hij Hi Hj Ha Hb Hslot.
  apply lookup_snoc_Some in Hi as [[Hil Hi]|[Hil Hi]];
    apply lookup_snoc_Some in Hj as [[Hjl Hj]|[Hjl Hj]].
  - exact (Hu i j a b Hij Hi Hj Ha Hb Hslot).
  - subst b. apply Hfree. apply Exists_exists. exists a. split.
    + eapply list_elem_of_lookup_2; eassumption.
    + split; [exact Ha | exact Hslot].
  - subst a. apply Hfree. apply Exists_exists. exists b. split.
    + eapply list_elem_of_lookup_2; eassumption.
    + split; [exact Hb | symmetry; exact Hslot].
  - lia.
Qed.

Lemma unique_active_updated (id : string) (rows : list Appointment.t) :
  Ledger.unique_active rows →
  Ledger.unique_active (Supabase.updated id cancelled rows).
Proof.
  intros Hu i j a b Hij Hi Hj Ha Hb.
  unfold Supabase.updated in Hi, Hj.
  rewrite list_lookup_fmap in Hi, Hj.
  destruct (rows !! i) as [a0|] eqn:Ei; [|discriminate].
  destruct (rows !! j) as [b0|] eqn:Ej; [|discriminate].
  simpl in Hi, Hj. injection Hi as <-. injection Hj as <-.
  destruct (decide (Appointment.id a0 = id)); [exfalso; apply Ha; reflexivity|].
  destruct (decide (Appointment.id b0 = id)); [exfalso; apply Hb; reflexivity|].
  exact (Hu i j a0 b0 Hij Ei Ej Ha Hb).
Qed.

(** What a booking attempt can do to the table: nothing, or append the row
    of an insert whose slot was free. *)
Lemma dialog_booking_ledger (auth : option User.t) (doctor : option Doctor.t)
    (st : BookingDialog.State) (w : World) :
  appointments (BookingDialog.handleBooking auth doctor st w).2 = appointments w
  ∨ ∃ r, ¬ Ledger.taken (ins_doctor_id r, ins_appointment_date r, ins_appointment_time r)
           (appointments w)
         ∧ appointments (BookingDialog.handleBooking auth doctor st w).2
           = appointments w ++ [Ledger.new_row (oracle w (tick w)) r].
Proof.
  destruct (BookingDialog.handleBooking auth doctor st w) as [st' w'] eqn:Hres.
  unfold BookingDialog.handleBooking in Hres.
  destruct auth as [u|]; [|injection Hres as _ <-; by left].
  destruct doctor as [doc|]; [|injection Hres as _ <-; by left].
  destruct (BookingDialog.selectedDate st) as [d|]; [|injection Hres as _ <-; by left].
  destruct (BookingDialog.selectedTime st) as [t|]; [|injection Hres as _ <-; by left].
  destruct (decide (t = "")); [injection Hres as _ <-; by left|].
  unfold bind at 1 in Hres. simpl in Hres.
  destruct (Supabase.insert_appointment _ w) as [err w1] eqn:Hrun.
  destruct err as [e|].
  - left.
    assert (Hw : w1 = (send (InsertAppointment
               (booking_row u doc d t (BookingDialog.notes st))) w).2).
    { rewrite <- (insert_appointment_error _ w e); unfold booking_row; simpl;
        rewrite Hrun; reflexivity. }
    subst w1.
    destruct (decide (code e = "23505")); [|injection Hres as _ <-; reflexivity].
    unfold Supabase.select_booked_times in Hres. run_world.
    destruct (fault (oracle w (S (tick w)))); injection Hres as _ <-; reflexivity.
  - right. exists (booking_row u doc d t (BookingDialog.notes st)).
    assert (Hok : (Supabase.insert_appointment
               (booking_row u doc d t (BookingDialog.notes st)) w).1 = None).
    { unfold booking_row; simpl; rewrite Hrun; reflexivity. }
    destruct (insert_appointment_ok _ _ Hok) as (_ & Hfree & Hw).
    unfold booking_row in Hw; simpl in Hw. rewrite Hrun in Hw. simpl in Hw. subst w1.
    injection Hres as _ <-. split; [exact Hfree | reflexivity].
Qed.

Lemma wizard_booking_ledger (auth : option User.t)
    (st : CreateAppointmentDialog.State) (w : World) :
  appointments (CreateAppointmentDialog.handleBooking auth st w).2 = appointments w
  ∨ ∃ r, ¬ Ledger.taken (ins_doctor_id r, ins_appointment_date r, ins_appointment_time r)
           (appointments w)
         ∧ appointments (CreateAppointmentDialog.handleBooking auth st w).2
           = appointments w ++ [Ledger.new_row (oracle w (tick w)) r].
Proof.
  destruct (CreateAppointmentDialog.handleBooking auth st w) as [st' w'] eqn:Hres.
  unfold CreateAppointmentDialog.handleBooking in Hres.
  destruct auth as [u|]; [|injection Hres as _ <-; by left].
  destruct (CreateAppointmentDialog.selectedDoctor st) as [doc|] eqn:Hdoc;
    [|injection Hres as _ <-; by left].
  destruct (CreateAppointmentDialog.selectedDate st) as [d|];
    [|injection Hres as _ <-; by left].
  destruct (CreateAppointmentDialog.selectedTime st) as [t|];
    [|injection Hres as _ <-; by left].
  destruct (decide (t = "")); [injection Hres as _ <-; by left|].
  unfold bind at 1 in Hres. simpl in Hres.
  destruct (Supabase.insert_appointment _ w) as [err w1] eqn:Hrun.
  destruct err as [e|].
  - left.
    assert (Hw : w1 = (send (InsertAppointment
               (booking_row u doc d t (CreateAppointmentDialog.notes st))) w).2).
    { rewrite <- (insert_appointment_error _ w e); unfold booking_row; simpl;
        rewrite Hrun; reflexivity. }
    subst w1.
    destruct (decide (code e = "23505")); [|injection Hres as _ <-; reflexivity].
    unfold CreateAppointmentDialog.fetchBookedSlots, Supabase.select_booked_times in Hres.
    simpl in Hres. rewrite Hdoc in Hres. run_world.
    destruct (fault (oracle w (S (tick w)))); injection Hres as _ <-; reflexivity.
  - right. exists (booking_row u doc d t (CreateAppointmentDialog.notes st)).
    assert (Hok : (Supabase.insert_appointment
               (booking_row u doc d t (CreateAppointmentDialog.notes st)) w).1 = None).
    { unfold booking_row; simpl; rewrite Hrun; reflexivity. }
    destruct (insert_appointment_ok _ _ Hok) as (_ & Hfree & Hw).
    unfold booking_row in Hw; simpl in Hw. rewrite Hrun in Hw. simpl in Hw. subst w1.
    injection Hres as _ <-. split; [exact Hfree | reflexivity].
Qed.

Lemma cancel_ledger (appointmentId : string) (st : Appointments.State) (w : World) :
  appointments (Appointments.cancelAppointment appointmentId st w).2 = appointments w
  ∨ appointments (Appointments.cancelAppointment appointmentId st w).2
    = Supabase.updated appointmentId cancelled (appointments w).
Proof.
  unfold Appointments.cancelAppointment, Supabase.update_appointment_status. run_world.
  destruct (fault (oracle w (tick w))); simpl; [left|right]; reflexivity.
Qed.

Lemma perform_preserves (op : ClientOp) (w : World) :
  Ledger.unique_active (appointments w) →
  Ledger.unique_active (appointments (perform op w).2).
Proof.
  intros Hu. destruct op as [auth doctor st | auth st | appointmentId st]; simpl;
    unfold bind, ret.
  - pose proof (dialog_booking_ledger auth doctor st w) as H.
    destruct (BookingDialog.handleBooking auth doctor st w) as [st' w']. simpl in *.
    destruct H as [-> | (r & Hfree & ->)]; [exact Hu|].
    apply unique_active_insert; assumption.
  - pose proof (wizard_booking_ledger auth st w) as H.
    destruct (CreateAppointmentDialog.handleBooking auth st w) as [st' w']. simpl in *.
    destruct H as [-> | (r & Hfree & ->)]; [exact Hu|].
    apply unique_active_insert; assumption.
  - pose proof (cancel_ledger appointmentId st w) as H.
    destruct (Appointments.cancelAppointment appointmentId st w) as [st' w']. simpl in *.
    destruct H as [-> | ->]; [exact Hu|].
    apply unique_active_updated; assumption.
Qed.

(** C1 (against the ledger modelled from the spec): two rows of the
    appointments table at different positions that are both not cancelled
    never have the same (doctor, date, time).  The ledger's insert keeps
    this by itself, answering a taken slot with the unique violation and
    storing nothing; and every sequence of booking attempts (from either
    dialog, in any state) and cancellations keeps it. *)
Theorem uniqueness_invariant_preserved :
  (∀ f r rows rows',
      Ledger.unique_active rows → Ledger.insert f r rows = inr rows' →
      Ledger.unique_active rows')
  ∧ (∀ f r rows,
        Ledger.taken (ins_doctor_id r, ins_appointment_date r, ins_appointment_time r) rows →
        Ledger.insert f r rows = inl Ledger.unique_violation)
  ∧ (∀ ops w,
        Ledger.unique_active (appointments w) →
        Ledger.unique_active (appointments (perform_all ops w).2)).
Proof.
  split_and!.
  - intros f r rows rows' Hu. unfold Ledger.insert.
    destruct (decide (Ledger.taken _ rows)) as [|Hfree]; [discriminate|].
    intros [= <-]. apply unique_active_insert; assumption.
  - intros f r rows Ht. unfold Ledger.insert.
    destruct (decide (Ledger.taken _ rows)); [reflexivity|contradiction].
  - intros ops. induction ops as [|op ops IH]; intros w Hu; [exact Hu|].
    simpl. unfold bind.
    pose proof (perform_preserves op w Hu) as Hop.
    destruct (perform op w) as [[] w1]. simpl in Hop.
    apply IH. exact Hop.
Qed.

(** In the scenario: the second patient is refused the slot the first one
    holds, the first one cancels, and the second one books it. *)
Lemma uniqueness_invariant_preserved_witness :
  Ledger.unique_active (appointments (world_1 quiet))
  ∧ Ledger.unique_active
      (appointments
         (perform_all
            [ BookInDialog (Some patient_2) (Some (doctor_D ∅)) dialog_confirm;
              CancelOnPage "apt-0" (Appointments.mkState [] false false);
              BookInWizard (Some patient_2) wizard_confirm ]
            (world_1 quiet)).2).
Proof.
  assert (H1 : Ledger.unique_active (appointments (world_1 quiet))).
  { intros i j a b Hij Hi Hj _ _. simpl in Hi, Hj.
    destruct i as [|i]; destruct j as [|j]; try done. }
  split; [exact H1|].
  destruct uniqueness_invariant_preserved as (_ & _ & Hruns).
  apply Hruns. exact H1.
Defined.

(** ** The status of a new appointment *)

(** C6 (against the ledger modelled from the spec): whatever a booking
    attempt adds to the appointments table has status "scheduled"; and when
    the insert of an attempt is accepted, exactly one row is added, with
    status "scheduled" and with the patient, doctor, day, time and notes of
    the attempt.  Neither dialog sends a status of its own. *)
Theorem booked_row_is_scheduled
    (u : User.t) (doc : Doctor.t) (d : DateFns.Date) (t : string) (w : World)
    (dst : BookingDialog.State) (wst : CreateAppointmentDialog.State) :
  (∀ auth doctor st,
      ∃ created,
        appointments (BookingDialog.handleBooking auth doctor st w).2
          = appointments w ++ created
        ∧ Forall (λ a, Appointment.status a = scheduled) created)
  ∧ (∀ auth st,
        ∃ created,
          appointments (CreateAppointmentDialog.handleBooking auth st w).2
            = appointments w ++ created
          ∧ Forall (λ a, Appointment.status a = scheduled) created)
  ∧ (t ≠ "" →
     BookingDialog.selectedDate dst = Some d →
     BookingDialog.selectedTime dst = Some t →
     (Supabase.insert_appointment (booking_row u doc d t (BookingDialog.notes dst)) w).1
       = None →
     ∃ a, appointments (BookingDialog.handleBooking (Some u) (Some doc) dst w).2
          = appointments w ++ [a]
          ∧ Appointment.status a = scheduled
          ∧ Appointment.patient_id a = User.id u
          ∧ Appointment.slot a = (Doctor.id doc, DateFns.format_yyyy_MM_dd d, t)
          ∧ Appointment.notes a = or_null (BookingDialog.notes dst))
  ∧ (t ≠ "" →
     CreateAppointmentDialog.selectedDoctor wst = Some doc →
     CreateAppointmentDialog.selectedDate wst = Some d →
     CreateAppointmentDialog.selectedTime wst = Some t →
     (Supabase.insert_appointment
        (booking_row u doc d t (CreateAppointmentDialog.notes wst)) w).1 = None →
     ∃ a, appointments (CreateAppointmentDialog.handleBooking (Some u) wst w).2
          = appointments w ++ [a]
          ∧ Appointment.status a = scheduled
          ∧ Appointment.patient_id a = User.id u
          ∧ Appointment.slot a = (Doctor.id doc, DateFns.format_yyyy_MM_dd d, t)
          ∧ Appointment.notes a = or_null (CreateAppointmentDialog.notes wst)).
Proof.
  split_and!.
  - intros auth doctor st.
    destruct (dialog_booking_ledger auth doctor st w) as [-> | (r & _ & ->)].
    + exists []. rewrite app_nil_r. split; [reflexivity | constructor].
    + eexists. split; [reflexivity|]. repeat constructor.
  - intros auth st.
    destruct (wizard_booking_ledger auth st w) as [-> | (r & _ & ->)].
    + exists []. rewrite app_nil_r. split; [reflexivity | constructor].
    + eexists. split; [reflexivity|]. repeat constructor.
  - intros Hne Hd Ht Hins.
    exists (Ledger.new_row (oracle w (tick w))
              (booking_row u doc d t (BookingDialog.notes dst))).
    split; [|split_and!; reflexivity].
    booking_start Hd Ht. booking_accepted Hins. reflexivity.
  - intros Hne Hdoc Hd Ht Hins.
    exists (Ledger.new_row (oracle w (tick w))
              (booking_row u doc d t (CreateAppointmentDialog.notes wst))).
    split; [|split_and!; reflexivity].
    unfold CreateAppointmentDialog.handleBooking. rewrite Hdoc.
    booking_start Hd Ht. booking_accepted Hins. reflexivity.
Qed.

(** The scenario's booking creates the row (patient 1, D, 2026-03-10,
    09:00, "checkup") with status "scheduled". *)
Lemma booked_row_is_scheduled_witness :
  ∃ a, appointments
         (BookingDialog.handleBooking (Some patient_1) (Some (doctor_D ∅)) dialog_confirm
            (world_0 quiet)).2 = [a]
       ∧ Appointment.status a = scheduled
       ∧ Appointment.slot a = ("doc-D", 20522, "09:00").
Proof.
  destruct (booked_row_is_scheduled patient_1 (doctor_D ∅) march_10 "09:00"
              (world_0 quiet) dialog_confirm wizard_confirm) as (_ & _ & H & _).
  destruct (H ltac:(done) eq_refl eq_refl eq_refl) as (a & Ha & Hs & _ & Hslot & _).
  exists a. split_and!; [exact Ha | exact Hs | exact Hslot].
Defined.

(** ** Cancelling *)

Lemma updated_idem (id : string) (rows : list Appointment.t) :
  Supabase.updated id cancelled (Supabase.updated id cancelled rows)
  = Supabase.updated id cancelled rows.
Proof.
  unfold Supabase.updated. induction rows as [|a rows IH]; [reflexivity|].
  simpl. f_equal; [|exact IH].
  destruct (decide (Appointment.id a = id)) as [Hid|Hid]; simpl.
  - rewrite decide_True by exact Hid. reflexivity.
  - rewrite decide_False by exact Hid. reflexivity.
Qed.

Lemma markCancelled_idem (id : string) (l : list (Appointment.t * option Doctor.t)) :
  Appointments.markCancelled id (Appointments.markCancelled id l)
  = Appointments.markCancelled id l.
Proof.
  unfold Appointments.markCancelled. induction l as [|[a doc] l IH]; [reflexivity|].
  simpl. f_equal; [|exact IH].
  destruct (decide (Appointment.id a = id)) as [Hid|Hid]; simpl.
  - rewrite decide_True by exact Hid. reflexivity.
  - rewrite decide_False by exact Hid. reflexivity.
Qed.

Lemma updated_lookup (id : string) (rows : list Appointment.t) (i : nat) (a : Appointment.t) :
  rows !! i = Some a →
  ∃ a', Supabase.updated id cancelled rows !! i = Some a'
        ∧ same_but_status a a'
        ∧ (Appointment.id a = id → Appointment.status a' = cancelled)
        ∧ (Appointment.id a ≠ id → a' = a).
Proof.
  intros Hi. unfold Supabase.updated. rewrite list_lookup_fmap, Hi. simpl.
  eexists. split; [reflexivity|].
  destruct (decide (Appointment.id a = id)) as [Hid|Hid].
  - split_and!; [by repeat split | reflexivity | done].
  - split_and!; [by repeat split | done | reflexivity].
Qed.

(** C8: [cancelAppointment] always sends the same request, the update of
    [status] to "cancelled" for the rows with the given id, whatever the
    status of the appointment is.  When the update goes through, every row
    with that id has status "cancelled" and all its other columns as before,
    every other row is untouched, and the page's list is changed in the same
    way.  Cancelling once more sends the same update again and leaves the
    table and the page's list as they were after the first cancellation. *)
Theorem cancel_sets_status_only
    (appointmentId : string) (st : Appointments.State) (w : World) :
  requests (Appointments.cancelAppointment appointmentId st w).2
    = requests w ++ [UpdateAppointmentStatus appointmentId cancelled]
  ∧ (fault (oracle w (tick w)) = None →
     let '(st', w') := Appointments.cancelAppointment appointmentId st w in
     length (appointments w') = length (appointments w)
     ∧ (∀ i a, appointments w !! i = Some a →
          ∃ a', appointments w' !! i = Some a'
                ∧ same_but_status a a'
                ∧ (Appointment.id a = appointmentId → Appointment.status a' = cancelled)
                ∧ (Appointment.id a ≠ appointmentId → a' = a))
     ∧ Appointments.appointments st'
       = Appointments.markCancelled appointmentId (Appointments.appointments st)
     ∧ toasts w' = toasts w ++ [Appointments.cancel_done]
     ∧ (fault (oracle w' (tick w')) = None →
        let '(st'', w'') := Appointments.cancelAppointment appointmentId st' w' in
        appointments w'' = appointments w'
        ∧ Appointments.appointments st'' = Appointments.appointments st'
        ∧ requests w'' = requests w' ++ [UpdateAppointmentStatus appointmentId cancelled])).
Proof.
  split.
  - unfold Appointments.cancelAppointment, Supabase.update_appointment_status. run_world.
    destruct (fault (oracle w (tick w))); reflexivity.
  - intros Hok.
    unfold Appointments.cancelAppointment, Supabase.update_appointment_status. run_world.
    rewrite Hok. simpl. split_and!.
    + unfold Supabase.updated. apply length_fmap.
    + intros i a Hi. apply updated_lookup. exact Hi.
    + reflexivity.
    + reflexivity.
    + intros Hok2. rewrite Hok2. simpl.
      rewrite updated_idem, markCancelled_idem. split_and!; reflexivity.
Qed.

(** Patient 1 cancels the scenario's appointment, twice. *)
Lemma cancel_sets_status_only_witness :
  let '(st', w') := Appointments.cancelAppointment "apt-0" page_1 (world_1 quiet) in
  Appointment.status <$> appointments w' = [cancelled]
  ∧ let '(st'', w'') := Appointments.cancelAppointment "apt-0" st' w' in
    appointments w'' = appointments w'.
Proof.
  destruct (cancel_sets_status_only "apt-0" page_1 (world_1 quiet)) as [_ H].
  specialize (H eq_refl).
  destruct (Appointments.cancelAppointment "apt-0" page_1 (world_1 quiet)) as [st' w']
    eqn:Hrun.
  destruct H as (_ & _ & _ & _ & H2).
  split.
  - injection Hrun as _ <-. reflexivity.
  - assert (Hq : fault (oracle w' (tick w')) = None) by (injection Hrun as _ <-; reflexivity).
    specialize (H2 Hq).
    destruct (Appointments.cancelAppointment "apt-0" st' w') as [st'' w''].
    destruct H2 as (H2 & _). exact H2.
Defined.

(** ** Sending a chat message *)

(** C10, as stated, fails: with the network down the gateway call fails,
    and so does the insert of the user's message before it, whose result
    [sendMessage] never looks at; the store has gained nothing. *)
Lemma offline_send_stores_nothing :
  let '(st', w') := Curax.sendMessage (Some patient_1) chat_hello (world_0 offline) in
  requests w' = [ InsertChatMessage "patient-1" user "hello";
                  InvokeCuraxChat "hello" "patient-1" ]
  ∧ toasts w' = [Curax.chat_failed]
  ∧ chat_messages w' = chat_messages (world_0 offline)
  ∧ ¬ ∃ m, m ∈ chat_messages w' ∧ ChatMessage.content m = "hello".
Proof.
  vm_compute. split_and!; try reflexivity.
  intros (m & Hm & _). inversion Hm.
Qed.

(** C10, amended: [sendMessage] sends the insert of the user's message
    before it invokes the gateway.  In every run in which the store accepts
    that insert and the gateway call then fails, the store ends with exactly
    the user's message added (role "user") and no assistant reply, and the
    failure toast is shown; the same holds for the store when the gateway
    answers and the insert of the assistant's message is rejected, a failure
    that goes unnoticed (no toast).  Nothing removes the user's message
    again. *)
Theorem send_is_not_atomic (u : User.t) (st : Curax.State) (w : World) :
  Curax.trim (Curax.input st) ≠ "" →
  Curax.loading st = false →
  fault (oracle w (S (tick w))) = None →
  let msg := Curax.trim (Curax.input st) in
  let user_row :=
    ChatMessage.mk (uuid (oracle w (S (tick w)))) (User.id u) user msg
                   (stamp (oracle w (S (tick w)))) in
  let '(st', w') := Curax.sendMessage (Some u) st w in
  (∀ e, fault (oracle w (S (S (tick w)))) = Some e →
        chat_messages w' = chat_messages w ++ [user_row]
        ∧ requests w' = requests w ++ [ InsertChatMessage (User.id u) user msg;
                                        InvokeCuraxChat msg (User.id u) ]
        ∧ toasts w' = toasts w ++ [Curax.chat_failed]
        ∧ Curax.loading st' = false)
  ∧ (∀ e, fault (oracle w (S (S (tick w)))) = None →
          fault (oracle w (S (S (S (tick w))))) = Some e →
          chat_messages w' = chat_messages w ++ [user_row]
          ∧ requests w' = requests w
              ++ [ InsertChatMessage (User.id u) user msg;
                   InvokeCuraxChat msg (User.id u);
                   InsertChatMessage (User.id u) assistant
                     (reply (oracle w (S (S (tick w))))) ]
          ∧ toasts w' = toasts w
          ∧ Curax.loading st' = false).
Proof.
  intros Hin Hload Hok. unfold Curax.sendMessage.
  destruct (decide (Curax.trim (Curax.input st) = "")) as [|_]; [done|].
  rewrite Hload.
  unfold Curax.read_clock, Supabase.insert_chat_message, Supabase.invoke_curax_chat.
  run_world. rewrite Hok. simpl.
  destruct (fault (oracle w (S (S (tick w))))) as [e2|] eqn:Hgw; simpl.
  - split; [|intros e Hnone; discriminate].
    intros e _. rewrite <- !(assoc_L (++)). split_and!; reflexivity.
  - destruct (fault (oracle w (S (S (S (tick w)))))) as [e3|] eqn:Hins; simpl.
    + split; [intros e Hsome; discriminate|].
      intros e _ _. rewrite <- !(assoc_L (++)). split_and!; reflexivity.
    + split; intros e He; [discriminate He|]. intros He3. discriminate He3.
Qed.

(** The user's message reaches the store, then the gateway is down. *)
Lemma send_is_not_atomic_witness :
  let '(st', w') := Curax.sendMessage (Some patient_1) chat_hello (world_0 gateway_down) in
  ChatMessage.content <$> chat_messages w' = ["hello"]
  ∧ ChatMessage.role <$> chat_messages w' = [user]
  ∧ toasts w' = [Curax.chat_failed].
Proof.
  pose proof (send_is_not_atomic patient_1 chat_hello (world_0 gateway_down)
                ltac:(vm_compute; discriminate) eq_refl eq_refl) as H.
  cbv zeta in H.
  destruct (Curax.sendMessage (Some patient_1) chat_hello (world_0 gateway_down))
    as [st' w'].
  destruct H as [H _].
  destruct (H _ eq_refl) as (Hm & _ & Ht & _).
  split_and!; [rewrite Hm; reflexivity | rewrite Hm; reflexivity | exact Ht].
Defined.

(** ** Independence from the weekly availability *)

Section merge_sort_fmap.
Context {A : Type} (R : relation A) `{!RelDecision R} (f : A → A).
Hypothesis R_f : ∀ x y, R (f x) (f y) ↔ R x y.

Local Abbreviation on_stack st :=
  (fmap (M:=list) (fmap (M:=option) (fmap (M:=list) f)) st).

Lemma list_merge_fmap (l1 l2 : list A) :
  list_merge R (f <$> l1) (f <$> l2) = f <$> list_merge R l1 l2.
Proof.
  revert l2. induction l1 as [|x1 l1 IH1]; intros l2.
  - destruct l2; reflexivity.
  - induction l2 as [|x2 l2 IH2]; [reflexivity|].
    specialize (IH1 (x2 :: l2)). simpl in *.
    pose proof (R_f x1 x2) as Hd.
    destruct (decide (R (f x1) (f x2))), (decide (R x1 x2));
      try tauto; simpl; f_equal; assumption.
Qed.

Lemma merge_list_to_stack_fmap (st : list (option (list A))) (l : list A) :
  merge_list_to_stack R (on_stack st) (f <$> l)
  = on_stack (merge_list_to_stack R st l).
Proof.
  revert l. induction st as [|[l'|] st IH]; intros l; [reflexivity| |reflexivity].
  change (None :: merge_list_to_stack R (on_stack st) (list_merge R (f <$> l') (f <$> l))
          = None :: on_stack (merge_list_to_stack R st (list_merge R l' l))).
  f_equal. rewrite list_merge_fmap. apply IH.
Qed.

Lemma merge_stack_fmap (st : list (option (list A))) :
  merge_stack R (on_stack st) = f <$> merge_stack R st.
Proof.
  induction st as [|[l|] st IH]; [reflexivity| |exact IH].
  change (list_merge R (f <$> l) (merge_stack R (on_stack st))
          = f <$> list_merge R l (merge_stack R st)).
  rewrite IH. apply list_merge_fmap.
Qed.

Lemma merge_sort_aux_fmap (st : list (option (list A))) (l : list A) :
  merge_sort_aux R (on_stack st) (f <$> l) = f <$> merge_sort_aux R st l.
Proof.
  revert st. induction l as [|x l IH]; intros st.
  - apply merge_stack_fmap.
  - change (merge_sort_aux R (merge_list_to_stack R (on_stack st) (f <$> [x])) (f <$> l)
            = f <$> merge_sort_aux R (merge_list_to_stack R st [x]) l).
    rewrite merge_list_to_stack_fmap. apply IH.
Qed.

Lemma merge_sort_fmap (l : list A) :
  merge_sort R (f <$> l) = f <$> merge_sort R l.
Proof. apply (merge_sort_aux_fmap [] l). Qed.
End merge_sort_fmap.

Lemma filter_matches_forget (q : DoctorQuery) (l : list Doctor.t) :
  filter (Supabase.matches q) (forget <$> l) = forget <$> filter (Supabase.matches q) l.
Proof.
  induction l as [|d l IH]; [reflexivity|].
  rewrite fmap_cons, !filter_cons.
  change (decide (Supabase.matches q (forget d))) with (decide (Supabase.matches q d)).
  destruct (decide (Supabase.matches q d)); rewrite IH; reflexivity.
Qed.

Lemma select_doctors_forget (q : DoctorQuery) (w : World) :
  Supabase.select_doctors q (forget_world w)
  = (fmap (M:=option) (fmap (M:=list) forget) (Supabase.select_doctors q w).1,
     forget_world (Supabase.select_doctors q w).2).
Proof.
  unfold Supabase.select_doctors. run_world.
  destruct (fault (oracle w (tick w))); simpl; [reflexivity|].
  rewrite filter_matches_forget.
  rewrite (merge_sort_fmap Supabase.rating_desc forget); [reflexivity|].
  intros x y. reflexivity.
Qed.

Lemma wizard_handle_forget (auth : option User.t) (e : CreateAppointmentDialog.Event)
    (st : CreateAppointmentDialog.State) (w : World) :
  CreateAppointmentDialog.handle auth e (forget_state st) (forget_world w)
  = forget_result (CreateAppointmentDialog.handle auth e st w).
Proof.
  destruct e as [spec fee rating experience | | i | d | t | n | s | | b]; simpl.
  - reflexivity.
  - unfold CreateAppointmentDialog.handleApplyCriteria,
      CreateAppointmentDialog.fetchFilteredDoctors, bind.
    change (CreateAppointmentDialog.query
              (CreateAppointmentDialog.setLoadingDoctors true (forget_state st)))
      with (CreateAppointmentDialog.query
              (CreateAppointmentDialog.setLoadingDoctors true st)).
    rewrite select_doctors_forget.
    destruct (Supabase.select_doctors _ w) as [[rows|] w1]; reflexivity.
  - rewrite list_lookup_fmap.
    destruct (CreateAppointmentDialog.doctors st !! i); reflexivity.
  - destruct d as [d|]; [|reflexivity].
    unfold CreateAppointmentDialog.handleDateSelect,
      CreateAppointmentDialog.fetchBookedSlots. simpl.
    destruct (CreateAppointmentDialog.selectedDoctor st) as [doc|]; [|reflexivity].
    unfold Supabase.select_booked_times. run_world.
    destruct (fault (oracle w (tick w))); reflexivity.
  - reflexivity.
  - reflexivity.
  - reflexivity.
  - unfold CreateAppointmentDialog.handleBooking. simpl.
    destruct auth as [u|]; [|reflexivity].
    destruct (CreateAppointmentDialog.selectedDoctor st) as [doc|] eqn:Hdoc; [|reflexivity].
    destruct (CreateAppointmentDialog.selectedDate st) as [d|]; [|reflexivity].
    destruct (CreateAppointmentDialog.selectedTime st) as [t|]; [|reflexivity].
    simpl. destruct (decide (t = "")); [reflexivity|].
    unfold Supabase.insert_appointment, Ledger.insert. run_world.
    destruct (fault (oracle w (tick w))) as [e|]; simpl.
    + destruct (decide (code e = "23505")); [|reflexivity].
      unfold CreateAppointmentDialog.fetchBookedSlots, Supabase.select_booked_times.
      simpl. rewrite Hdoc. run_world.
      destruct (fault (oracle w (S (tick w)))); reflexivity.
    + destruct (decide (Ledger.taken _ (appointments w))); simpl; [|reflexivity].
      unfold CreateAppointmentDialog.fetchBookedSlots, Supabase.select_booked_times.
      simpl. rewrite Hdoc. run_world.
      destruct (fault (oracle w (S (tick w)))); reflexivity.
  - destruct b; reflexivity.
Qed.

Lemma wizard_run_forget (auth : option User.t) (es : list CreateAppointmentDialog.Event)
    (st : CreateAppointmentDialog.State) (w : World) :
  CreateAppointmentDialog.run auth es (forget_state st) (forget_world w)
  = forget_result (CreateAppointmentDialog.run auth es st w).
Proof.
  revert st w. induction es as [|e es IH]; intros st w; [reflexivity|].
  simpl. unfold bind. rewrite wizard_handle_forget.
  destruct (CreateAppointmentDialog.handle auth e st w) as [st1 w1]. apply IH.
Qed.

Lemma dialog_run_availability (auth : option User.t) (doc : Doctor.t) (av : gmap string bool)
    (es : list BookingDialog.Event) (st : BookingDialog.State) (w : World) :
  BookingDialog.run auth (Some (Doctor.with_availability av doc)) es st w
  = BookingDialog.run auth (Some doc) es st w.
Proof.
  revert st w. induction es as [|e es IH]; intros st w; [reflexivity|].
  simpl. unfold bind.
  assert (He : BookingDialog.handle auth (Some (Doctor.with_availability av doc)) e st w
               = BookingDialog.handle auth (Some doc) e st w)
    by (destruct e; reflexivity).
  rewrite He. destruct (BookingDialog.handle auth (Some doc) e st w) as [st1 w1]. apply IH.
Qed.

(** C9: the weekly availability map of a doctor has no influence on the
    booking flow.  In the dialog, replacing the doctor's map by any other
    map gives, after any sequence of events, the same state and the same
    world (same requests sent, among them the insert attempted, same ledger,
    same toasts), hence the same disabled dates and the same slot buttons.
    In the wizard, two runs of the same events from states and worlds that
    differ at most in availability maps end in states and worlds that differ
    at most in availability maps, and show the same disabled dates and slot
    buttons, send the same requests and leave the same ledger. *)
Theorem availability_is_never_consulted :
  (∀ auth doc av es st w now d,
      let r1 := BookingDialog.run auth (Some doc) es st w in
      let r2 := BookingDialog.run auth (Some (Doctor.with_availability av doc)) es st w in
      r1 = r2
      ∧ BookingDialog.calendar (Some doc) r1.1 now d
        = BookingDialog.calendar (Some (Doctor.with_availability av doc)) r2.1 now d
      ∧ BookingDialog.slotButtons (Some doc) r1.1
        = BookingDialog.slotButtons (Some (Doctor.with_availability av doc)) r2.1
      ∧ requests r1.2 = requests r2.2
      ∧ appointments r1.2 = appointments r2.2)
  ∧ (∀ auth es st1 st2 w1 w2 now d,
        forget_state st1 = forget_state st2 →
        forget_world w1 = forget_world w2 →
        let r1 := CreateAppointmentDialog.run auth es st1 w1 in
        let r2 := CreateAppointmentDialog.run auth es st2 w2 in
        forget_state r1.1 = forget_state r2.1
        ∧ forget_world r1.2 = forget_world r2.2
        ∧ CreateAppointmentDialog.calendar r1.1 now d
          = CreateAppointmentDialog.calendar r2.1 now d
        ∧ CreateAppointmentDialog.slotButtons r1.1 = CreateAppointmentDialog.slotButtons r2.1
        ∧ requests r1.2 = requests r2.2
        ∧ appointments r1.2 = appointments r2.2
        ∧ toasts r1.2 = toasts r2.2).
Proof.
  split.
  - intros auth doc av es st w now d. cbv zeta.
    rewrite dialog_run_availability. split_and!; reflexivity.
  - intros auth es st1 st2 w1 w2 now d Hst Hw. cbv zeta.
    assert (H : forget_result (CreateAppointmentDialog.run auth es st1 w1)
                = forget_result (CreateAppointmentDialog.run auth es st2 w2)).
    { rewrite <- !wizard_run_forget, Hst, Hw. reflexivity. }
    destruct (CreateAppointmentDialog.run auth es st1 w1) as [s1 v1].
    destruct (CreateAppointmentDialog.run auth es st2 w2) as [s2 v2].
    pose proof (f_equal fst H) as Hs. pose proof (f_equal snd H) as Hv.
    simpl in Hs, Hv. clear H. simpl.
    split_and!.
    + exact Hs.
    + exact Hv.
    + change (CreateAppointmentDialog.calendar (forget_state s1) now d
              = CreateAppointmentDialog.calendar (forget_state s2) now d).
      rewrite Hs. reflexivity.
    + change (CreateAppointmentDialog.slotButtons (forget_state s1)
              = CreateAppointmentDialog.slotButtons (forget_state s2)).
      rewrite Hs. reflexivity.
    + change (requests (forget_world v1) = requests (forget_world v2)).
      rewrite Hv. reflexivity.
    + change (appointments (forget_world v1) = appointments (forget_world v2)).
      rewrite Hv. reflexivity.
    + change (toasts (forget_world v1) = toasts (forget_world v2)).
      rewrite Hv. reflexivity.
Qed.

(** The scenario with a doctor D who is marked unavailable on Tuesdays:
    the wizard books Tuesday 2026-03-10 all the same. *)
Lemma availability_is_never_consulted_witness :
  forget_state CreateAppointmentDialog.initial = forget_state CreateAppointmentDialog.initial
  ∧ forget_world (world_0 quiet) = forget_world (world_busy quiet)
  ∧ requests (CreateAppointmentDialog.run (Some patient_1) scenario
                CreateAppointmentDialog.initial (world_0 quiet)).2
    = requests (CreateAppointmentDialog.run (Some patient_1) scenario
                  CreateAppointmentDialog.initial (world_busy quiet)).2
  ∧ appointments (CreateAppointmentDialog.run (Some patient_1) scenario
                    CreateAppointmentDialog.initial (world_0 quiet)).2
    = appointments (CreateAppointmentDialog.run (Some patient_1) scenario
                      CreateAppointmentDialog.initial (world_busy quiet)).2.
Proof.
  destruct availability_is_never_consulted as [_ H].
  specialize (H (Some patient_1) scenario CreateAppointmentDialog.initial
                CreateAppointmentDialog.initial (world_0 quiet) (world_busy quiet)
                0 0 eq_refl eq_refl).
  cbv zeta in H. destruct H as (_ & _ & _ & _ & Hr & Ha & _).
  split_and!; [reflexivity | reflexivity | exact Hr | exact Ha].
Defined.

(** * Further properties of the modelled code *)

(** ** Booking attempts with an incomplete selection *)

(** X1: [handleBooking] does nothing at all (same state, no request, no
    toast) when the user, the doctor, the date or the time is missing or the
    time is the empty text; and whenever it does send something, the first
    request is the insert of exactly the current user, doctor, day, time and
    notes. *)
Theorem booking_needs_complete_selection
    (auth : option User.t) (doctor : option Doctor.t) (w : World) :
  (∀ st : BookingDialog.State,
      (auth = None ∨ doctor = None ∨ BookingDialog.selectedDate st = None
       ∨ BookingDialog.selectedTime st = None
       ∨ BookingDialog.selectedTime st = Some "") →
      BookingDialog.handleBooking auth doctor st w = (st, w))
  ∧ (∀ st : CreateAppointmentDialog.State,
        (auth = None ∨ CreateAppointmentDialog.selectedDoctor st = None
         ∨ CreateAppointmentDialog.selectedDate st = None
         ∨ CreateAppointmentDialog.selectedTime st = None
         ∨ CreateAppointmentDialog.selectedTime st = Some "") →
        CreateAppointmentDialog.handleBooking auth st w = (st, w))
  ∧ (∀ st : BookingDialog.State,
        (BookingDialog.handleBooking auth doctor st w).2 ≠ w →
        ∃ u doc d t rest,
          auth = Some u ∧ doctor = Some doc
          ∧ BookingDialog.selectedDate st = Some d
          ∧ BookingDialog.selectedTime st = Some t ∧ t ≠ ""
          ∧ requests (BookingDialog.handleBooking auth doctor st w).2
            = requests w
                ++ InsertAppointment (booking_row u doc d t (BookingDialog.notes st))
                   :: rest)
  ∧ (∀ st : CreateAppointmentDialog.State,
        (CreateAppointmentDialog.handleBooking auth st w).2 ≠ w →
        ∃ u doc d t rest,
          auth = Some u ∧ CreateAppointmentDialog.selectedDoctor st = Some doc
          ∧ CreateAppointmentDialog.selectedDate st = Some d
          ∧ CreateAppointmentDialog.selectedTime st = Some t ∧ t ≠ ""
          ∧ requests (CreateAppointmentDialog.handleBooking auth st w).2
            = requests w
                ++ InsertAppointment
                     (booking_row u doc d t (CreateAppointmentDialog.notes st))
                   :: rest).
Proof.
  split_and!.
  - intros st H. unfold BookingDialog.handleBooking.
    destruct auth as [u|]; [|reflexivity].
    destruct doctor as [doc|]; [|reflexivity].
    destruct (BookingDialog.selectedDate st) as [d|]; [|reflexivity].
    destruct (BookingDialog.selectedTime st) as [t|]; [|reflexivity].
    destruct (decide (t = "")) as [|Hne]; [reflexivity|].
    exfalso. destruct H as [H|[H|[H|[H|H]]]]; try discriminate.
    injection H as ->. done.
  - intros st H. unfold CreateAppointmentDialog.handleBooking.
    destruct auth as [u|]; [|reflexivity].
    destruct (CreateAppointmentDialog.selectedDoctor st) as [doc|]; [|reflexivity].
    destruct (CreateAppointmentDialog.selectedDate st) as [d|]; [|reflexivity].
    destruct (CreateAppointmentDialog.selectedTime st) as [t|]; [|reflexivity].
    destruct (decide (t = "")) as [|Hne]; [reflexivity|].
    exfalso. destruct H as [H|[H|[H|[H|H]]]]; try discriminate.
    injection H as ->. done.
  - intros st Hch.
    destruct (BookingDialog.handleBooking auth doctor st w) as [st' w'] eqn:Hres.
    simpl in *. unfold BookingDialog.handleBooking in Hres.
    destruct auth as [u|]; [|injection Hres as _ <-; done].
    destruct doctor as [doc|]; [|injection Hres as _ <-; done].
    destruct (BookingDialog.selectedDate st) as [d|]; [|injection Hres as _ <-; done].
    destruct (BookingDialog.selectedTime st) as [t|]; [|injection Hres as _ <-; done].
    destruct (decide (t = "")) as [|Hne]; [injection Hres as _ <-; done|].
    exists u, doc, d, t.
    unfold Supabase.insert_appointment, Ledger.insert, Supabase.select_booked_times in Hres.
    run_world.
    destruct (fault (oracle w (tick w))) as [e|]; simpl in Hres.
    + destruct (decide (code e = "23505")); simpl in Hres.
      * unfold Supabase.select_booked_times in Hres. run_world.
        destruct (fault (oracle w (S (tick w)))); injection Hres as _ <-;
          eexists; split_and!; try done; simpl; rewrite <- (assoc_L (++)); reflexivity.
      * injection Hres as _ <-. exists []. split_and!; done.
    + destruct (decide (Ledger.taken _ _)); simpl in Hres.
      * unfold Supabase.select_booked_times in Hres. run_world.
        destruct (fault (oracle w (S (tick w)))); injection Hres as _ <-;
          eexists; split_and!; try done; simpl; rewrite <- (assoc_L (++)); reflexivity.
      * injection Hres as _ <-. exists []. split_and!; done.
  - intros st Hch.
    destruct (CreateAppointmentDialog.handleBooking auth st w) as [st' w'] eqn:Hres.
    simpl in *. unfold CreateAppointmentDialog.handleBooking in Hres.
    destruct auth as [u|]; [|injection Hres as _ <-; done].
    destruct (CreateAppointmentDialog.selectedDoctor st) as [doc|] eqn:Hdoc;
      [|injection Hres as _ <-; done].
    destruct (CreateAppointmentDialog.selectedDate st) as [d|];
      [|injection Hres as _ <-; done].
    destruct (CreateAppointmentDialog.selectedTime st) as [t|];
      [|injection Hres as _ <-; done].
    destruct (decide (t = "")) as [|Hne]; [injection Hres as _ <-; done|].
    exists u, doc, d, t.
    unfold Supabase.insert_appointment, Ledger.insert,
      CreateAppointmentDialog.fetchBookedSlots, Supabase.select_booked_times in Hres.
    run_world. rewrite ?Hdoc in Hres.
    destruct (fault (oracle w (tick w))) as [e|]; simpl in Hres.
    + destruct (decide (code e = "23505")); simpl in Hres.
      * unfold CreateAppointmentDialog.fetchBookedSlots in Hres. simpl in Hres.
        rewrite ?Hdoc in Hres. unfold Supabase.select_booked_times in Hres. run_world.
        destruct (fault (oracle w (S (tick w)))); injection Hres as _ <-;
          eexists; split_and!; try done; simpl; rewrite <- (assoc_L (++)); reflexivity.
      * injection Hres as _ <-. exists []. split_and!; done.
    + destruct (decide (Ledger.taken _ _)); simpl in Hres.
      * unfold CreateAppointmentDialog.fetchBookedSlots in Hres. simpl in Hres.
        rewrite ?Hdoc in Hres. unfold Supabase.select_booked_times in Hres. run_world.
        destruct (fault (oracle w (S (tick w)))); injection Hres as _ <-;
          eexists; split_and!; try done; simpl; rewrite <- (assoc_L (++)); reflexivity.
      * injection Hres as _ <-. exists []. split_and!; done.
Qed.

(** ** Choosing a date *)

Lemma elem_of_occupied (doc : Doctor.t) (d : DateFns.Date) (rows : list Appointment.t)
    (t : string) :
  t ∈ occupied doc d rows
  ↔ ∃ a, a ∈ rows
         ∧ Appointment.doctor_id a = Doctor.id doc
         ∧ Appointment.appointment_date a = DateFns.format_yyyy_MM_dd d
         ∧ Appointment.status a ≠ cancelled
         ∧ slice (Appointment.appointment_time a) 0 5 = t.
Proof.
  unfold occupied. rewrite list_elem_of_fmap. split.
  - intros (x & -> & Hx). apply list_elem_of_fmap in Hx as (a & -> & Ha).
    apply list_elem_of_filter in Ha as [(H1 & H2 & H3) Ha]. exists a. done.
  - intros (a & Ha & H1 & H2 & H3 & <-).
    exists (Appointment.appointment_time a). split; [reflexivity|].
    apply list_elem_of_fmap. exists a. split; [reflexivity|].
    apply list_elem_of_filter. split; [|exact Ha]. split_and!; assumption.
Qed.

Lemma slot_button_flag (booked : list string) (t : string) (b : bool) :
  (t, b) ∈ (λ t, (t, bool_decide (t ∈ booked))) <$> timeSlots
  ↔ t ∈ timeSlots ∧ (b = true ↔ t ∈ booked).
Proof.
  rewrite list_elem_of_fmap. split.
  - intros (x & [= -> ->] & Hx). split; [exact Hx|].
    rewrite bool_decide_eq_true. reflexivity.
  - intros [Ht Hb]. exists t. split; [|exact Ht]. f_equal.
    destruct b.
    + symmetry. apply bool_decide_eq_true. apply Hb. reflexivity.
    + symmetry. apply bool_decide_eq_false. intros Hin. apply Hb in Hin. discriminate.
Qed.

(** X2: once a date is chosen and the ledger answers, the flow is in the
    time step and shows one button per slot of [timeSlots], in that order; a
    button is disabled exactly when the appointments table holds a row of the
    same doctor and day that is not cancelled and whose time starts with the
    slot's five characters.  Cancelled rows disable nothing. *)
Theorem date_selection_disables_booked_slots
    (doc : Doctor.t) (d : DateFns.Date) (w : World) :
  fault (oracle w (tick w)) = None →
  (∀ st : BookingDialog.State,
      let '(st', w') := BookingDialog.handleDateSelect (Some doc) (Some d) st w in
      BookingDialog.step st' = BookingDialog.time
      ∧ BookingDialog.selectedDate st' = Some d
      ∧ requests w' = requests w
          ++ [SelectBookedTimes (Doctor.id doc) (DateFns.format_yyyy_MM_dd d)]
      ∧ appointments w' = appointments w
      ∧ ∃ buttons,
          BookingDialog.slotButtons (Some doc) st' = Some buttons
          ∧ buttons.*1 = timeSlots
          ∧ ∀ t b, (t, b) ∈ buttons →
              (b = true
               ↔ ∃ a, a ∈ appointments w
                      ∧ Appointment.doctor_id a = Doctor.id doc
                      ∧ Appointment.appointment_date a = DateFns.format_yyyy_MM_dd d
                      ∧ Appointment.status a ≠ cancelled
                      ∧ slice (Appointment.appointment_time a) 0 5 = t))
  ∧ (∀ st : CreateAppointmentDialog.State,
        CreateAppointmentDialog.selectedDoctor st = Some doc →
        let '(st', w') := CreateAppointmentDialog.handleDateSelect (Some d) st w in
        CreateAppointmentDialog.step st' = CreateAppointmentDialog.time
        ∧ CreateAppointmentDialog.selectedDate st' = Some d
        ∧ requests w' = requests w
            ++ [SelectBookedTimes (Doctor.id doc) (DateFns.format_yyyy_MM_dd d)]
        ∧ appointments w' = appointments w
        ∧ ∃ buttons,
            CreateAppointmentDialog.slotButtons st' = Some buttons
            ∧ buttons.*1 = timeSlots
            ∧ ∀ t b, (t, b) ∈ buttons →
                (b = true
                 ↔ ∃ a, a ∈ appointments w
                        ∧ Appointment.doctor_id a = Doctor.id doc
                        ∧ Appointment.appointment_date a = DateFns.format_yyyy_MM_dd d
                        ∧ Appointment.status a ≠ cancelled
                        ∧ slice (Appointment.appointment_time a) 0 5 = t)).
Proof.
  intros Hok. split.
  - intros st.
    unfold BookingDialog.handleDateSelect, BookingDialog.fetchBookedSlots,
      Supabase.select_booked_times.
    run_world. rewrite Hok. simpl. split_and!; try reflexivity.
    eexists. split; [reflexivity|]. split; [reflexivity|].
    intros t b Hb. apply slot_button_flag in Hb as [_ ->].
    apply (elem_of_occupied doc d (appointments w) t).
  - intros st Hdoc.
    unfold CreateAppointmentDialog.handleDateSelect,
      CreateAppointmentDialog.fetchBookedSlots, Supabase.select_booked_times.
    simpl. rewrite Hdoc. run_world. rewrite Hok. simpl. split_and!; try reflexivity.
    eexists. split; [reflexivity|]. split; [reflexivity|].
    intros t b Hb. apply slot_button_flag in Hb as [_ ->].
    apply (elem_of_occupied doc d (appointments w) t).
Qed.

(** X3: the edge cases of choosing a date.  Clearing the date ([undefined])
    only forgets the date: nothing is sent and the step stays.  Without a
    doctor nothing is sent either, yet the flow moves to the time step.  And
    when the query for the booked times fails, the flow moves to the time
    step all the same, with the slot list it had before and without any
    toast. *)
Theorem date_selection_edge_cases (d : DateFns.Date) (w : World) :
  (∀ doctor st,
      BookingDialog.handleDateSelect doctor None st w
      = (BookingDialog.setSelectedDate None st, w))
  ∧ (∀ st,
        CreateAppointmentDialog.handleDateSelect None st w
        = (CreateAppointmentDialog.setSelectedDate None st, w))
  ∧ (∀ st,
        BookingDialog.handleDateSelect None (Some d) st w
        = (BookingDialog.setStep BookingDialog.time
             (BookingDialog.setSelectedDate (Some d) st), w))
  ∧ (∀ st,
        CreateAppointmentDialog.selectedDoctor st = None →
        CreateAppointmentDialog.handleDateSelect (Some d) st w
        = (CreateAppointmentDialog.setStep CreateAppointmentDialog.time
             (CreateAppointmentDialog.setSelectedDate (Some d) st), w))
  ∧ (∀ e doc st,
        fault (oracle w (tick w)) = Some e →
        let '(st', w') := BookingDialog.handleDateSelect (Some doc) (Some d) st w in
        st' = BookingDialog.setStep BookingDialog.time
                (BookingDialog.setSelectedDate (Some d) st)
        ∧ BookingDialog.bookedSlots st' = BookingDialog.bookedSlots st
        ∧ toasts w' = toasts w
        ∧ appointments w' = appointments w)
  ∧ (∀ e doc st,
        fault (oracle w (tick w)) = Some e →
        CreateAppointmentDialog.selectedDoctor st = Some doc →
        let '(st', w') := CreateAppointmentDialog.handleDateSelect (Some d) st w in
        st' = CreateAppointmentDialog.setStep CreateAppointmentDialog.time
                (CreateAppointmentDialog.setSelectedDate (Some d) st)
        ∧ CreateAppointmentDialog.bookedSlots st' = CreateAppointmentDialog.bookedSlots st
        ∧ toasts w' = toasts w
        ∧ appointments w' = appointments w).
Proof.
  split_and!.
  - reflexivity.
  - reflexivity.
  - reflexivity.
  - intros st Hdoc.
    unfold CreateAppointmentDialog.handleDateSelect,
      CreateAppointmentDialog.fetchBookedSlots. simpl. rewrite Hdoc. reflexivity.
  - intros e doc st He.
    unfold BookingDialog.handleDateSelect, BookingDialog.fetchBookedSlots,
      Supabase.select_booked_times.
    run_world. rewrite He. simpl. split_and!; reflexivity.
  - intros e doc st He Hdoc.
    unfold CreateAppointmentDialog.handleDateSelect,
      CreateAppointmentDialog.fetchBookedSlots, Supabase.select_booked_times.
    simpl. rewrite Hdoc. run_world. rewrite He. simpl. split_and!; reflexivity.
Qed.

(** With the network down the wizard of the scenario still reaches the time
    step, offering every slot. *)
Lemma date_selection_edge_cases_witness :
  let '(st', w') :=
    CreateAppointmentDialog.handleDateSelect (Some march_10) wizard_confirm
      (world_1 offline) in
  CreateAppointmentDialog.step st' = CreateAppointmentDialog.time
  ∧ CreateAppointmentDialog.bookedSlots st' = []
  ∧ toasts w' = [].
Proof.
  destruct (date_selection_edge_cases march_10 (world_1 offline))
    as (_ & _ & _ & _ & _ & H).
  specialize (H _ (doctor_D ∅) wizard_confirm eq_refl eq_refl).
  destruct (CreateAppointmentDialog.handleDateSelect _ _ _) as [st' w'].
  destruct H as (-> & Hb & Ht & _). split_and!; [reflexivity | reflexivity | exact Ht].
Defined.

(** ** A failed search for doctors *)

(** X4: when the directory query fails, [handleApplyCriteria] still moves
    the wizard to the doctor step; the list of doctors is the one found by
    the previous search (empty at first), the criteria are kept, and no
    toast tells the user. *)
Theorem failed_search_keeps_old_results
    (st : CreateAppointmentDialog.State) (w : World) (e : PostgrestError) :
  fault (oracle w (tick w)) = Some e →
  let '(st', w') := CreateAppointmentDialog.handleApplyCriteria st w in
  st' = CreateAppointmentDialog.setStep CreateAppointmentDialog.doctor
          (CreateAppointmentDialog.setLoadingDoctors false st)
  ∧ CreateAppointmentDialog.doctors st' = CreateAppointmentDialog.doctors st
  ∧ CreateAppointmentDialog.step st' = CreateAppointmentDialog.doctor
  ∧ toasts w' = toasts w
  ∧ requests w' = requests w ++ [SelectDoctors (CreateAppointmentDialog.query st)].
Proof.
  intros He.
  unfold CreateAppointmentDialog.handleApplyCriteria,
    CreateAppointmentDialog.fetchFilteredDoctors, Supabase.select_doctors.
  run_world. rewrite He. simpl. split_and!; reflexivity.
Qed.

(** The wizard that already lists doctor D searches again while the network
    is down: D is still listed. *)
Lemma failed_search_keeps_old_results_witness :
  let '(st', w') :=
    CreateAppointmentDialog.handleApplyCriteria
      (CreateAppointmentDialog.setCriteria "Neurologist" (Qc_of_Z 10) (Qc_of_Z 5) 30
         wizard_confirm)
      (world_0 offline) in
  CreateAppointmentDialog.doctors st' = [doctor_D ∅]
  ∧ CreateAppointmentDialog.step st' = CreateAppointmentDialog.doctor
  ∧ toasts w' = [].
Proof.
  pose proof (failed_search_keeps_old_results
                (CreateAppointmentDialog.setCriteria "Neurologist" (Qc_of_Z 10) (Qc_of_Z 5) 30
                   wizard_confirm)
                (world_0 offline) _ eq_refl) as H.
  destruct (CreateAppointmentDialog.handleApplyCriteria _ _) as [st' w'].
  destruct H as (_ & Hd & Hs & Ht & _). split_and!; [exact Hd | exact Hs | exact Ht].
Defined.

(** ** Cancelling, continued *)

(** X5: when the update fails, [cancelAppointment] shows the fixed text
    "Failed to cancel appointment" (never the error's own message) and
    leaves the page's list and the appointments table as they were. *)
Theorem failed_cancel_changes_nothing
    (appointmentId : string) (st : Appointments.State) (w : World) (e : PostgrestError) :
  fault (oracle w (tick w)) = Some e →
  let '(st', w') := Appointments.cancelAppointment appointmentId st w in
  st' = st
  ∧ appointments w' = appointments w
  ∧ toasts w' = toasts w ++ [ {| title := "Error";
                                 description := "Failed to cancel appointment";
                                 destructive := true |} ].
Proof.
  intros He.
  unfold Appointments.cancelAppointment, Supabase.update_appointment_status.
  run_world. rewrite He. simpl. split_and!; reflexivity.
Qed.

Lemma failed_cancel_changes_nothing_witness :
  let '(st', w') := Appointments.cancelAppointment "apt-0" page_1 (world_1 offline) in
  st' = page_1 ∧ appointments w' = appointments (world_1 offline).
Proof.
  pose proof (failed_cancel_changes_nothing "apt-0" page_1 (world_1 offline) _ eq_refl) as H.
  destruct (Appointments.cancelAppointment _ _ _) as [st' w'].
  destruct H as (H1 & H2 & _). split; [exact H1 | exact H2].
Defined.

Lemma booked_updated (id doc_id : string) (day : Day) (rows : list Appointment.t) :
  filter (Supabase.booked doc_id day) (Supabase.updated id cancelled rows)
  = filter (Supabase.booked doc_id day) (filter (λ a, Appointment.id a ≠ id) rows).
Proof.
  unfold Supabase.updated. induction rows as [|a rows IH]; [reflexivity|].
  rewrite fmap_cons, !filter_cons.
  destruct (decide (Appointment.id a = id)) as [Hid|Hid].
  - rewrite decide_False by (unfold Supabase.booked; simpl; tauto).
    rewrite decide_False by tauto. exact IH.
  - rewrite (decide_True (P := Appointment.id a ≠ id)) by exact Hid.
    rewrite filter_cons.
    destruct (decide (Supabase.booked doc_id day a)); rewrite IH; reflexivity.
Qed.

(** X6: a cancellation frees the slot in the slot picker.  After
    [cancelAppointment] went through, choosing the day in either dialog
    yields the slot list computed from the table without the rows of the
    cancelled id. *)
Theorem cancel_frees_the_slot
    (appointmentId : string) (page : Appointments.State) (doc : Doctor.t)
    (d : DateFns.Date) (w : World) :
  fault (oracle w (tick w)) = None →
  fault (oracle w (S (tick w))) = None →
  let '(_, w1) := Appointments.cancelAppointment appointmentId page w in
  (∀ st : BookingDialog.State,
      BookingDialog.bookedSlots
        (BookingDialog.handleDateSelect (Some doc) (Some d) st w1).1
      = occupied doc d (filter (λ a, Appointment.id a ≠ appointmentId) (appointments w)))
  ∧ (∀ st : CreateAppointmentDialog.State,
        CreateAppointmentDialog.selectedDoctor st = Some doc →
        CreateAppointmentDialog.bookedSlots
          (CreateAppointmentDialog.handleDateSelect (Some d) st w1).1
        = occupied doc d (filter (λ a, Appointment.id a ≠ appointmentId) (appointments w))).
Proof.
  intros H0 H1.
  unfold Appointments.cancelAppointment, Supabase.update_appointment_status.
  run_world. rewrite H0. simpl. split.
  - intros st.
    unfold BookingDialog.handleDateSelect, BookingDialog.fetchBookedSlots,
      Supabase.select_booked_times.
    run_world. rewrite H1. simpl. unfold occupied. rewrite booked_updated. reflexivity.
  - intros st Hdoc.
    unfold CreateAppointmentDialog.handleDateSelect,
      CreateAppointmentDialog.fetchBookedSlots, Supabase.select_booked_times.
    simpl. rewrite Hdoc. run_world. rewrite H1. simpl.
    unfold occupied. rewrite booked_updated. reflexivity.
Qed.

(** Patient 1 cancels the scenario's appointment; 09:00 is offered again. *)
Lemma cancel_frees_the_slot_witness :
  let '(_, w1) := Appointments.cancelAppointment "apt-0" page_1 (world_1 quiet) in
  BookingDialog.bookedSlots
    (BookingDialog.handleDateSelect (Some (doctor_D ∅)) (Some march_10)
       BookingDialog.initial w1).1 = [].
Proof.
  pose proof (cancel_frees_the_slot "apt-0" page_1 (doctor_D ∅) march_10 (world_1 quiet)
                eq_refl eq_refl) as H.
  destruct (Appointments.cancelAppointment _ _ _) as [st' w1].
  destruct H as [H _]. rewrite H. reflexivity.
Defined.

(** Nobody is signed in: nothing happens.  Patient 1 is signed in: the
    scenario's row is what is sent. *)
Lemma booking_needs_complete_selection_witness :
  BookingDialog.handleBooking None (Some (doctor_D ∅)) dialog_confirm (world_0 quiet)
  = (dialog_confirm, world_0 quiet)
  ∧ ∃ rest,
      requests (BookingDialog.handleBooking (Some patient_1) (Some (doctor_D ∅))
                  dialog_confirm (world_0 quiet)).2
      = InsertAppointment (booking_row patient_1 (doctor_D ∅) march_10 "09:00" "checkup")
        :: rest.
Proof.
  split.
  - destruct (booking_needs_complete_selection None (Some (doctor_D ∅)) (world_0 quiet))
      as (H & _).
    apply H. left. reflexivity.
  - destruct (booking_needs_complete_selection (Some patient_1) (Some (doctor_D ∅))
                (world_0 quiet)) as (_ & _ & H & _).
    destruct (H dialog_confirm) as (u & doc & d & t & rest & Hu & Hdoc & Hd & Ht & _ & Hr).
    + intros Heq. apply (f_equal tick) in Heq. vm_compute in Heq. discriminate Heq.
    + injection Hu as <-. injection Hdoc as <-. injection Hd as <-. injection Ht as <-.
      exists rest. exact Hr.
Defined.

(** The second patient of the scenario opens 2026-03-10 for doctor D. *)
Lemma date_selection_disables_booked_slots_witness :
  let '(st', w') :=
    BookingDialog.handleDateSelect (Some (doctor_D ∅)) (Some march_10)
      BookingDialog.initial (world_1 quiet) in
  BookingDialog.step st' = BookingDialog.time
  ∧ ∃ buttons,
      BookingDialog.slotButtons (Some (doctor_D ∅)) st' = Some buttons
      ∧ buttons.*1 = timeSlots.
Proof.
  destruct (date_selection_disables_booked_slots (doctor_D ∅) march_10 (world_1 quiet)
              eq_refl) as [H _].
  specialize (H BookingDialog.initial).
  destruct (BookingDialog.handleDateSelect _ _ _ _) as [st' w'].
  destruct H as (Hs & _ & _ & _ & buttons & Hb & Hf & _).
  split; [exact Hs|]. exists buttons. split; [exact Hb | exact Hf].
Defined.

(** ** The upcoming and past tabs *)

Section filterReading.
Context (callback : Z → Appointment.t * option Doctor.t → Prop)
        `{!∀ now apt, Decision (callback now apt)} (clock : nat → Z).

Lemma filterReading_next (l : list (Appointment.t * option Doctor.t)) :
  ∀ k, (k ≤ (AppointmentTabs.filterReading callback clock k l).2)%nat.
Proof.
  induction l as [|apt l IH]; intros k; simpl; [lia|].
  destruct (AppointmentTabs.readsClock apt); [specialize (IH (S k)); lia | apply IH].
Qed.

(** What is kept was in the list and passed the callback at some reading. *)
Lemma filterReading_kept (l : list (Appointment.t * option Doctor.t)) :
  ∀ k x, x ∈ (AppointmentTabs.filterReading callback clock k l).1 →
         x ∈ l ∧ ∃ j, (k ≤ j)%nat ∧ callback (clock j) x.
Proof.
  induction l as [|apt l IH]; intros k x Hx; simpl in Hx; [by apply elem_of_nil in Hx|].
  assert (Hrest : x ∈ (AppointmentTabs.filterReading callback clock
                         (if AppointmentTabs.readsClock apt then S k else k) l).1 →
                  x ∈ apt :: l ∧ ∃ j, (k ≤ j)%nat ∧ callback (clock j) x).
  { intros Hr. apply IH in Hr as (Hin & j & Hj & Hc).
    split; [by apply list_elem_of_further|]. exists j. split; [|done].
    destruct (AppointmentTabs.readsClock apt); lia. }
  destruct (decide (callback (clock k) apt)) as [Hc|Hc]; [|by apply Hrest].
  apply elem_of_cons in Hx as [->|Hx]; [|by apply Hrest].
  split; [apply list_elem_of_here|]. exists k. split; [lia|done].
Qed.

(** What is dropped failed the callback at a reading of this pass. *)
Lemma filterReading_dropped (l : list (Appointment.t * option Doctor.t)) :
  ∀ k x, x ∈ l →
         x ∈ (AppointmentTabs.filterReading callback clock k l).1
         ∨ ∃ j, (k ≤ j ≤ (AppointmentTabs.filterReading callback clock k l).2)%nat
                ∧ ¬ callback (clock j) x.
Proof.
  induction l as [|apt l IH]; intros k x Hx; [by apply elem_of_nil in Hx|].
  simpl.
  pose proof (filterReading_next l (if AppointmentTabs.readsClock apt then S k else k))
    as Hnext.
  apply elem_of_cons in Hx as [->|Hx].
  - destruct (decide (callback (clock k) apt)) as [Hc|Hc]; [left; apply list_elem_of_here|].
    right. exists k. split; [|done].
    destruct (AppointmentTabs.readsClock apt); lia.
  - destruct (IH (if AppointmentTabs.readsClock apt then S k else k) x Hx)
      as [Hin|(j & Hj & Hc)].
    + left. destruct (decide (callback (clock k) apt)); [by apply list_elem_of_further|done].
    + right. exists j. split; [|done].
      destruct (AppointmentTabs.readsClock apt); lia.
Qed.

(** What passes the callback at every reading from [k] on is kept. *)
Lemma filterReading_keeps (l : list (Appointment.t * option Doctor.t)) :
  ∀ k x, x ∈ l → (∀ j, (k ≤ j)%nat → callback (clock j) x) →
         x ∈ (AppointmentTabs.filterReading callback clock k l).1.
Proof.
  induction l as [|apt l IH]; intros k x Hx Hall; [by apply elem_of_nil in Hx|].
  simpl.
  assert (Hrest : x ∈ l →
                  x ∈ (AppointmentTabs.filterReading callback clock
                         (if AppointmentTabs.readsClock apt then S k else k) l).1).
  { intros Hr. apply IH; [done|]. intros j Hj. apply Hall.
    destruct (AppointmentTabs.readsClock apt); lia. }
  apply elem_of_cons in Hx as [->|Hx].
  - destruct (decide (callback (clock k) apt)) as [Hc|Hc]; [apply list_elem_of_here|].
    destruct Hc. apply Hall. lia.
  - destruct (decide (callback (clock k) apt)); [apply list_elem_of_further|]; by apply Hrest.
Qed.

(** With a clock that stands still the pass is an ordinary filter. *)
Lemma filterReading_still (now : Z) (l : list (Appointment.t * option Doctor.t)) :
  (∀ k, clock k = now) →
  ∀ k, (AppointmentTabs.filterReading callback clock k l).1 = filter (callback now) l.
Proof.
  intros Hstill. induction l as [|apt l IH]; intros k; [reflexivity|].
  simpl. rewrite filter_cons, IH, Hstill.
  destruct (decide (callback now apt)); reflexivity.
Qed.
End filterReading.

Lemma past_iff_not_upcoming (instant : Day → string → option Z) (now : Z)
    (apt : Appointment.t * option Doctor.t) :
  is_Some (instant (Appointment.appointment_date apt.1)
                   (Appointment.appointment_time apt.1)) →
  AppointmentTabs.past instant now apt ↔ ¬ AppointmentTabs.upcoming instant now apt.
Proof.
  intros [x Hx]. unfold AppointmentTabs.past, AppointmentTabs.upcoming. rewrite Hx. simpl.
  destruct (Appointment.status apt.1); split; intros H;
    try (intros (H1 & H2 & H3); destruct H as [H|[H|H]]; (discriminate || done || lia));
    try (right; right; apply Z.lt_nge; intros Hle; apply H; split_and!; done);
    auto.
Qed.

Lemma upcoming_not_past (instant : Day → string → option Z) (now : Z)
    (apt : Appointment.t * option Doctor.t) :
  ¬ (AppointmentTabs.upcoming instant now apt ∧ AppointmentTabs.past instant now apt).
Proof.
  intros [(H1 & H2 & H3) [H|[H|H]]]; try done.
  unfold AppointmentTabs.notBefore, AppointmentTabs.before in *.
  destruct (instant _ _); [lia|done].
Qed.

(** X7: the two tabs of one render, each evaluation of [new Date()] being a
    reading of its own.  If the clock never runs backwards, every appointment
    whose date and time can be read is listed in at least one tab.  A
    cancelled or completed appointment is in the past tab and not in the
    upcoming one, whatever the clock does; one whose date and time give an
    Invalid Date and which is neither cancelled nor completed is in neither.
    If all readings of the render are equal no appointment is in both tabs,
    and the two tabs together hold the page's list when every date can be
    read.  But an appointment whose instant lies between the reading of the
    first pass and that of the second is listed in both.  After a
    cancellation that went through, every appointment of that id is in the
    past tab and not in the upcoming one. *)
Theorem tabs_cover_the_list
    (instant : Day → string → option Z) (clock : nat → Z) (st : Appointments.State) :
  ((∀ i j, (i ≤ j)%nat → clock i ≤ clock j) →
   ∀ apt, apt ∈ Appointments.appointments st →
     is_Some (instant (Appointment.appointment_date apt.1)
                      (Appointment.appointment_time apt.1)) →
     apt ∈ (AppointmentTabs.tabs instant clock st).1
     ∨ apt ∈ (AppointmentTabs.tabs instant clock st).2)
  ∧ (∀ apt, apt ∈ Appointments.appointments st →
       Appointment.status apt.1 = cancelled ∨ Appointment.status apt.1 = completed →
       apt ∈ (AppointmentTabs.tabs instant clock st).2
       ∧ apt ∉ (AppointmentTabs.tabs instant clock st).1)
  ∧ (∀ apt,
       instant (Appointment.appointment_date apt.1) (Appointment.appointment_time apt.1)
         = None →
       Appointment.status apt.1 = scheduled ∨ Appointment.status apt.1 = confirmed →
       (apt ∉ (AppointmentTabs.tabs instant clock st).1)
       ∧ (apt ∉ (AppointmentTabs.tabs instant clock st).2))
  ∧ (∀ now, (∀ k, clock k = now) →
       (∀ apt, ¬ (apt ∈ (AppointmentTabs.tabs instant clock st).1
                  ∧ apt ∈ (AppointmentTabs.tabs instant clock st).2))
       ∧ ((∀ apt, apt ∈ Appointments.appointments st →
             is_Some (instant (Appointment.appointment_date apt.1)
                              (Appointment.appointment_time apt.1))) →
          (AppointmentTabs.tabs instant clock st).1
            ++ (AppointmentTabs.tabs instant clock st).2
          ≡ₚ Appointments.appointments st))
  ∧ (∀ apt t,
       Appointments.appointments st = [apt] →
       Appointment.status apt.1 = scheduled ∨ Appointment.status apt.1 = confirmed →
       instant (Appointment.appointment_date apt.1) (Appointment.appointment_time apt.1)
         = Some t →
       clock 0%nat ≤ t < clock 1%nat →
       AppointmentTabs.tabs instant clock st = ([apt], [apt]))
  ∧ (∀ appointmentId w,
       fault (oracle w (tick w)) = None →
       let '(st', _) := Appointments.cancelAppointment appointmentId st w in
       ∀ apt, apt ∈ Appointments.appointments st' →
              Appointment.id apt.1 = appointmentId →
              apt ∈ (AppointmentTabs.tabs instant clock st').2
              ∧ apt ∉ (AppointmentTabs.tabs instant clock st').1).
Proof.
  assert (Hdone : ∀ st0 apt, apt ∈ Appointments.appointments st0 →
            Appointment.status apt.1 = cancelled ∨ Appointment.status apt.1 = completed →
            apt ∈ (AppointmentTabs.tabs instant clock st0).2
            ∧ apt ∉ (AppointmentTabs.tabs instant clock st0).1).
  { intros st0 apt Hin Hst. unfold AppointmentTabs.tabs. simpl. split.
    - apply filterReading_keeps; [done|]. intros j _.
      unfold AppointmentTabs.past. tauto.
    - intros Hup. apply filterReading_kept in Hup as (_ & j & _ & (H1 & H2 & _)).
      destruct Hst; contradiction. }
  split_and!.
  - intros Hmono apt Hin [t Ht].
    destruct (decide (Appointment.status apt.1 = cancelled
                      ∨ Appointment.status apt.1 = completed)) as [Hst|Hst].
    { right. by apply Hdone. }
    unfold AppointmentTabs.tabs. simpl.
    destruct (filterReading_dropped (AppointmentTabs.upcoming instant) clock
                (Appointments.appointments st) 0%nat apt Hin) as [Hup|(j & Hj & Hno)];
      [by left|].
    right. apply filterReading_keeps; [done|]. intros j' Hj'.
    unfold AppointmentTabs.past. right. right. rewrite Ht. simpl.
    assert (Hlt : t < clock j).
    { apply Z.lt_nge. intros Hle. apply Hno. unfold AppointmentTabs.upcoming.
      rewrite Ht. simpl. split_and!; [tauto | tauto | done]. }
    pose proof (Hmono j j' ltac:(unfold AppointmentTabs.upcomingAppointments in Hj'; lia)).
    lia.
  - intros apt Hin Hst. by apply Hdone.
  - intros apt Hnone Hst. unfold AppointmentTabs.tabs. simpl. split.
    + intros Hup. apply filterReading_kept in Hup as (_ & j & _ & (_ & _ & H3)).
      rewrite Hnone in H3. exact H3.
    + intros Hp. apply filterReading_kept in Hp as (_ & j & _ & Hp).
      unfold AppointmentTabs.past in Hp. rewrite Hnone in Hp. simpl in Hp.
      destruct Hst as [Hs|Hs]; rewrite Hs in Hp; destruct Hp as [Hp|[Hp|Hp]]; done.
  - intros now Hstill. unfold AppointmentTabs.tabs,
      AppointmentTabs.upcomingAppointments, AppointmentTabs.pastAppointments. simpl.
    rewrite !(filterReading_still _ clock now _ Hstill). split.
    + intros apt. rewrite !list_elem_of_filter. intros [[Hu _] [Hp _]].
      by apply (upcoming_not_past instant now apt).
    + intros Hall.
      assert (Heq : filter (AppointmentTabs.past instant now) (Appointments.appointments st)
                    = filter (λ x, ¬ AppointmentTabs.upcoming instant now x)
                        (Appointments.appointments st)).
      { induction (Appointments.appointments st) as [|apt l IH]; [reflexivity|].
        rewrite !filter_cons.
        assert (Hiff := past_iff_not_upcoming instant now apt
                          (Hall apt (list_elem_of_here _ _))).
        assert (IH' : filter (AppointmentTabs.past instant now) l
                      = filter (λ x, ¬ AppointmentTabs.upcoming instant now x) l).
        { apply IH. intros x Hx. apply Hall. apply list_elem_of_further. exact Hx. }
        destruct (decide (AppointmentTabs.past instant now apt)),
                 (decide (¬ AppointmentTabs.upcoming instant now apt)); try tauto;
          rewrite IH'; reflexivity. }
      rewrite Heq. apply filter_app_complement.
  - intros apt t Hl Hst Ht [H0 H1].
    assert (Hr : AppointmentTabs.readsClock apt = true).
    { apply bool_decide_eq_true. destruct Hst as [Hs|Hs]; rewrite Hs; done. }
    unfold AppointmentTabs.tabs, AppointmentTabs.upcomingAppointments,
      AppointmentTabs.pastAppointments. rewrite Hl. simpl. rewrite Hr.
    assert (Hu : AppointmentTabs.upcoming instant (clock 0%nat) apt).
    { unfold AppointmentTabs.upcoming. rewrite Ht. simpl.
      destruct Hst as [Hs|Hs]; rewrite Hs; done. }
    assert (Hp : AppointmentTabs.past instant (clock 1%nat) apt).
    { unfold AppointmentTabs.past. rewrite Ht. simpl. tauto. }
    destruct (decide (AppointmentTabs.upcoming instant (clock 0%nat) apt)); [|done].
    simpl.
    destruct (decide (AppointmentTabs.past instant (clock 1%nat) apt)); [|done].
    reflexivity.
  - intros appointmentId w Hok.
    unfold Appointments.cancelAppointment, Supabase.update_appointment_status.
    run_world. rewrite Hok. simpl.
    intros apt Hin Hid.
    assert (Hc : Appointment.status apt.1 = cancelled).
    { unfold Appointments.markCancelled in Hin.
      apply list_elem_of_fmap in Hin as (x & -> & _).
      destruct (decide (Appointment.id x.1 = appointmentId)) as [|Hne]; [reflexivity|].
      contradiction. }
    apply Hdone; [exact Hin | by left].
Qed.

(** The page of the scenario.  On 2026-03-01, with a clock that stands
    still, the appointment is in the upcoming tab only, and in the past tab
    only once it is cancelled.  Rendered while the clock passes 09:00 of
    2026-03-10, it is in both tabs. *)
Lemma tabs_cover_the_list_witness :
  AppointmentTabs.tabs sample_instant still_clock page_1
    = (Appointments.appointments page_1, [])
  ∧ AppointmentTabs.tabs sample_instant passing_clock page_1
    = (Appointments.appointments page_1, Appointments.appointments page_1)
  ∧ let '(st', _) := Appointments.cancelAppointment "apt-0" page_1 (world_1 quiet) in
    ∀ apt, apt ∈ Appointments.appointments st' → Appointment.id apt.1 = "apt-0" →
           apt ∈ (AppointmentTabs.tabs sample_instant still_clock st').2.
Proof.
  split_and!.
  - reflexivity.
  - destruct (tabs_cover_the_list sample_instant passing_clock page_1)
      as (_ & _ & _ & _ & Hboth & _).
    apply (Hboth _ (20522 * 86400000 + 32400000)); [reflexivity | by left | reflexivity |].
    split; vm_compute; [discriminate | reflexivity].
  - destruct (tabs_cover_the_list sample_instant still_clock page_1)
      as (_ & _ & _ & _ & _ & Hcancel).
    specialize (Hcancel "apt-0" (world_1 quiet) eq_refl).
    destruct (Appointments.cancelAppointment _ _ _) as [st' w'].
    intros apt Hin Hid. destruct (Hcancel apt Hin Hid) as [H _]. exact H.
Defined.

(** ** The list of the appointments page *)

(** X8: [fetchAppointments] does nothing without a signed-in user.  When
    the query is answered, the page's list holds exactly the rows of the
    table whose patient is the user, each once per row and paired with the
    first doctor of the doctors table that has the row's doctor id (or with
    none), in the order of non-decreasing date; no row of another patient is
    listed.  When the query fails the list stays as it was.  In both cases
    the loading flag is cleared. *)
Theorem fetched_appointments_are_the_patients
    (u : User.t) (st : Appointments.State) (w : World) :
  Appointments.fetchAppointments None st w = (st, w)
  ∧ (fault (oracle w (tick w)) = None →
     let '(st', w') := Appointments.fetchAppointments (Some u) st w in
     Appointments.appointments st'
       ≡ₚ Supabase.with_doctor (doctors w)
            <$> filter (λ a, Appointment.patient_id a = User.id u) (appointments w)
     ∧ Sorted (λ a b, Appointment.appointment_date a.1 ≤ Appointment.appointment_date b.1)
              (Appointments.appointments st')
     ∧ (∀ apt, apt ∈ Appointments.appointments st' →
          Appointment.patient_id apt.1 = User.id u
          ∧ apt.1 ∈ appointments w
          ∧ ∀ doc, apt.2 = Some doc →
                   doc ∈ doctors w ∧ Doctor.id doc = Appointment.doctor_id apt.1)
     ∧ Appointments.loading st' = false
     ∧ appointments w' = appointments w)
  ∧ (∀ e, fault (oracle w (tick w)) = Some e →
          let '(st', w') := Appointments.fetchAppointments (Some u) st w in
          st' = Appointments.setLoading false st ∧ toasts w' = toasts w).
Proof.
  split_and!.
  - reflexivity.
  - intros Hok.
    unfold Appointments.fetchAppointments, Supabase.select_appointments.
    run_world. rewrite Hok. simpl.
    set (rows := filter (λ a, Appointment.patient_id a = User.id u) (appointments w)).
    assert (Hp : merge_sort Supabase.date_asc (Supabase.with_doctor (doctors w) <$> rows)
                 ≡ₚ Supabase.with_doctor (doctors w) <$> rows)
      by apply merge_sort_Permutation.
    split_and!; try reflexivity.
    + exact Hp.
    + apply (Sorted_merge_sort Supabase.date_asc).
    + intros apt Hin. rewrite Hp in Hin.
      apply list_elem_of_fmap in Hin as (a & -> & Ha).
      subst rows. apply list_elem_of_filter in Ha as [Hpat Ha].
      split_and!; [exact Hpat | exact Ha |].
      intros doc Hdoc. unfold Supabase.with_doctor in Hdoc. simpl in Hdoc.
      destruct (list_find _ (doctors w)) as [[i x]|] eqn:Hfind; [|discriminate].
      simpl in Hdoc. injection Hdoc as ->.
      apply list_find_Some in Hfind as (Hi & Hid & _).
      split; [|exact Hid]. eapply list_elem_of_lookup_2. exact Hi.
  - intros e He.
    unfold Appointments.fetchAppointments, Supabase.select_appointments.
    run_world. rewrite He. simpl. split; reflexivity.
Qed.

(** Patient 1 of the scenario opens the appointments page. *)
Lemma fetched_appointments_are_the_patients_witness :
  let '(st', w') :=
    Appointments.fetchAppointments (Some patient_1)
      (Appointments.mkState [] true false) (world_1 quiet) in
  Appointments.loading st' = false
  ∧ ∀ apt, apt ∈ Appointments.appointments st' →
           Appointment.patient_id apt.1 = "patient-1".
Proof.
  destruct (fetched_appointments_are_the_patients patient_1
              (Appointments.mkState [] true false) (world_1 quiet)) as (_ & H & _).
  specialize (H eq_refl).
  destruct (Appointments.fetchAppointments _ _ _) as [st' w'].
  destruct H as (_ & _ & Hall & Hl & _).
  split; [exact Hl|]. intros apt Hin. destruct (Hall apt Hin) as [H _]. exact H.
Defined.

(** ** Sending a chat message, continued *)

Section strip.
Context (W : list (list Ascii.ascii)).

Lemma dropPrefix_Some (e l l' : list Ascii.ascii) :
  Curax.dropPrefix e l = Some l' ↔ l = e ++ l'.
Proof.
  revert l. induction e as [|a e IH]; intros l; simpl.
  - split; [by intros [= ->] | by intros ->].
  - destruct l as [|b l]; [split; discriminate|].
    destruct (decide (a = b)) as [->|Hne].
    + rewrite IH. split; [by intros -> | by intros [= ->]].
    + split; [discriminate | intros [= -> _]; done].
Qed.

Lemma dropFirst_Some (l l' : list Ascii.ascii) :
  Curax.dropFirst W l = Some l' → ∃ e, e ∈ W ∧ l = e ++ l'.
Proof.
  induction W as [|e W' IH]; simpl; [discriminate|].
  destruct (Curax.dropPrefix e l) as [l1|] eqn:Hd.
  - intros [= ->]. exists e. split; [apply list_elem_of_here | by apply dropPrefix_Some].
  - intros Hf. destruct (IH Hf) as (e' & He' & Hl).
    exists e'. split; [by apply list_elem_of_further | done].
Qed.

Lemma dropFirst_None (l : list Ascii.ascii) :
  Curax.dropFirst W l = None → ∀ e l', e ∈ W → l ≠ e ++ l'.
Proof.
  induction W as [|e W' IH]; simpl; intros Hf e0 l' He0; [by apply elem_of_nil in He0|].
  destruct (Curax.dropPrefix e l) as [l1|] eqn:Hd; [discriminate|].
  apply elem_of_cons in He0 as [->|He0]; [|by apply IH].
  intros Hl. apply dropPrefix_Some in Hl. congruence.
Qed.

(** What is stripped to nothing was a sequence of the encodings. *)
Lemma stripN_nil (n : nat) :
  ∀ l, Curax.stripN W n l = [] → ∃ es, Forall (λ e, e ∈ W) es ∧ l = concat es.
Proof.
  induction n as [|n IH]; intros l; simpl.
  - intros ->. exists []. split; [constructor | reflexivity].
  - destruct (Curax.dropFirst W l) as [l'|] eqn:Hd.
    + intros Hs. destruct (IH l' Hs) as (es & Hes & ->).
      apply dropFirst_Some in Hd as (e & He & ->).
      exists (e :: es). split; [by constructor | reflexivity].
    + intros ->. exists []. split; [constructor | reflexivity].
Qed.

(** With enough rounds, what is left starts with none of the encodings. *)
Lemma stripN_stuck (n : nat) :
  (∀ e, e ∈ W → e ≠ []) →
  ∀ l, (length l ≤ n)%nat → Curax.dropFirst W (Curax.stripN W n l) = None.
Proof.
  intros Hne. induction n as [|n IH]; intros l Hl; simpl.
  - destruct l; [|simpl in Hl; lia].
    destruct (Curax.dropFirst W []) as [l'|] eqn:Hd; [|reflexivity].
    apply dropFirst_Some in Hd as (e & He & Heq).
    symmetry in Heq. apply app_eq_nil in Heq as [-> _]. by destruct (Hne [] He).
  - destruct (Curax.dropFirst W l) as [l'|] eqn:Hd; [|exact Hd].
    apply IH. apply dropFirst_Some in Hd as (e & He & ->).
    rewrite length_app in Hl. specialize (Hne e He).
    destruct e; [done|]. simpl in Hl. lia.
Qed.

(** A sequence of encodings is stripped to nothing, if no encoding is empty
    or starts another one. *)
Lemma stripN_concat (es : list (list Ascii.ascii)) :
  (∀ e, e ∈ W → e ≠ []) →
  (∀ e e', e ∈ W → e' ∈ W → e `prefix_of` e' → e = e') →
  Forall (λ e, e ∈ W) es →
  ∀ n, (length (concat es) ≤ n)%nat → Curax.stripN W n (concat es) = [].
Proof.
  intros Hne Hfree. induction 1 as [|e es He Hes IH]; intros n Hn.
  - destruct n; simpl; [reflexivity|].
    destruct (Curax.dropFirst W []) as [l'|] eqn:Hd; [|reflexivity].
    apply dropFirst_Some in Hd as (e & He & Heq).
    symmetry in Heq. apply app_eq_nil in Heq as [-> _]. by destruct (Hne [] He).
  - simpl in Hn. rewrite length_app in Hn.
    assert (0 < length e)%nat by (specialize (Hne e He); destruct e; [done | simpl; lia]).
    destruct n as [|n]; [lia|]. simpl.
    destruct (Curax.dropFirst W (e ++ concat es)) as [l'|] eqn:Hd.
    + apply dropFirst_Some in Hd as (e' & He' & Heq).
      assert (e = e').
      { destruct (prefix_weak_total e e' (e ++ concat es)) as [Hp|Hp];
          [by eexists | by (exists l'; rewrite Heq) | by apply Hfree |].
        symmetry. by apply Hfree. }
      subst e'. apply app_inv_head in Heq as <-. apply IH. lia.
    + by destruct (dropFirst_None _ Hd e (concat es) He).
Qed.
End strip.

Lemma whiteSpace_encodings :
  (∀ e, e ∈ Curax.utf8 <$> Curax.whiteSpace → e ≠ [])
  ∧ (∀ e e', e ∈ Curax.utf8 <$> Curax.whiteSpace → e' ∈ Curax.utf8 <$> Curax.whiteSpace →
             e `prefix_of` e' → e = e').
Proof.
  split.
  - apply Forall_forall. apply (bool_decide_unpack _). vm_compute. exact I.
  - assert (H : Forall (λ e, Forall (λ e', e `prefix_of` e' → e = e')
                               (Curax.utf8 <$> Curax.whiteSpace))
                  (Curax.utf8 <$> Curax.whiteSpace)).
    { apply (bool_decide_unpack _). vm_compute. exact I. }
    intros e e' He He'. rewrite Forall_forall in H. specialize (H e He).
    rewrite Forall_forall in H. by apply H.
Qed.

Lemma text_nil (l : list Ascii.ascii) : Curax.text l = "" ↔ l = [].
Proof.
  split; [|by intros ->]. destruct l; [done|discriminate].
Qed.

(** A sequence of reversed encodings, read backwards, is a sequence of
    encodings. *)
Lemma reverse_concat_encodings (es : list (list Ascii.ascii)) :
  Forall (λ e, e ∈ (λ cp, reverse (Curax.utf8 cp)) <$> Curax.whiteSpace) es →
  ∃ es', Forall (λ e, e ∈ Curax.utf8 <$> Curax.whiteSpace) es'
         ∧ reverse (concat es) = concat es'.
Proof.
  induction 1 as [|e es He Hes (es' & Hes' & IH)].
  - exists []. split; [constructor | reflexivity].
  - apply list_elem_of_fmap in He as (cp & -> & Hcp).
    exists (es' ++ [Curax.utf8 cp]). split.
    + apply Forall_app. split; [done|]. constructor; [|constructor].
      apply list_elem_of_fmap. by exists cp.
    + simpl. rewrite reverse_app, reverse_involutive, IH, concat_app. simpl.
      by rewrite app_nil_r.
Qed.

Lemma trimStartBytes_nil (l : list Ascii.ascii) :
  Curax.trimStartBytes l = []
  ↔ ∃ cps, Forall (λ cp, cp ∈ Curax.whiteSpace) cps ∧ l = concat (Curax.utf8 <$> cps).
Proof.
  destruct whiteSpace_encodings as [Hne Hfree]. unfold Curax.trimStartBytes. split.
  - intros Hs. apply stripN_nil in Hs as (es & Hes & ->).
    clear Hne Hfree. induction Hes as [|e es He Hes (cps & Hcps & IH)].
    + exists []. split; [constructor | reflexivity].
    + apply list_elem_of_fmap in He as (cp & -> & Hcp).
      exists (cp :: cps). split; [by constructor|]. simpl. by rewrite IH.
  - intros (cps & Hcps & ->). apply stripN_concat; [done | done | | lia].
    apply Forall_fmap. eapply Forall_impl; [exact Hcps|].
    intros cp Hcp. cbv beta. apply list_elem_of_fmap. by exists cp.
Qed.

(** [!s.trim()]: the trimmed text is empty exactly when the text is white
    space only. *)
Lemma trim_empty (s : string) : Curax.trim s = "" ↔ blank s.
Proof.
  destruct whiteSpace_encodings as [Hne Hfree].
  unfold Curax.trim, blank. rewrite text_nil, <- trimStartBytes_nil. split.
  - unfold Curax.trimEndBytes. intros He.
    assert (Hs : Curax.stripN ((λ cp, reverse (Curax.utf8 cp)) <$> Curax.whiteSpace)
                   (length (Curax.trimStartBytes (Curax.bytes s)))
                   (reverse (Curax.trimStartBytes (Curax.bytes s))) = []).
    { apply (f_equal reverse) in He. by rewrite reverse_involutive in He. }
    apply stripN_nil in Hs as (es & Hes & Hrev).
    apply reverse_concat_encodings in Hes as (es' & Hes' & Hc).
    rewrite <- Hrev, reverse_involutive in Hc.
    destruct Hes' as [|e es' He' _]; [exact Hc|]. exfalso.
    pose proof (stripN_stuck _ (length (Curax.bytes s)) Hne (Curax.bytes s) (le_n _))
      as Hstuck.
    exact (dropFirst_None _ _ Hstuck e (concat es') He' Hc).
  - intros ->. reflexivity.
Qed.

Lemma send_consults_the_environment (u : User.t) (st : Curax.State) (w : World) :
  Curax.trim (Curax.input st) ≠ "" →
  Curax.loading st = false →
  (tick (Curax.sendMessage (Some u) st w).2 > tick w)%nat.
Proof.
  intros Hin Hl. unfold Curax.sendMessage.
  destruct (decide (Curax.trim (Curax.input st) = "")); [done|]. rewrite Hl.
  unfold Curax.read_clock, Supabase.insert_chat_message, Supabase.invoke_curax_chat.
  run_world.
  destruct (fault (oracle w (S (tick w)))); simpl;
    destruct (fault (oracle w (S (S (tick w))))); simpl; try lia;
    destruct (fault (oracle w (S (S (S (tick w)))))); simpl; lia.
Qed.

(** X9: [sendMessage] does nothing at all exactly when nobody is signed in,
    the input is empty or white space only, or a message is still being
    sent.  White space is what [trim] strips: any sequence of the code
    points TAB, LF, VT, FF, CR, SP, NBSP (U+00A0), U+1680, U+2000 to U+200A,
    U+2028, U+2029, U+202F, U+205F, U+3000 and U+FEFF.  A text of such
    characters is never stored or sent to the assistant. *)
Theorem blank_message_is_not_sent (auth : option User.t) (st : Curax.State) (w : World) :
  Curax.sendMessage auth st w = (st, w)
  ↔ auth = None ∨ blank (Curax.input st) ∨ Curax.loading st = true.
Proof.
  split.
  - intros H. destruct auth as [u|]; [|by left]. right.
    destruct (decide (Curax.trim (Curax.input st) = "")) as [Hb|Hne];
      [left; by apply trim_empty|]. right.
    destruct (Curax.loading st) eqn:Hl; [reflexivity|]. exfalso.
    pose proof (send_consults_the_environment u st w Hne Hl) as Ht.
    rewrite H in Ht. simpl in Ht. lia.
  - unfold Curax.sendMessage. intros [-> | [Hb | Hl]]; [reflexivity | |].
    + destruct auth; [|reflexivity].
      rewrite decide_True by (apply trim_empty; exact Hb). reflexivity.
    + destruct auth; [|reflexivity]. rewrite Hl.
      destruct (decide (Curax.trim (Curax.input st) = "")); reflexivity.
Qed.

(** A no-break space, a blank and an ideographic space send nothing. *)
Lemma blank_message_is_not_sent_witness :
  let spaces := Curax.text (concat (Curax.utf8 <$> [0xA0; 0x20; 0x3000]%N)) in
  Curax.sendMessage (Some patient_1) (Curax.mkState [] spaces false false) (world_0 quiet)
  = (Curax.mkState [] spaces false false, world_0 quiet).
Proof.
  intros spaces.
  apply (blank_message_is_not_sent (Some patient_1) (Curax.mkState [] spaces false false)
           (world_0 quiet)).
  right. left. exists [0xA0; 0x20; 0x3000]%N. split; [|reflexivity].
  repeat constructor; apply (bool_decide_unpack _); vm_compute; exact I.
Defined.

(** X10: when a message passes the guard, the input box is emptied, the
    trimmed text is shown at once as a message of the user, and the loading
    flag is false at the end, whatever fails.  If the gateway fails the
    text is not put back into the input and the user's message stays shown.
    If the two inserts and the gateway all succeed, the store gains the
    user's message and then the assistant's reply, the page shows the same
    two texts in the same order, and no toast appears. *)
Theorem sent_message_is_shown (u : User.t) (st : Curax.State) (w : World) :
  Curax.trim (Curax.input st) ≠ "" →
  Curax.loading st = false →
  let msg := Curax.trim (Curax.input st) in
  let now := oracle w (tick w) in
  let shown_user :=
    ChatMessage.mk ("temp-" +:+ pretty (clock now))%string (User.id u) user msg (stamp now) in
  let '(st', w') := Curax.sendMessage (Some u) st w in
  Curax.input st' = ""
  ∧ Curax.loading st' = false
  ∧ (∃ more, Curax.messages st' = Curax.messages st ++ shown_user :: more
             ∧ (length more ≤ 1)%nat)
  ∧ (∀ e, fault (oracle w (S (S (tick w)))) = Some e →
          Curax.messages st' = Curax.messages st ++ [shown_user]
          ∧ toasts w' = toasts w ++ [Curax.chat_failed])
  ∧ (fault (oracle w (S (tick w))) = None →
     fault (oracle w (S (S (tick w)))) = None →
     fault (oracle w (S (S (S (tick w))))) = None →
     let answer := reply (oracle w (S (S (tick w)))) in
     ChatMessage.content <$> chat_messages w'
       = (ChatMessage.content <$> chat_messages w) ++ [msg; answer]
     ∧ ChatMessage.role <$> chat_messages w'
       = (ChatMessage.role <$> chat_messages w) ++ [user; assistant]
     ∧ ChatMessage.content <$> Curax.messages st'
       = (ChatMessage.content <$> Curax.messages st) ++ [msg; answer]
     ∧ ChatMessage.role <$> Curax.messages st'
       = (ChatMessage.role <$> Curax.messages st) ++ [user; assistant]
     ∧ toasts w' = toasts w).
Proof.
  intros Hin Hl. unfold Curax.sendMessage.
  destruct (decide (Curax.trim (Curax.input st) = "")); [done|]. rewrite Hl.
  unfold Curax.read_clock, Supabase.insert_chat_message, Supabase.invoke_curax_chat.
  run_world.
  destruct (fault (oracle w (S (tick w)))) as [e1|] eqn:H1; simpl;
    destruct (fault (oracle w (S (S (tick w))))) as [e2|] eqn:H2; simpl;
    try destruct (fault (oracle w (S (S (S (tick w)))))) as [e3|] eqn:H3; simpl;
    (split_and!;
     [ reflexivity
     | reflexivity
     | eexists; split; [try rewrite <- (assoc_L (++)); reflexivity | simpl; lia]
     | intros e He; try discriminate He; split; reflexivity
     | intros Ha Hb Hc; try discriminate Ha; try discriminate Hb; try discriminate Hc;
       rewrite !fmap_app, <- !(assoc_L (++)); split_and!; reflexivity ]).
Qed.

(** "  hello " is sent while only the gateway is down. *)
Lemma sent_message_is_shown_witness :
  let '(st', w') := Curax.sendMessage (Some patient_1) chat_hello (world_0 gateway_down) in
  Curax.input st' = ""
  ∧ ChatMessage.content <$> Curax.messages st' = ["hello"].
Proof.
  pose proof (sent_message_is_shown patient_1 chat_hello (world_0 gateway_down)
                ltac:(vm_compute; discriminate) eq_refl) as H.
  cbv zeta in H.
  destruct (Curax.sendMessage _ _ _) as [st' w'].
  destruct H as (Hi & _ & _ & Hf & _).
  split; [exact Hi|].
  destruct (Hf _ eq_refl) as [Hm _]. rewrite Hm. reflexivity.
Defined.

(** ** The booking dialog while answers are outstanding *)






Ltac answer_arrives :=
  repeat (progress (try unfold DialogFlow.answer; try unfold WizardFlow.answer;
                    try unfold Supabase.answer_booked_times;
                    try unfold Supabase.answer_insert;
                    try unfold Supabase.answer_doctors;
                    run_world)).




(** ** The wizard while answers are outstanding *)

Lemma wizard_inserts_app (l l' : list WizardFlow.Pending) :
  WizardFlow.insertsInFlight (l ++ l')
  = (WizardFlow.insertsInFlight l + WizardFlow.insertsInFlight l')%nat.
Proof.
  induction l as [|[] l IH]; simpl; [reflexivity | exact IH | exact IH | by rewrite IH].
Qed.

Lemma wizard_searches_app (l l' : list WizardFlow.Pending) :
  WizardFlow.searchesInFlight (l ++ l')
  = (WizardFlow.searchesInFlight l + WizardFlow.searchesInFlight l')%nat.
Proof.
  induction l as [|[] l IH]; simpl; [reflexivity | by rewrite IH | exact IH | exact IH].
Qed.

Lemma wizard_counts_delete (l : list WizardFlow.Pending) :
  ∀ i p, l !! i = Some p →
         WizardFlow.insertsInFlight l
         = (WizardFlow.insertsInFlight (delete i l) + WizardFlow.insertsInFlight [p])%nat
         ∧ WizardFlow.searchesInFlight l
           = (WizardFlow.searchesInFlight (delete i l)
              + WizardFlow.searchesInFlight [p])%nat.
Proof.
  induction l as [|q l IH]; intros i p Hi; [discriminate|].
  destruct i as [|i]; simpl in Hi.
  - injection Hi as ->. simpl. destruct p; simpl; lia.
  - specialize (IH i p Hi). destruct q, p; simpl in *; lia.
Qed.

Ltac wizard_counts :=
  rewrite ?app_nil_r, ?wizard_inserts_app, ?wizard_searches_app; simpl; try lia.

Lemma wizard_click_invariant (auth : option User.t)
    (c : WizardFlow.Config) (e : CreateAppointmentDialog.Event) :
  WizardFlow.invariant auth c → WizardFlow.enabled (WizardFlow.state c) e →
  WizardFlow.invariant auth (WizardFlow.click auth e c).
Proof.
  destruct c as [st ps w]. intros Hinv He. pose proof Hinv as (Ht & Hn & Hs & Hr).
  simpl in *.
  destruct e as [spec fee rating experience | | i | [d|] | t | n | s | | b]; simpl.
  - split_and!; done.
  - (* the search *)
    split_and!; simpl; [exact Ht | wizard_counts | intros _; wizard_counts |].
    apply Forall_app. split; [exact Hr|]. by constructor.
  - destruct (CreateAppointmentDialog.doctors st !! i); simpl; split_and!; done.
  - (* a date *)
    destruct (CreateAppointmentDialog.selectedDoctor st) as [doc|]; simpl.
    + split_and!; simpl; [exact Ht | wizard_counts | intros H; specialize (Hs H); wizard_counts |].
      apply Forall_app. split; [exact Hr|]. by constructor.
    + split_and!; done.
  - split_and!; done.
  - destruct He as (_ & _ & Hin & _). split_and!; try done.
    simpl. intros t' [= <-]. exact Hin.
  - split_and!; done.
  - split_and!; done.
  - (* the booking *)
    destruct He as (_ & _ & Hl).
    destruct auth as [u|]; [|exact Hinv].
    destruct (CreateAppointmentDialog.selectedDoctor st) as [doc|]; [|exact Hinv].
    destruct (CreateAppointmentDialog.selectedDate st) as [d|]; [|exact Hinv].
    destruct (CreateAppointmentDialog.selectedTime st) as [t|] eqn:Hsel; [|exact Hinv].
    destruct (decide (t = "")); [exact Hinv|].
    split_and!; simpl.
    + rewrite Hsel. exact Ht.
    + rewrite wizard_inserts_app, Hn, Hl. reflexivity.
    + intros H. wizard_counts. specialize (Hs H). lia.
    + apply Forall_app. split; [exact Hr|]. constructor; [|constructor].
      simpl. split; [by apply Ht | by exists u].
  - destruct b; simpl; split_and!; try done.
Qed.

Lemma wizard_answer_invariant (auth : option User.t) (c : WizardFlow.Config) (i : nat) :
  WizardFlow.invariant auth c → WizardFlow.invariant auth (WizardFlow.answer i c).
Proof.
  intros Hinv. pose proof Hinv as (Ht & Hn & Hs & Hr). unfold WizardFlow.answer.
  destruct (WizardFlow.pending c !! i) as [p|] eqn:Hi; [|exact Hinv].
  destruct (wizard_counts_delete _ _ _ Hi) as [Hdi Hds].
  destruct c as [st ps w]. simpl in *.
  assert (Hsent : ∀ d day, Forall (WizardFlow.expected auth)
                    (requests w ++ [SelectBookedTimes d day])).
  { intros d day. apply Forall_app. split; [exact Hr|]. by constructor. }
  destruct p as [f q | f doc d thenTime | f row doc d]; simpl in *.
  - unfold Supabase.answer_doctors. run_world.
    destruct (fault f); simpl;
      (split_and!; simpl; [exact Ht | wizard_counts | discriminate | exact Hr]).
  - unfold Supabase.answer_booked_times. run_world.
    destruct (fault f); simpl; destruct thenTime; simpl;
      (split_and!; simpl;
       [exact Ht | wizard_counts | intros H; specialize (Hs H); wizard_counts | exact Hr]).
  - assert (Hl : CreateAppointmentDialog.loading st = true).
    { destruct (CreateAppointmentDialog.loading st); [reflexivity | lia]. }
    rewrite Hl in Hn.
    unfold Supabase.answer_insert. run_world.
    destruct (fault f) as [err|]; simpl.
    + destruct (decide (code err = "23505")); simpl;
        (split_and!; simpl;
         [exact Ht | wizard_counts | intros H; specialize (Hs H); wizard_counts
         | first [exact Hr | apply Hsent]]).
    + destruct (Ledger.insert f row (appointments w)) as [err|rows']; simpl;
        [destruct (decide (code err = "23505")); simpl|];
        (split_and!; simpl;
         [exact Ht | wizard_counts | intros H; specialize (Hs H); wizard_counts
         | first [exact Hr | apply Hsent]]).
Qed.

Lemma wizard_reachable_invariant (auth : option User.t) (c : WizardFlow.Config) :
  WizardFlow.reachable auth c → WizardFlow.invariant auth c.
Proof.
  induction 1 as [w Hw | c e _ IH He | c i _ IH | c w' _ IH Hw].
  - split_and!; simpl; [discriminate | reflexivity | discriminate | rewrite Hw; constructor].
  - by apply wizard_click_invariant.
  - by apply wizard_answer_invariant.
  - destruct IH as (Ht & Hn & Hs & Hr).
    split_and!; simpl; [done | done | done | by rewrite Hw].
Qed.

Lemma wizard_settle_is_handle (auth : option User.t)
    (c : WizardFlow.Config) (e : CreateAppointmentDialog.Event) :
  WizardFlow.pending c = [] →
  WizardFlow.pending (WizardFlow.settle (WizardFlow.click auth e c)) = []
  ∧ (WizardFlow.state (WizardFlow.settle (WizardFlow.click auth e c)),
     WizardFlow.world (WizardFlow.settle (WizardFlow.click auth e c)))
    = CreateAppointmentDialog.handle auth e (WizardFlow.state c) (WizardFlow.world c).
Proof.
  destruct c as [st ps w]. simpl. intros ->.
  unfold WizardFlow.settle.
  destruct e as [spec fee rating experience | | i | [d|] | t | n | s | | b]; simpl.
  - split; reflexivity.
  - unfold CreateAppointmentDialog.handleApplyCriteria,
      CreateAppointmentDialog.fetchFilteredDoctors, Supabase.select_doctors.
    answer_arrives.
    destruct (fault (oracle w (tick w))); answer_arrives; split; reflexivity.
  - destruct (CreateAppointmentDialog.doctors st !! i); split; reflexivity.
  - unfold CreateAppointmentDialog.handleDateSelect,
      CreateAppointmentDialog.fetchBookedSlots, Supabase.select_booked_times. simpl.
    destruct (CreateAppointmentDialog.selectedDoctor st) as [doc|]; answer_arrives;
      [|split; reflexivity].
    destruct (fault (oracle w (tick w))); answer_arrives; split; reflexivity.
  - split; reflexivity.
  - split; reflexivity.
  - split; reflexivity.
  - split; reflexivity.
  - unfold CreateAppointmentDialog.handleBooking.
    destruct auth as [u|]; [|by split].
    destruct (CreateAppointmentDialog.selectedDoctor st) as [doc|] eqn:Hdoc; [|by split].
    destruct (CreateAppointmentDialog.selectedDate st) as [d|]; [|by split].
    destruct (CreateAppointmentDialog.selectedTime st) as [t|]; [|by split].
    destruct (decide (t = "")); [by split|].
    unfold Supabase.insert_appointment, CreateAppointmentDialog.fetchBookedSlots,
      Supabase.select_booked_times, booking_row. simpl. rewrite Hdoc. answer_arrives.
    destruct (fault (oracle w (tick w))) as [err|]; answer_arrives.
    + destruct (decide (code err = "23505")); answer_arrives; [|split; reflexivity].
      destruct (fault (oracle w (S (tick w)))); answer_arrives; split; reflexivity.
    + destruct (Ledger.insert _ _ _) as [err|rows']; answer_arrives;
        [|split; reflexivity].
      destruct (decide (code err = "23505")); answer_arrives; [|split; reflexivity].
      destruct (fault (oracle w (S (tick w)))); answer_arrives; split; reflexivity.
  - destruct b; split; reflexivity.
Qed.

(** X12: the wizard with its [async] handlers, the user acting whether or
    not answers are outstanding and the answers arriving in any order.  In
    everything the wizard can get into: a chosen time is one of the thirteen
    [timeSlots]; at most one insert is waiting for its answer, and one is
    waiting exactly while [loading] is true; while [loadingDoctors] is true
    a search is waiting for its answer; every request sent is a search, a
    query for booked times, or an insert for the signed-in user at one of
    the [timeSlots].  When no answer is outstanding, nothing is loading,
    closing the wizard puts it back in its initial state, criteria
    included, and an event whose answers arrive before anything else
    happens does what the handler run in one piece does. *)
Theorem wizard_with_answers_outstanding
    (auth : option User.t) (c : WizardFlow.Config) :
  WizardFlow.reachable auth c →
  (∀ t, CreateAppointmentDialog.selectedTime (WizardFlow.state c) = Some t → t ∈ timeSlots)
  ∧ WizardFlow.insertsInFlight (WizardFlow.pending c)
    = (if CreateAppointmentDialog.loading (WizardFlow.state c) then 1 else 0)%nat
  ∧ (CreateAppointmentDialog.loadingDoctors (WizardFlow.state c) = true →
     (0 < WizardFlow.searchesInFlight (WizardFlow.pending c))%nat)
  ∧ Forall (WizardFlow.expected auth) (requests (WizardFlow.world c))
  ∧ (WizardFlow.pending c = [] →
     CreateAppointmentDialog.loading (WizardFlow.state c) = false
     ∧ CreateAppointmentDialog.loadingDoctors (WizardFlow.state c) = false
     ∧ (CreateAppointmentDialog.handleOpenChange false (WizardFlow.state c)
          (WizardFlow.world c)).1 = CreateAppointmentDialog.initial
     ∧ ∀ e,
         WizardFlow.pending (WizardFlow.settle (WizardFlow.click auth e c)) = []
         ∧ (WizardFlow.state (WizardFlow.settle (WizardFlow.click auth e c)),
            WizardFlow.world (WizardFlow.settle (WizardFlow.click auth e c)))
           = CreateAppointmentDialog.handle auth e (WizardFlow.state c)
               (WizardFlow.world c)).
Proof.
  intros Hreach.
  destruct (wizard_reachable_invariant auth c Hreach) as (Ht & Hn & Hs & Hr).
  split_and!; [exact Ht | exact Hn | exact Hs | exact Hr |].
  intros Hp.
  assert (Hl : CreateAppointmentDialog.loading (WizardFlow.state c) = false).
  { rewrite Hp in Hn. simpl in Hn.
    destruct (CreateAppointmentDialog.loading (WizardFlow.state c));
      [discriminate | reflexivity]. }
  assert (Hld : CreateAppointmentDialog.loadingDoctors (WizardFlow.state c) = false).
  { rewrite Hp in Hs. simpl in Hs.
    destruct (CreateAppointmentDialog.loadingDoctors (WizardFlow.state c));
      [specialize (Hs eq_refl); lia | reflexivity]. }
  split_and!; [exact Hl | exact Hld | | intros e; by apply wizard_settle_is_handle].
  unfold CreateAppointmentDialog.handleOpenChange, CreateAppointmentDialog.resetState.
  simpl. rewrite Hl, Hld. reflexivity.
Qed.

(** Patient 1 searches for cardiologists.  Searching a second time before
    the first answer has come leaves two searches outstanding, and the
    first answer clears [loadingDoctors] although one is still outstanding.
    Closing the wizard while the search is outstanding resets it, and the
    answer then puts it in the doctor step with the doctors found. *)
Lemma wizard_with_answers_outstanding_witness :
  let auth := Some patient_1 in
  let c0 := WizardFlow.mkConfig CreateAppointmentDialog.initial [] (world_0 quiet) in
  let c1 := WizardFlow.click auth CreateAppointmentDialog.ApplyCriteria
              (WizardFlow.click auth
                 (CreateAppointmentDialog.CriteriaChange "Cardiologist" (Qc_of_Z 150)
                    (Qc_of_Z 4) 5) c0) in
  let twice := WizardFlow.answer 0
                 (WizardFlow.click auth CreateAppointmentDialog.ApplyCriteria c1) in
  let closed := WizardFlow.answer 0
                  (WizardFlow.click auth (CreateAppointmentDialog.OpenChange false) c1) in
  (CreateAppointmentDialog.loadingDoctors (WizardFlow.state c1) = true
   ∧ (0 < WizardFlow.searchesInFlight (WizardFlow.pending c1))%nat)
  ∧ (CreateAppointmentDialog.loadingDoctors (WizardFlow.state twice) = false
     ∧ WizardFlow.searchesInFlight (WizardFlow.pending twice) = 1%nat)
  ∧ (CreateAppointmentDialog.step (WizardFlow.state closed) = CreateAppointmentDialog.doctor
     ∧ CreateAppointmentDialog.doctors (WizardFlow.state closed) = [doctor_D ∅]
     ∧ CreateAppointmentDialog.selectedSpecialization (WizardFlow.state closed)
       = "All Specializations"
     ∧ Forall (WizardFlow.expected auth) (requests (WizardFlow.world closed))).
Proof.
  intros auth c0 c1 twice closed.
  assert (R0 : WizardFlow.reachable auth c0) by (by apply WizardFlow.reach_initial).
  assert (R1 : WizardFlow.reachable auth c1).
  { apply WizardFlow.reach_click; [|reflexivity].
    apply WizardFlow.reach_click; [exact R0 | reflexivity]. }
  assert (Rclosed : WizardFlow.reachable auth closed).
  { apply WizardFlow.reach_answer, WizardFlow.reach_click; [exact R1 | exact I]. }
  destruct (wizard_with_answers_outstanding auth c1 R1) as (_ & _ & Hs & _).
  destruct (wizard_with_answers_outstanding auth closed Rclosed) as (_ & _ & _ & Hr & _).
  split_and!; [reflexivity | exact (Hs eq_refl) | reflexivity | reflexivity
              | reflexivity | reflexivity | reflexivity | exact Hr].
Defined.


(** ** The availability switches *)

(** X13: toggling a day flips the switch of that day and leaves every other
    entry of the map alone; toggles of different days commute.  Toggling a
    day twice shows all switches as before, but the map is the one before
    only if the day had an entry: for a day without one, an explicit
    [false] stays behind.  The profile page behaves the same, a missing map
    counting as the empty one. *)
Theorem toggle_flips_one_day (day : string) (av : gmap string bool) :
  Availability.checked (Availability.toggleAvailability day av) day
    = negb (Availability.checked av day)
  ∧ (∀ other, other ≠ day →
        Availability.toggleAvailability day av !! other = av !! other)
  ∧ (∀ other,
        Availability.toggleAvailability day (Availability.toggleAvailability other av)
        = Availability.toggleAvailability other (Availability.toggleAvailability day av))
  ∧ (∀ d, Availability.checked
            (Availability.toggleAvailability day (Availability.toggleAvailability day av)) d
          = Availability.checked av d)
  ∧ (is_Some (av !! day) →
     Availability.toggleAvailability day (Availability.toggleAvailability day av) = av)
  ∧ (av !! day = None →
     Availability.toggleAvailability day (Availability.toggleAvailability day av)
     = <[day := false]> av)
  ∧ (∀ d, Availability.profileChecked
            (Availability.toggleProfileAvailability day None) d
          = bool_decide (d = day))
  ∧ Availability.toggleProfileAvailability day (Some av)
    = Some (Availability.toggleAvailability day av).
Proof.
  unfold Availability.checked, Availability.toggleAvailability. split_and!.
  - rewrite lookup_insert_eq. reflexivity.
  - intros other Hne. rewrite lookup_insert_ne by done. reflexivity.
  - intros other. destruct (decide (day = other)) as [->|Hne]; [reflexivity|].
    rewrite !(lookup_insert_ne _ _ _ _) by done.
    apply insert_insert_ne. done.
  - intros d. rewrite lookup_insert_eq. simpl. rewrite insert_insert_eq.
    destruct (decide (d = day)) as [->|Hne].
    + rewrite lookup_insert_eq. simpl. apply negb_involutive.
    + rewrite lookup_insert_ne by done. reflexivity.
  - intros [b Hb]. rewrite lookup_insert_eq. simpl. rewrite insert_insert_eq.
    rewrite Hb. simpl. rewrite negb_involutive. apply insert_id. exact Hb.
  - intros Hn. rewrite lookup_insert_eq. simpl. rewrite insert_insert_eq.
    rewrite Hn. reflexivity.
  - intros d. unfold Availability.profileChecked, Availability.toggleProfileAvailability.
    simpl. destruct (decide (d = day)) as [->|Hne].
    + rewrite lookup_insert_eq. simpl. rewrite bool_decide_eq_true_2 by done. reflexivity.
    + rewrite lookup_insert_ne by done. rewrite lookup_empty. simpl.
      rewrite bool_decide_eq_false_2 by done. reflexivity.
  - reflexivity.
Qed.

(** Tuesday has an entry in the week of doctor D, Sunday has none. *)
Lemma toggle_flips_one_day_witness :
  Availability.toggleAvailability "Tuesday"
    (Availability.toggleAvailability "Tuesday" busy_week) = busy_week
  ∧ Availability.toggleAvailability "Sunday"
      (Availability.toggleAvailability "Sunday" busy_week)
    = <["Sunday" := false]> busy_week.
Proof.
  destruct (toggle_flips_one_day "Tuesday" busy_week) as (_ & _ & _ & _ & H1 & _).
  destruct (toggle_flips_one_day "Sunday" busy_week) as (_ & _ & _ & _ & _ & H2 & _).
  split.
  - apply H1. exists false. vm_compute. reflexivity.
  - apply H2. vm_compute. reflexivity.
Defined.

(** ** Searching the doctors page *)








(** ** The chat history *)

(** X15: the history the chat page loads holds at most fifty messages, all
    of them messages of the user that are in the store, oldest first.  When
    the user has more than fifty, it is the oldest that are shown: every
    message of the user that is left out is no older than any message
    shown.  With fifty or fewer, all are shown.  Without an answer the
    messages on the page stay; the loading flag is cleared either way. *)
Theorem history_is_the_oldest_fifty
    (uid : string) (rows : list ChatMessage.t) (st : Curax.State) :
  let shown := CuraxHistory.history uid rows in
  (length shown ≤ 50)%nat
  ∧ (∀ m, m ∈ shown → m ∈ rows ∧ ChatMessage.user_id m = uid)
  ∧ StronglySorted
      (λ a b, String.le (ChatMessage.created_at a) (ChatMessage.created_at b)) shown
  ∧ (∀ m m', m ∈ shown → m' ∈ rows → ChatMessage.user_id m' = uid → m' ∉ shown →
             String.le (ChatMessage.created_at m) (ChatMessage.created_at m'))
  ∧ ((length (filter (λ m, ChatMessage.user_id m = uid) rows) ≤ 50)%nat →
     shown ≡ₚ filter (λ m, ChatMessage.user_id m = uid) rows)
  ∧ Curax.messages (CuraxHistory.fetchHistory (Some shown) st) = shown
  ∧ Curax.messages (CuraxHistory.fetchHistory None st) = Curax.messages st
  ∧ (∀ data, Curax.historyLoading (CuraxHistory.fetchHistory data st) = false).
Proof.
  intros shown. subst shown. unfold CuraxHistory.history.
  set (mine := filter (λ m, ChatMessage.user_id m = uid) rows).
  set (sorted := merge_sort CuraxHistory.created_asc mine).
  assert (Hp : sorted ≡ₚ mine) by apply merge_sort_Permutation.
  assert (Hs : StronglySorted CuraxHistory.created_asc (take 50 sorted ++ drop 50 sorted)).
  { rewrite take_drop. apply (StronglySorted_merge_sort CuraxHistory.created_asc). }
  split_and!.
  - rewrite length_take. lia.
  - intros m Hm. apply subseteq_take in Hm. rewrite Hp in Hm.
    subst mine. apply list_elem_of_filter in Hm as [Hu Hm]. split; assumption.
  - apply StronglySorted_app_1_l in Hs. exact Hs.
  - intros m m' Hm Hm' Hu Hnot.
    assert (Hin : m' ∈ take 50 sorted ++ drop 50 sorted).
    { rewrite take_drop, Hp. subst mine. apply list_elem_of_filter. split; assumption. }
    apply elem_of_app in Hin as [Hin|Hin]; [contradiction|].
    exact (StronglySorted_app_1_elem_of _ _ _ _ _ Hs Hm Hin).
  - intros Hlen. rewrite take_ge; [exact Hp|]. rewrite Hp. exact Hlen.
  - reflexivity.
  - reflexivity.
  - reflexivity.
Qed.

(** A store with one message of patient 1 and one of somebody else. *)
Lemma history_is_the_oldest_fifty_witness :
  CuraxHistory.history "patient-1"
    [ ChatMessage.mk "m2" "patient-2" user "hi" "2026-03-01T07:00:00Z";
      ChatMessage.mk "m1" "patient-1" user "hello" "2026-03-01T08:00:00Z" ]
  ≡ₚ [ ChatMessage.mk "m1" "patient-1" user "hello" "2026-03-01T08:00:00Z" ].
Proof.
  destruct (history_is_the_oldest_fifty "patient-1"
              [ ChatMessage.mk "m2" "patient-2" user "hi" "2026-03-01T07:00:00Z";
                ChatMessage.mk "m1" "patient-1" user "hello" "2026-03-01T08:00:00Z" ]
              chat_hello) as (_ & _ & _ & _ & H & _).
  apply H. vm_compute. lia.
Defined.

(** ** The edge functions *)

(** X16: what the two edge functions answer.  A request with method OPTIONS
    is answered 200 with the CORS headers and no body, and nothing is asked
    of the gateway.  Any other request is answered either 200 or 500, in
    both cases with the CORS headers and the JSON content type: 200 with the
    value found at [choices[0].message.content] of the gateway's answer
    (as [response], or as [analysis]), when the body was parsed, was not
    [null], the gateway call returned and that path could be read; 500 with
    an [error] text in every other case.  The chat function always calls the
    Lovable gateway with the Gemini model, whatever the environment holds,
    and passes the [message] field on as it is.  An answer of the gateway
    that has no [choices] (an error payload, say) gives 500 with the
    engine's TypeError text, not with anything the gateway said. *)
Theorem edge_functions_answer
    (E : EdgeFunctions.Engine) (env : string → option string)
    (fetch : EdgeFunctions.Completion → EdgeFunctions.Outcome EdgeFunctions.Json)
    (method : string) (json : EdgeFunctions.Outcome EdgeFunctions.Json) :
  (method = "OPTIONS" →
   EdgeFunctions.curax_chat E env fetch method json
     = {| EdgeFunctions.status := 200; EdgeFunctions.headers := EdgeFunctions.corsHeaders;
          EdgeFunctions.body := None |}
   ∧ EdgeFunctions.analyze_report E env fetch method json
     = {| EdgeFunctions.status := 200; EdgeFunctions.headers := EdgeFunctions.corsHeaders;
          EdgeFunctions.body := None |})
  ∧ (method ≠ "OPTIONS" →
     let r := EdgeFunctions.curax_chat E env fetch method json in
     EdgeFunctions.headers r = EdgeFunctions.jsonHeaders
     ∧ ((EdgeFunctions.status r = 200
         ∧ ∃ parsed message data answer,
             json = EdgeFunctions.Returned parsed
             ∧ EdgeFunctions.destructure E parsed "message" = EdgeFunctions.Returned message
             ∧ fetch (EdgeFunctions.chatRequest env message) = EdgeFunctions.Returned data
             ∧ EdgeFunctions.completion E data = EdgeFunctions.Returned answer
             ∧ EdgeFunctions.body r = Some (EdgeFunctions.stringify1 "response" answer))
        ∨ (EdgeFunctions.status r = 500
           ∧ ∃ m, EdgeFunctions.body r
                  = Some (EdgeFunctions.JObject [("error", EdgeFunctions.JString m)]))))
  ∧ (method ≠ "OPTIONS" →
     let r := EdgeFunctions.analyze_report E env fetch method json in
     EdgeFunctions.headers r = EdgeFunctions.jsonHeaders
     ∧ ((EdgeFunctions.status r = 200
         ∧ ∃ parsed content data answer,
             json = EdgeFunctions.Returned parsed
             ∧ EdgeFunctions.destructure E parsed "content" = EdgeFunctions.Returned content
             ∧ fetch (EdgeFunctions.reportRequest E env content)
               = EdgeFunctions.Returned data
             ∧ EdgeFunctions.completion E data = EdgeFunctions.Returned answer
             ∧ EdgeFunctions.body r = Some (EdgeFunctions.stringify1 "analysis" answer))
        ∨ (EdgeFunctions.status r = 500
           ∧ ∃ m, EdgeFunctions.body r
                  = Some (EdgeFunctions.JObject [("error", EdgeFunctions.JString m)]))))
  ∧ (∀ message,
        EdgeFunctions.url (EdgeFunctions.chatRequest env message)
          = "https://ai.gateway.lovable.dev/v1/chat/completions"
        ∧ EdgeFunctions.model (EdgeFunctions.chatRequest env message)
          = "google/gemini-3-flash-preview"
        ∧ EdgeFunctions.user_content (EdgeFunctions.chatRequest env message) = message)
  ∧ (∀ fields,
        EdgeFunctions.field "choices" fields = None →
        EdgeFunctions.completion E (EdgeFunctions.JObject fields)
        = EdgeFunctions.Thrown (EdgeFunctions.read_error E None "0"))
  ∧ (∀ parsed message fields,
        method ≠ "OPTIONS" →
        json = EdgeFunctions.Returned parsed →
        EdgeFunctions.destructure E parsed "message" = EdgeFunctions.Returned message →
        fetch (EdgeFunctions.chatRequest env message)
          = EdgeFunctions.Returned (EdgeFunctions.JObject fields) →
        EdgeFunctions.field "choices" fields = None →
        EdgeFunctions.curax_chat E env fetch method json
        = EdgeFunctions.failure (EdgeFunctions.read_error E None "0")).
Proof.
  split_and!.
  - intros ->. split; reflexivity.
  - intros Hm. unfold EdgeFunctions.curax_chat. cbv zeta.
    destruct (decide (method = "OPTIONS")); [done|].
    destruct json as [parsed|m]; simpl; [|split; [reflexivity | right; eauto]].
    destruct (EdgeFunctions.destructure E parsed "message") as [message|m] eqn:Hd; simpl;
      [|split; [reflexivity | right; eauto]].
    destruct (fetch (EdgeFunctions.chatRequest env message)) as [data|m] eqn:Hf; simpl;
      [|split; [reflexivity | right; eauto]].
    destruct (EdgeFunctions.completion E data) as [answer|m] eqn:Hc; simpl;
      [|split; [reflexivity | right; eauto]].
    split; [reflexivity|]. left. split; [reflexivity|].
    exists parsed, message, data, answer. split_and!; done.
  - intros Hm. unfold EdgeFunctions.analyze_report. cbv zeta.
    destruct (decide (method = "OPTIONS")); [done|].
    destruct json as [parsed|m]; simpl; [|split; [reflexivity | right; eauto]].
    destruct (EdgeFunctions.destructure E parsed "content") as [content|m] eqn:Hd; simpl;
      [|split; [reflexivity | right; eauto]].
    destruct (fetch (EdgeFunctions.reportRequest E env content)) as [data|m] eqn:Hf; simpl;
      [|split; [reflexivity | right; eauto]].
    destruct (EdgeFunctions.completion E data) as [answer|m] eqn:Hc; simpl;
      [|split; [reflexivity | right; eauto]].
    split; [reflexivity|]. left. split; [reflexivity|].
    exists parsed, content, data, answer. split_and!; done.
  - intros message. split_and!; reflexivity.
  - intros fields Hf. unfold EdgeFunctions.completion. simpl. rewrite Hf. reflexivity.
  - intros parsed message fields Hm -> Hd Hf Hc.
    unfold EdgeFunctions.curax_chat.
    destruct (decide (method = "OPTIONS")); [done|]. simpl.
    rewrite Hd. simpl. rewrite Hf. simpl.
    unfold EdgeFunctions.completion. simpl. rewrite Hc. reflexivity.
Qed.

(** The gateway refuses the key: the chat function answers 500 with the
    TypeError of reading [choices[0]]. *)
Lemma edge_functions_answer_witness :
  EdgeFunctions.curax_chat v8 (λ _, None) refusing_gateway "POST"
    (EdgeFunctions.Returned
       (EdgeFunctions.JObject [("message", EdgeFunctions.JString "hello")]))
  = EdgeFunctions.failure "Cannot read properties of undefined (reading '0')".
Proof.
  destruct (edge_functions_answer v8 (λ _, None) refusing_gateway "POST"
              (EdgeFunctions.Returned
                 (EdgeFunctions.JObject [("message", EdgeFunctions.JString "hello")])))
    as (_ & _ & _ & _ & _ & H).
  apply (H (EdgeFunctions.JObject [("message", EdgeFunctions.JString "hello")])
           (Some (EdgeFunctions.JString "hello"))
           [("error", EdgeFunctions.JString "Invalid API key")]);
    [discriminate | reflexivity | reflexivity | reflexivity | reflexivity].
Defined.

(** ** The two copies of the booking flow agree *)

Lemma twin_step (auth : option User.t) (doc : Doctor.t)
    (st : CreateAppointmentDialog.State) (w w' : World)
    (e : CreateAppointmentDialog.Event) (e' : BookingDialog.Event) :
  CreateAppointmentDialog.selectedDoctor st = Some doc →
  Twin.to_dialog e = Some e' →
  Twin.without_calls w = Twin.without_calls w' →
  Twin.as_dialog (CreateAppointmentDialog.handle auth e st w).1
    = (BookingDialog.handle auth (Some doc) e' (Twin.as_dialog st) w').1
  ∧ CreateAppointmentDialog.selectedDoctor
      (CreateAppointmentDialog.handle auth e st w).1 = Some doc
  ∧ Twin.without_calls (CreateAppointmentDialog.handle auth e st w).2
    = Twin.without_calls (BookingDialog.handle auth (Some doc) e' (Twin.as_dialog st) w').2
  ∧ calls (BookingDialog.handle auth (Some doc) e' (Twin.as_dialog st) w').2 = calls w'
  ∧ (calls (CreateAppointmentDialog.handle auth e st w).2 = calls w
     ∨ calls (CreateAppointmentDialog.handle auth e st w).2
       = calls w ++ [onAppointmentCreated]).
Proof.
  intros Hdoc He Hw.
  destruct w as [ds aps cms o k rs ts cs], w' as [ds' aps' cms' o' k' rs' ts' cs'].
  unfold Twin.without_calls in Hw. simpl in Hw.
  injection Hw as <- <- <- <- <- <- <-.
  destruct e as [spec fee rating experience | | i | d | t | n | s | | b];
    try discriminate He.
  - (* DateSelect *)
    injection He as <-. simpl.
    destruct d as [d|].
    + unfold CreateAppointmentDialog.handleDateSelect,
        CreateAppointmentDialog.fetchBookedSlots, BookingDialog.handleDateSelect,
        BookingDialog.fetchBookedSlots. simpl. rewrite Hdoc.
      unfold Supabase.select_booked_times. run_world.
      destruct (fault (o k)); simpl; split_and!; try done; by left.
    + simpl. split_and!; try done. by left.
  - (* TimeSelect *)
    injection He as <-. simpl. split_and!; try done. by left.
  - (* NotesChange *)
    injection He as <-. simpl. split_and!; try done. by left.
  - (* Back *)
    destruct s; try discriminate He; injection He as <-; simpl;
      split_and!; try done; by left.
  - (* Booking *)
    injection He as <-. simpl.
    unfold CreateAppointmentDialog.handleBooking, BookingDialog.handleBooking. simpl.
    rewrite Hdoc.
    destruct auth as [u|]; [|simpl; split_and!; try done; by left].
    destruct (CreateAppointmentDialog.selectedDate st) as [d|] eqn:Hd;
      [|simpl; split_and!; try done; by left].
    destruct (CreateAppointmentDialog.selectedTime st) as [t|] eqn:Ht;
      [|simpl; split_and!; try done; by left].
    destruct (decide (t = "")); [simpl; split_and!; try done; by left|].
    unfold Supabase.insert_appointment, Ledger.insert. run_world.
    destruct (fault (o k)) as [err|]; simpl.
    + destruct (decide (code err = "23505")); simpl.
      * unfold CreateAppointmentDialog.fetchBookedSlots, BookingDialog.fetchBookedSlots,
          Supabase.select_booked_times.
        simpl. rewrite Hdoc. run_world.
        destruct (fault (o (S k))); simpl; split_and!; try done; by left.
      * split_and!; try done. by left.
    + destruct (decide (Ledger.taken _ aps)); simpl.
      * unfold CreateAppointmentDialog.fetchBookedSlots, BookingDialog.fetchBookedSlots,
          Supabase.select_booked_times.
        simpl. rewrite Hdoc. run_world.
        destruct (fault (o (S k))); simpl; split_and!; try done; by left.
      * split_and!; try done. by right.
Qed.

Lemma twin_run (auth : option User.t) (doc : Doctor.t)
    (es : list CreateAppointmentDialog.Event) :
  ∀ (es' : list BookingDialog.Event) (st : CreateAppointmentDialog.State) (w w' : World),
  CreateAppointmentDialog.selectedDoctor st = Some doc →
  mapM Twin.to_dialog es = Some es' →
  Twin.without_calls w = Twin.without_calls w' →
  Twin.as_dialog (CreateAppointmentDialog.run auth es st w).1
    = (BookingDialog.run auth (Some doc) es' (Twin.as_dialog st) w').1
  ∧ CreateAppointmentDialog.selectedDoctor
      (CreateAppointmentDialog.run auth es st w).1 = Some doc
  ∧ Twin.without_calls (CreateAppointmentDialog.run auth es st w).2
    = Twin.without_calls (BookingDialog.run auth (Some doc) es' (Twin.as_dialog st) w').2
  ∧ calls (BookingDialog.run auth (Some doc) es' (Twin.as_dialog st) w').2 = calls w'
  ∧ ∃ k : nat, (k ≤ length es)%nat
      ∧ calls (CreateAppointmentDialog.run auth es st w).2
        = calls w ++ replicate k onAppointmentCreated.
Proof.
  induction es as [|e es IH]; intros es' st w w' Hdoc Hes Hw.
  - injection Hes as <-. simpl. unfold ret. simpl. split_and!; try done.
    exists 0%nat. split; [done|]. simpl. by rewrite app_nil_r.
  - rewrite mapM_Some in Hes. apply Forall2_cons_inv_l in Hes as (e' & es1 & He & Hes & ->).
    apply mapM_Some in Hes.
    destruct (twin_step auth doc st w w' e e' Hdoc He Hw)
      as (Hst & Hdoc1 & Hw1 & Hc' & Hc).
    simpl. unfold bind.
    destruct (CreateAppointmentDialog.handle auth e st w) as [st1 w1] eqn:H1.
    destruct (BookingDialog.handle auth (Some doc) e' (Twin.as_dialog st) w')
      as [st2 w2] eqn:H2.
    simpl in Hst, Hdoc1, Hw1, Hc', Hc. subst st2.
    destruct (IH es1 st1 w1 w2 Hdoc1 Hes Hw1) as (Ist & Idoc & Iw & Ic' & k & Hk & Ic).
    split_and!; try done; [congruence|].
    destruct Hc as [Hc|Hc]; rewrite Hc in Ic.
    + exists k. split; [simpl; lia|done].
    + exists (S k). split; [simpl; lia|]. rewrite Ic, <- app_assoc. done.
Qed.

(** X17: from the date step on the wizard is a second copy of the dialog.
    Let the wizard hold the chosen doctor [doc], and let [es] be any sequence
    of the events the two components share (choosing a date or a time,
    editing the notes, going back to the date or the time step, confirming
    the booking).  Running [es] in the wizard and running the corresponding
    events in the dialog opened for [doc], from the same selection and the
    same world, ends in the same selection, step, loading flag and booked
    slots, sends the same requests, shows the same toasts and leaves the
    same ledger; the wizard still holds [doc]; the dialog calls nothing
    back, and the wizard has only added calls of [onAppointmentCreated], at
    most one per event. *)
Theorem wizard_repeats_dialog
    (auth : option User.t) (doc : Doctor.t) (st : CreateAppointmentDialog.State)
    (w : World) (es : list CreateAppointmentDialog.Event)
    (es' : list BookingDialog.Event) :
  CreateAppointmentDialog.selectedDoctor st = Some doc →
  mapM Twin.to_dialog es = Some es' →
  Twin.as_dialog (CreateAppointmentDialog.run auth es st w).1
    = (BookingDialog.run auth (Some doc) es' (Twin.as_dialog st) w).1
  ∧ CreateAppointmentDialog.selectedDoctor
      (CreateAppointmentDialog.run auth es st w).1 = Some doc
  ∧ Twin.without_calls (CreateAppointmentDialog.run auth es st w).2
    = Twin.without_calls (BookingDialog.run auth (Some doc) es' (Twin.as_dialog st) w).2
  ∧ calls (BookingDialog.run auth (Some doc) es' (Twin.as_dialog st) w).2 = calls w
  ∧ ∃ k : nat, (k ≤ length es)%nat
      ∧ calls (CreateAppointmentDialog.run auth es st w).2
        = calls w ++ replicate k onAppointmentCreated.
Proof.
  intros Hdoc Hes. by apply twin_run.
Qed.

(** Patient 1 goes back from the confirmation, takes 10:00 and confirms, in
    the wizard and in the dialog: both end on the success step with one row
    written, and only the wizard has called back. *)
Lemma wizard_repeats_dialog_witness :
  let wizard := CreateAppointmentDialog.run (Some patient_1)
                  [CreateAppointmentDialog.Back CreateAppointmentDialog.time;
                   CreateAppointmentDialog.TimeSelect "10:00";
                   CreateAppointmentDialog.Booking]
                  wizard_confirm (world_0 quiet) in
  let dialog := BookingDialog.run (Some patient_1) (Some (doctor_D ∅))
                  [BookingDialog.Back BookingDialog.time;
                   BookingDialog.TimeSelect "10:00";
                   BookingDialog.Booking]
                  dialog_confirm (world_0 quiet) in
  Twin.as_dialog wizard.1 = dialog.1
  ∧ BookingDialog.step dialog.1 = BookingDialog.success
  ∧ length (appointments dialog.2) = 1%nat
  ∧ Twin.without_calls wizard.2 = Twin.without_calls dialog.2
  ∧ calls dialog.2 = []
  ∧ calls wizard.2 = [onAppointmentCreated].
Proof.
  intros wizard dialog.
  destruct (wizard_repeats_dialog (Some patient_1) (doctor_D ∅) wizard_confirm
              (world_0 quiet)
              [CreateAppointmentDialog.Back CreateAppointmentDialog.time;
               CreateAppointmentDialog.TimeSelect "10:00";
               CreateAppointmentDialog.Booking]
              [BookingDialog.Back BookingDialog.time;
               BookingDialog.TimeSelect "10:00";
               BookingDialog.Booking]
              eq_refl eq_refl) as (Hst & _ & Hw & Hc & _).
  split_and!; [exact Hst | reflexivity | reflexivity | exact Hw | exact Hc | reflexivity].
Defined.
